(** * Safe Warner: session state machine and alerting policy

    A shallow embedding of the stateful core of the Safe Warner wellness
    monitor: [core/health_monitor.py] (class [HealthMonitor]),
    [utils/notifications.py] ([fast_notify]), [utils/voice.py]
    ([VoiceGuide.speak]) and the background-mode methods of
    [gui/main_window.py] (class [SafeWarnerGUI]).

    Conventions of the embedding.
    - Python floats holding instants and durations are exact rationals [Q];
      rounding is not modelled.
    - [time.time()] and [datetime.now()] both sample the host clock.  The
      clock is an oracle [clock : nat -> Q]; the k-th sample taken by the
      program is [clock k], and the world counts the samples taken so far.
    - The vision library, the metric extractors and [psutil] are
      collaborators: what they return (or that they raise) on a frame is
      part of the [Frame] handed to [process_frame].
    - [print] is not modelled.
    - Python dictionaries keyed by alert kind are [gmap string _]; the
      insertion-ordered [system_info] dictionary is an association list. *)

From Stdlib Require Import QArith Qminmax Qabs Lqa ZArith List String Bool Lia.
From stdpp Require Import base gmap strings.
From coqutil Require Import Datatypes.RecordSettersUsingExistingGetters.
Import ListNotations.

Local Open Scope Q_scope.

(** ** utils/constants.py *)

Definition EAR_THRESHOLD : Q := 0.20.
Definition PROXIMITY_THRESHOLD : Q := 0.35.
Definition POSTURE_TILT_THRESHOLD : Q := 15.
Definition SLOUCH_THRESHOLD : Q := 0.15.
Definition BLINK_WINDOW : Q := 10.
Definition SCREEN_TIME_BREAK : Q := 20 * 60.
Definition NOTIFICATION_COOLDOWN : Q := 30.
Definition EYE_EXERCISE_DURATION : Q := 15.
Definition AUTO_MODE_INTERVAL : Q := 30.

(** ** Data model *)

(** The three strings returned by [detect_gaze_direction]. *)
Inductive Gaze := look_left | look_right | look_center.

(** The two values taken by [current_phase]. *)
Inductive Phase := phase_right | phase_left.

Definition looking_at (p : Phase) (detection : Gaze) : bool :=
  match p, detection with
  | phase_right, look_right => true
  | phase_left, look_left => true
  | _, _ => false
  end.

(** A notification body: a literal, or the f-string of the temperature
    alert, kept with the value it interpolates. *)
Inductive Message :=
| Msg (text : string)
| MsgHighTemperature (temp : Q).

(** An entry of [session_data['alerts']]. *)
Record AlertRecord := {
  alert_timestamp : Q;
  alert_type : string;
  alert_title : string;
  alert_message : Message
}.

(** An entry of [session_data['eye_exercises']]. *)
Record ExerciseRecord := {
  exercise_timestamp : Q;
  duration : Q;
  success : bool
}.

Record SessionData := {
  start_time : Q;
  alerts : list AlertRecord;
  eye_exercises : list ExerciseRecord;
  mode : string
}.

(** The attributes of a [HealthMonitor] instance that the session logic
    reads or writes. *)
Record HealthMonitor := {
  auto_mode : bool;
  auto_mode_interval : Q;
  blink_timestamps : list Q;
  session_start : Q;
  last_break_time : Q;
  last_notification : gmap string Q;
  alert_stats : gmap string nat;
  eye_exercise_active : bool;
  eye_exercise_start_time : Q;
  time_left : Q;
  exercise_done : bool;
  current_phase : Phase;
  countdown_active : bool;
  last_detection : Gaze;
  phase_start_time : Q;
  paused_time_left : Q;
  auto_mode_last_check : Q;
  session_data : SessionData;
  psutil_available : bool;
  mediapipe_available : bool
}.

(** What the optional back ends do on this host.  [win_toaster] and [plyer]
    are [None] when the import fails, and [Some ok] when the module loads
    and its call succeeds ([ok = true]) or raises ([ok = false]).  [sapi]
    says whether the SAPI voice could be created. *)
Record Backends := {
  windows : bool;
  win_toaster : option bool;
  plyer : option bool;
  sapi : bool
}.

(** One call of [fast_notify], with the value it returned. *)
Record Toast := {
  toast_title : string;
  toast_message : Message;
  toast_delivered : bool
}.

(** The monitor together with the environment it acts on. *)
Record World := {
  hm : HealthMonitor;
  clock : nat -> Q;
  reads : nat;
  backends : Backends;
  notified : list Toast;
  spoken : list string
}.

(** ** A state monad over the world *)

Definition M (A : Type) : Type := World -> A * World.

Definition ret {A} (a : A) : M A := fun w => (a, w).

Definition bind {A B} (c : M A) (k : A -> M B) : M B :=
  fun w => let (a, w') := c w in k a w'.

Declare Scope monad_scope.
Delimit Scope monad_scope with monad.
Notation "x <- c1 ;; c2" := (bind c1 (fun x => c2))
  (at level 100, c1 at next level, right associativity) : monad_scope.
Notation "c1 ;; c2" := (bind c1 (fun _ => c2))
  (at level 100, right associativity) : monad_scope.
Local Open Scope monad_scope.

Definition exec {A} (c : M A) (w : World) : World := snd (c w).
Definition eval {A} (c : M A) (w : World) : A := fst (c w).

Definition self : M HealthMonitor := fun w => (hm w, w).

Definition update (f : HealthMonitor -> HealthMonitor) : M unit :=
  fun w => (tt, w <| hm ::= f |>).

Definition when (b : bool) (c : M unit) : M unit := if b then c else ret tt.

(** [time.time()], and likewise [datetime.now()]: the next clock sample. *)
Definition time : M Q :=
  fun w => (clock w (reads w), w <| reads ::= S |>).

(** ** utils/notifications.py *)

Definition fast_notify (title : string) (message : Message) : M bool :=
  fun w =>
    let b := backends w in
    let toast_ok :=
      windows b && match win_toaster b with Some ok => ok | None => false end in
    let plyer_ok := match plyer b with Some ok => ok | None => false end in
    let delivered := if toast_ok then true else plyer_ok in
    (delivered,
     w <| notified ::= fun l => l ++ [ {| toast_title := title;
                                          toast_message := message;
                                          toast_delivered := delivered |} ] |>).

(** ** utils/voice.py *)

Definition speak (text : string) : M unit :=
  fun w =>
    if String.eqb text "" then (tt, w)
    else if sapi (backends w) then (tt, w <| spoken ::= fun l => l ++ [text] |>)
    else (tt, w).

(** ** HealthMonitor: mode *)

Definition set_auto_mode (enabled : bool) : M unit :=
  update (fun m => m <| auto_mode := enabled |>
                     <| session_data ::= fun d => d <| mode := if enabled then "auto" else "manual" |> |>).

Definition should_check_auto_mode : M bool :=
  m <- self ;;
  if negb (auto_mode m) then ret false
  else
    current_time <- time ;;
    m <- self ;;
    ret (Qle_bool (auto_mode_interval m) (current_time - auto_mode_last_check m)).

(** ** HealthMonitor: cooldown gate *)

Definition should_notify (kind : string) : M bool :=
  current_time <- time ;;
  m <- self ;;
  let last_time := default 0 (last_notification m !! kind) in
  ret (Qle_bool NOTIFICATION_COOLDOWN (current_time - last_time)).

(** The body of the [try] runs up to the [KeyError] of
    [self.alert_stats[alert_type] += 1] when the kind has no counter; the
    handler only prints. *)
Definition send_notification (title : string) (message : Message) (kind : string) : M unit :=
  ok <- should_notify kind ;;
  if negb ok && negb (String.eqb kind "eye_exercise") then ret tt
  else
    _ <- fast_notify title message ;;
    t <- time ;;
    update (fun m => m <| last_notification ::= <[kind := t]> |>) ;;
    m <- self ;;
    match alert_stats m !! kind with
    | None => ret tt
    | Some n =>
        update (fun m => m <| alert_stats ::= <[kind := S n]> |>) ;;
        stamp <- time ;;
        update (fun m => m <| session_data ::= fun d =>
          d <| alerts ::= fun l => l ++ [ {| alert_timestamp := stamp;
                                            alert_type := kind;
                                            alert_title := title;
                                            alert_message := message |} ] |> |>)
    end.

(** ** HealthMonitor: eye exercise state machine *)

Definition start_eye_exercise : M unit :=
  update (fun s => s <| eye_exercise_active := true |>) ;;
  started <- time ;;
  update (fun s => s <| eye_exercise_start_time := started |>
                     <| time_left := 15 |>
                     <| exercise_done := false |>
                     <| current_phase := phase_right |>
                     <| countdown_active := false |>) ;;
  phase_started <- time ;;
  update (fun s => s <| phase_start_time := phase_started |>
                     <| paused_time_left := 15 |>) ;;
  speak "Eye exercise starting. Please look to the right for fifteen seconds." ;;
  send_notification "👀 Eye Exercise Time!"
    (Msg "Please look to the RIGHT side for 15 seconds") "eye_exercise".

Definition update_eye_exercise (detection : Gaze) : M unit :=
  m <- self ;;
  if negb (eye_exercise_active m) || exercise_done m then ret tt
  else
    current_time <- time ;;
    match current_phase m with
    | phase_right =>
        match detection with
        | look_right =>
            when (negb (countdown_active m))
              (update (fun s => s <| countdown_active := true |>
                                  <| phase_start_time := current_time |>
                                  <| time_left := paused_time_left s |>)) ;;
            update (fun s =>
              let elapsed := current_time - phase_start_time s in
              s <| time_left := Qmax 0 (paused_time_left s - elapsed) |>) ;;
            m <- self ;;
            if Qle_bool (time_left m) 0 then
              speak "Good. Now look to the left for fifteen seconds." ;;
              update (fun s => s <| current_phase := phase_left |>
                                 <| countdown_active := false |>
                                 <| paused_time_left := 15 |>
                                 <| time_left := 15 |>) ;;
              send_notification "👀 Good! Now look LEFT"
                (Msg "Please look to the LEFT side for 15 seconds") "eye_exercise"
            else ret tt
        | _ =>
            if countdown_active m then
              update (fun s => s <| countdown_active := false |>
                                 <| paused_time_left := time_left s |>) ;;
              speak "Please keep looking right to continue." ;;
              send_notification "👀 Keep Looking Right"
                (Msg "Please maintain your gaze to the RIGHT side to continue the exercise")
                "eye_exercise"
            else ret tt
        end
    | phase_left =>
        match detection with
        | look_left =>
            when (negb (countdown_active m))
              (update (fun s => s <| countdown_active := true |>
                                  <| phase_start_time := current_time |>
                                  <| time_left := paused_time_left s |>)) ;;
            update (fun s =>
              let elapsed := current_time - phase_start_time s in
              s <| time_left := Qmax 0 (paused_time_left s - elapsed) |>) ;;
            m <- self ;;
            if Qle_bool (time_left m) 0 then
              update (fun s => s <| eye_exercise_active := false |>
                                 <| exercise_done := true |>) ;;
              let total_duration := current_time - eye_exercise_start_time m in
              speak "Exercise complete. Great job." ;;
              send_notification "✅ Exercise Complete!"
                (Msg "Great job! Your eye exercise is complete.") "eye_exercise" ;;
              stamp <- time ;;
              update (fun s => s <| session_data ::= fun d =>
                d <| eye_exercises ::= fun l =>
                  l ++ [ {| exercise_timestamp := stamp;
                            duration := total_duration;
                            success := true |} ] |> |>) ;;
              m <- self ;;
              if auto_mode m then
                t <- time ;;
                update (fun s => s <| auto_mode_last_check := t |>)
              else ret tt
            else ret tt
        | _ =>
            if countdown_active m then
              update (fun s => s <| countdown_active := false |>
                                 <| paused_time_left := time_left s |>) ;;
              speak "Please keep looking left to continue." ;;
              send_notification "👀 Keep Looking Left"
                (Msg "Please maintain your gaze to the LEFT side to continue the exercise")
                "eye_exercise"
            else ret tt
        end
    end.

(** The dictionary returned by [get_eye_exercise_status]. *)
Record ExerciseStatus := {
  status_phase : Phase;
  remaining_time : Q;
  total_elapsed : Q;
  paused : bool;
  status_exercise_done : bool
}.

Definition get_eye_exercise_status : M (option ExerciseStatus) :=
  m <- self ;;
  if negb (eye_exercise_active m) then ret None
  else
    now <- time ;;
    ret (Some {| status_phase := current_phase m;
                 remaining_time := time_left m;
                 total_elapsed := now - eye_exercise_start_time m;
                 paused := negb (countdown_active m);
                 status_exercise_done := exercise_done m |}).

(** ** Collaborators seen by one frame *)

(** A call into a collaborator either returns or raises. *)
Inductive Call (A : Type) :=
| Returns (a : A)
| Raises (error : string).
Arguments Returns {A} a.
Arguments Raises {A} error.

(** What the face mesh and the metric extractors yield for a detected face:
    the bucket computed by [detect_gaze_direction], the normalised [y] of
    every landmark, and the value of [eye_aspect_ratio] (which indexes the
    landmark list and is not guarded). *)
Record Face := {
  face_gaze : Gaze;
  face_ys : list Q;
  face_ear : Call Q
}.

(** The two scalars [analyze_posture] derives from the pose landmarks. *)
Record PoseAngles := {
  pose_tilt_angle : Q;
  pose_slouch_ratio : Q
}.

Record Battery := {
  percent : Q;
  power_plugged : option bool;
  secsleft : Q
}.

(** The [psutil] sensor calls made by [check_system_health].
    [sensors_temperatures] lists, per sensor name, the current value of each
    of its entries. *)
Record Sensors := {
  sensors_battery : Call (option Battery);
  sensors_temperatures : Call (list (string * list Q))
}.

(** One captured frame: [multi_face_landmarks] of the face mesh (its first
    face, if any), [pose_landmarks] of the pose model ([Some None] when
    [analyze_posture] meets its [IndexError]/[AttributeError] handler), and
    the sensors as they read while the frame is processed. *)
Record Frame := {
  frame_face : Call (option Face);
  frame_pose : Call (option (option PoseAngles));
  frame_sensors : Sensors
}.

(** ** HealthMonitor: metric checks *)

(** A Python value stored in [system_info]. *)
Inductive PyVal :=
| PyNone
| PyBool (b : bool)
| PyNum (q : Q)
| PyStr (s : string).

Definition py_truthy (value : PyVal) : bool :=
  match value with
  | PyNone => false
  | PyBool b => b
  | PyNum q => negb (Qeq_bool q 0)
  | PyStr s => negb (String.eqb s "")
  end.

(** [needle in s] on strings. *)
Fixpoint contains (needle s : string) : bool :=
  if String.prefix needle s then true
  else match s with
       | EmptyString => false
       | String _ rest => contains needle rest
       end.

(** An insertion-ordered dictionary. *)
Definition Dict := list (string * PyVal).

Fixpoint dict_set (key : string) (value : PyVal) (d : Dict) : Dict :=
  match d with
  | [] => [(key, value)]
  | (k, v) :: rest =>
      if String.eqb k key then (k, value) :: rest
      else (k, v) :: dict_set key value rest
  end.

Fixpoint dict_get (key : string) (d : Dict) : option PyVal :=
  match d with
  | [] => None
  | (k, v) :: rest => if String.eqb k key then Some v else dict_get key rest
  end.

Definition battery_info (battery : option Battery) (system_info : Dict) : Dict :=
  match battery with
  | Some b =>
      dict_set "battery_seconds_left" (PyNum (secsleft b))
        (dict_set "power_plugged"
           (match power_plugged b with Some p => PyBool p | None => PyNone end)
           (dict_set "battery_percent" (PyNum (percent b)) system_info))
  | None => system_info
  end.

Fixpoint temperature_info (temps : list (string * list Q)) (system_info : Dict) : Dict :=
  match temps with
  | [] => system_info
  | (name, entries) :: rest =>
      temperature_info rest
        (match entries with
         | current :: _ => dict_set ("temp_" ++ name) (PyNum current) system_info
         | [] => system_info
         end)
  end.

Definition check_system_health (sensors : Sensors) : M Dict :=
  m <- self ;;
  let system_info := [("available", PyBool false)] in
  if negb (psutil_available m) then
    ret (dict_set "message" (PyStr "psutil not available") system_info)
  else
    match sensors_battery sensors with
    | Raises e => ret (dict_set "error" (PyStr e) system_info)
    | Returns battery =>
        let system_info := battery_info battery system_info in
        match sensors_temperatures sensors with
        | Raises e => ret (dict_set "error" (PyStr e) system_info)
        | Returns temps =>
            let system_info :=
              match temps with
              | [] => dict_set "temperature" (PyStr "unavailable") system_info
              | _ => temperature_info temps system_info
              end in
            ret (dict_set "available" (PyBool true) system_info)
        end
    end.

Fixpoint list_max (x : Q) (l : list Q) : Q :=
  match l with
  | [] => x
  | y :: rest => list_max (if Qle_bool y x then x else y) rest
  end.

Fixpoint list_min (x : Q) (l : list Q) : Q :=
  match l with
  | [] => x
  | y :: rest => list_min (if Qle_bool x y then x else y) rest
  end.

(** [max]/[min] of an empty list raise [ValueError], which the handler
    turns into [False]. *)
Definition check_proximity (ys : list Q) : bool :=
  match ys with
  | [] => false
  | y :: rest =>
      let bbox_height := list_max y rest - list_min y rest in
      negb (Qle_bool bbox_height PROXIMITY_THRESHOLD)
  end.

Definition check_blink_rate : M bool :=
  current_time <- time ;;
  m <- self ;;
  let window_start := current_time - BLINK_WINDOW in
  let recent_blinks :=
    List.length (List.filter (fun t => Qle_bool window_start t) (blink_timestamps m)) in
  let expected_min_blinks := (BLINK_WINDOW / 60) * 8 in
  ret (negb (Qle_bool expected_min_blinks (inject_Z (Z.of_nat recent_blinks)))).

Definition check_screen_time : M bool :=
  current_time <- time ;;
  m <- self ;;
  ret (negb (Qle_bool (current_time - last_break_time m) SCREEN_TIME_BREAK)).

(** The dictionary built by [analyze_posture]. *)
Record Posture := {
  tilt_angle : Q;
  slouch_ratio : Q;
  is_tilted : bool;
  is_slouching : bool
}.

Definition analyze_posture (landmarks : option PoseAngles) : M (option Posture) :=
  m <- self ;;
  if negb (mediapipe_available m) then ret None
  else
    match landmarks with
    | None => ret None
    | Some a =>
        ret (Some {| tilt_angle := pose_tilt_angle a;
                     slouch_ratio := pose_slouch_ratio a;
                     is_tilted :=
                       negb (Qle_bool (Qabs (pose_tilt_angle a)) POSTURE_TILT_THRESHOLD);
                     is_slouching :=
                       negb (Qle_bool (pose_slouch_ratio a) SLOUCH_THRESHOLD) |})
    end.

(** [deque(maxlen=100).append]. *)
Definition deque_append (t : Q) (d : list Q) : list Q :=
  let d' := d ++ [t] in
  if (100 <? List.length d')%nat then List.tl d' else d'.

(** [int(x)]: truncation towards zero. *)
Definition py_int (x : Q) : Z := Z.quot (Qnum x) (Zpos (Qden x)).

(** ** HealthMonitor.process_frame *)

(** The [results] dictionary; a key that was never set is [None]. *)
Record Results := {
  result_error : option string;
  gaze_direction : option Gaze;
  proximity_alert : option bool;
  ear : option Q;
  low_blink_rate : option bool;
  face_error : option string;
  posture : option (option Posture);
  pose_error : option string;
  screen_time_alert : option bool;
  system_info : option Dict
}.

Definition no_results : Results :=
  {| result_error := None; gaze_direction := None; proximity_alert := None;
     ear := None; low_blink_rate := None; face_error := None; posture := None;
     pose_error := None; screen_time_alert := None; system_info := None |}.

(** The auto-mode bookkeeping at the top of [process_frame]. *)
Definition auto_mode_check : M unit :=
  m <- self ;;
  if auto_mode m then
    due <- should_check_auto_mode ;;
    if due then
      t <- time ;;
      update (fun s => s <| auto_mode_last_check := t |>)
    else ret tt
  else ret tt.

(** The first [try] block: face detection and analysis. *)
Definition face_block (face : Call (option Face)) (results : Results) : M Results :=
  match face with
  | Raises e => ret (results <| face_error := Some e |>)
  | Returns None => ret results
  | Returns (Some f) =>
      let results := results <| gaze_direction := Some (face_gaze f) |> in
      update (fun s => s <| last_detection := face_gaze f |>) ;;
      m <- self ;;
      when (eye_exercise_active m) (update_eye_exercise (face_gaze f)) ;;
      let proximity := check_proximity (face_ys f) in
      let results := results <| proximity_alert := Some proximity |> in
      (if proximity then
         ok <- should_notify "proximity" ;;
         m <- self ;;
         when (ok && negb (eye_exercise_active m))
           (send_notification "📱 Move Back Slightly"
              (Msg "You're sitting too close to the screen. Maintain 20-30cm distance.")
              "proximity")
       else ret tt) ;;
      match face_ear f with
      | Raises e => ret (results <| face_error := Some e |>)
      | Returns ear_value =>
          let results := results <| ear := Some ear_value |> in
          (if negb (Qle_bool EAR_THRESHOLD ear_value) then
             t <- time ;;
             update (fun s => s <| blink_timestamps ::= deque_append t |>)
           else ret tt) ;;
          low_blink <- check_blink_rate ;;
          let results := results <| low_blink_rate := Some low_blink |> in
          (if low_blink then
             ok <- should_notify "blink_rate" ;;
             m <- self ;;
             when (ok && negb (eye_exercise_active m))
               (send_notification "👁️ Rest Your Eyes"
                  (Msg "Your blink rate is low. Remember to blink regularly.")
                  "blink_rate")
           else ret tt) ;;
          m <- self ;;
          (if auto_mode m && negb (eye_exercise_active m) then
             due <- should_check_auto_mode ;;
             if due then
               issue <- (if proximity || low_blink then ret true else check_screen_time) ;;
               if issue then
                 start_eye_exercise ;;
                 t <- time ;;
                 update (fun s => s <| last_break_time := t |>)
               else ret tt
             else ret tt
           else ret tt) ;;
          ret results
      end
  end.

(** The second [try] block: pose detection and posture analysis. *)
Definition pose_block (pose : Call (option (option PoseAngles))) (results : Results) : M Results :=
  match pose with
  | Raises e => ret (results <| pose_error := Some e |>)
  | Returns None => ret results
  | Returns (Some landmarks) =>
      posture_data <- analyze_posture landmarks ;;
      let results := results <| posture := Some posture_data |> in
      m <- self ;;
      match posture_data with
      | Some p =>
          if negb (eye_exercise_active m) then
            (if is_tilted p then
               ok <- should_notify "posture" ;;
               when ok
                 (send_notification "🎯 Adjust Your Posture"
                    (Msg "Your head is tilted. Keep your head straight and aligned.")
                    "posture")
             else ret tt) ;;
            (if is_slouching p then
               ok <- should_notify "posture" ;;
               when ok
                 (send_notification "💪 Sit Up Straight"
                    (Msg "You're slouching. Straighten your back and relax your shoulders.")
                    "posture")
             else ret tt) ;;
            m <- self ;;
            (if auto_mode m && negb (eye_exercise_active m) then
               due <- should_check_auto_mode ;;
               if due && (is_tilted p || is_slouching p) then
                 start_eye_exercise ;;
                 t <- time ;;
                 update (fun s => s <| last_break_time := t |>)
               else ret tt
             else ret tt) ;;
            ret results
          else ret results
      | None => ret results
      end
  end.

(** The screen-time check after the two [try] blocks. *)
Definition screen_time_block (results : Results) : M Results :=
  alert <- check_screen_time ;;
  let results := results <| screen_time_alert := Some alert |> in
  (if alert then
     ok <- should_notify "screen_time" ;;
     m <- self ;;
     when (ok && negb (eye_exercise_active m) && negb (auto_mode m))
       (send_notification "⏰ Time for a Break!"
          (Msg "You've been using the screen for 20 minutes. Consider taking a break.")
          "screen_time")
   else ret tt) ;;
  ret results.

(** The loop over [system_info.items()], testing ['temp' in key and
    temp > 70].  Numbers compare, [True]/[False] count as 1/0, and a string
    or [None] against an [int] is a [TypeError]; nothing guards the loop, so
    the error leaves [process_frame]. *)
Fixpoint temperature_alerts (items : Dict) : M (Call unit) :=
  match items with
  | [] => ret (Returns tt)
  | (key, temp) :: rest =>
      if contains "temp" key then
        match temp with
        | PyNum q =>
            if negb (Qle_bool q 70) then
              ok <- should_notify "system_health" ;;
              when ok
                (send_notification "🔥 System Running Hot"
                   (MsgHighTemperature q) "system_health") ;;
              temperature_alerts rest
            else temperature_alerts rest
        | PyBool _ => temperature_alerts rest
        | PyStr _ | PyNone => ret (Raises "TypeError")
        end
      else temperature_alerts rest
  end.

(** The decimated system-health check that ends [process_frame]. *)
Definition system_health_block (sensors : Sensors) (results : Results) : M (Call Results) :=
  now <- time ;;
  m <- self ;;
  if (py_int now mod 10 =? 0)%Z && negb (eye_exercise_active m) then
    info <- check_system_health sensors ;;
    let results := results <| system_info := Some info |> in
    if match dict_get "available" info with Some v => py_truthy v | None => false end then
      outcome <- temperature_alerts info ;;
      match outcome with
      | Returns _ => ret (Returns results)
      | Raises e => ret (Raises e)
      end
    else ret (Returns results)
  else ret (Returns results).

Definition process_frame (frame : Frame) : M (Call Results) :=
  m <- self ;;
  if negb (mediapipe_available m) then
    ret (Returns (no_results <| result_error := Some "MediaPipe not available" |>))
  else
    auto_mode_check ;;
    results <- face_block (frame_face frame) no_results ;;
    results <- pose_block (frame_pose frame) results ;;
    results <- screen_time_block results ;;
    system_health_block (frame_sensors frame) results.

(** [VideoThread.run]: frames are processed one after the other; an
    exception that leaves [process_frame] ends the thread. *)
Fixpoint run_frames (frames : list Frame) : M (Call unit) :=
  match frames with
  | [] => ret (Returns tt)
  | frame :: rest =>
      outcome <- process_frame frame ;;
      match outcome with
      | Returns _ => run_frames rest
      | Raises e => ret (Raises e)
      end
  end.

(** ** HealthMonitor.__init__ *)

(** The machine the program starts on. *)
Record Host := {
  host_clock : nat -> Q;
  host_backends : Backends;
  has_psutil : bool;
  has_mediapipe : bool
}.

Definition initial_alert_stats : gmap string nat :=
  <["eye_exercise" := 0%nat]> (<["system_health" := 0%nat]> (<["screen_time" := 0%nat]>
    (<["blink_rate" := 0%nat]> (<["posture" := 0%nat]> (<["proximity" := 0%nat]> ∅))))).

(** The constructor samples the clock five times: [session_start],
    [last_break_time], [auto_mode_last_check], the ledger's [start_time] and
    [last_check_time] (an attribute nothing else uses). *)
Definition HealthMonitor_init (auto : bool) (host : Host) : World :=
  let t := host_clock host in
  {| hm := {| auto_mode := auto;
              auto_mode_interval := AUTO_MODE_INTERVAL;
              blink_timestamps := [];
              session_start := t 0%nat;
              last_break_time := t 1%nat;
              last_notification := ∅;
              alert_stats := initial_alert_stats;
              eye_exercise_active := false;
              eye_exercise_start_time := 0;
              time_left := 15;
              exercise_done := false;
              current_phase := phase_right;
              countdown_active := false;
              last_detection := look_center;
              phase_start_time := 0;
              paused_time_left := 15;
              auto_mode_last_check := t 2%nat;
              session_data := {| start_time := t 3%nat;
                                 alerts := [];
                                 eye_exercises := [];
                                 mode := if auto then "auto" else "manual" |};
              psutil_available := has_psutil host;
              mediapipe_available := has_mediapipe host |};
     clock := t;
     reads := 5;
     backends := host_backends host;
     notified := [];
     spoken := [] |}.

(** ** gui/main_window.py: background operation *)

(** The slots handed to [QTimer.singleShot]. *)
Inductive Callback :=
| try_background_after_start_cb
| wake_up_for_check_cb
| perform_wake_check_and_exercise_cb
| complete_exercise_cycle_cb.

(** The attributes of [SafeWarnerGUI] that decide background operation,
    the visibility of the window, whether the exercise button is enabled,
    and the single-shot timers that are armed (delay in ms, slot). *)
Record SafeWarnerGUI := {
  video_thread : bool;
  is_camera_active : bool;
  auto_mode_active : bool;
  background_mode : bool;
  window_shown : bool;
  eye_exercise_button_enabled : bool;
  single_shots : list (Z * Callback)
}.

(** The window and the world its monitor lives in. *)
Record App := {
  gui : SafeWarnerGUI;
  world : World
}.

Definition G (A : Type) : Type := App -> A * App.

Definition gret {A} (a : A) : G A := fun app => (a, app).

Definition gbind {A B} (c : G A) (k : A -> G B) : G B :=
  fun app => let (a, app') := c app in k a app'.

Declare Scope gui_scope.
Delimit Scope gui_scope with gui.
Notation "x <- c1 ;; c2" := (gbind c1 (fun x => c2))
  (at level 100, c1 at next level, right associativity) : gui_scope.
Notation "c1 ;; c2" := (gbind c1 (fun _ => c2))
  (at level 100, right associativity) : gui_scope.

(** A call on [self.monitor]. *)
Definition monitor {A} (c : M A) : G A :=
  fun app => let (a, w) := c (world app) in (a, app <| world := w |>).

Definition window : G SafeWarnerGUI := fun app => (gui app, app).

Definition set_gui (f : SafeWarnerGUI -> SafeWarnerGUI) : G unit :=
  fun app => (tt, app <| gui ::= f |>).

Definition single_shot (msec : Z) (slot : Callback) : G unit :=
  set_gui (fun g => g <| single_shots ::= fun l => l ++ [(msec, slot)] |>).

Local Open Scope gui_scope.

Definition start_camera : G unit :=
  m <- monitor self ;;
  if negb (mediapipe_available m) then gret tt
  else set_gui (fun g => g <| video_thread := true |>
                           <| is_camera_active := true |>
                           <| eye_exercise_button_enabled := true |>).

Definition stop_camera : G unit :=
  set_gui (fun g => g <| video_thread := false |>
                      <| is_camera_active := false |>
                      <| eye_exercise_button_enabled := false |>).

Definition check_user_distance : G bool :=
  now <- monitor time ;;
  m <- monitor self ;;
  let session_duration := now - session_start m in
  gret (negb (Qle_bool session_duration 3)).

Definition has_active_alerts : G bool := gret false.

Definition schedule_next_check : G unit :=
  m <- monitor self ;;
  single_shot (py_int (auto_mode_interval m * 1000)) wake_up_for_check_cb.

Definition switch_to_background_mode : G unit :=
  g <- window ;;
  if background_mode g then gret tt
  else
    set_gui (fun g => g <| background_mode := true |>) ;;
    stop_camera ;;
    set_gui (fun g => g <| window_shown := false |>) ;;
    schedule_next_check.

Definition check_background_operation : G unit :=
  g <- window ;;
  if negb (auto_mode_active g) || negb (is_camera_active g) then gret tt
  else
    m <- monitor self ;;
    if auto_mode m && negb (eye_exercise_active m) then
      distance_ok <- check_user_distance ;;
      if distance_ok then
        alerts_active <- has_active_alerts ;;
        if negb alerts_active then switch_to_background_mode else gret tt
      else gret tt
    else gret tt.

Definition try_background_after_start : G unit :=
  g <- window ;;
  if negb (auto_mode_active g) || negb (is_camera_active g) then gret tt
  else
    distance_ok <- check_user_distance ;;
    if distance_ok then
      alerts_active <- has_active_alerts ;;
      if negb alerts_active then switch_to_background_mode else gret tt
    else gret tt.

Definition start_camera_auto_mode : G unit :=
  set_gui (fun g => g <| auto_mode_active := true |>) ;;
  now <- monitor time ;;
  monitor (update (fun s => s <| auto_mode_last_check := now |>)) ;;
  start_camera ;;
  single_shot 3000 try_background_after_start_cb.

Definition wake_up_for_check : G unit :=
  g <- window ;;
  if negb (auto_mode_active g) then gret tt
  else
    set_gui (fun g => g <| background_mode := false |> <| window_shown := true |>) ;;
    now <- monitor time ;;
    monitor (update (fun s => s <| auto_mode_last_check := now - auto_mode_interval s |>)) ;;
    start_camera ;;
    single_shot 2000 perform_wake_check_and_exercise_cb.

Definition perform_wake_check_and_exercise : G unit :=
  distance_ok <- check_user_distance ;;
  if distance_ok then monitor start_eye_exercise else gret tt.

Definition complete_exercise_cycle : G unit :=
  g <- window ;;
  if auto_mode_active g && negb (background_mode g) then switch_to_background_mode
  else gret tt.

(** The button slot [SafeWarnerGUI.start_eye_exercise]. *)
Definition on_start_eye_exercise : G unit := monitor start_eye_exercise.

Definition show_normal : G unit :=
  set_gui (fun g => g <| background_mode := false |> <| window_shown := true |>).

Definition toggle_mode : G unit :=
  m <- monitor self ;;
  if auto_mode m then
    monitor (set_auto_mode false) ;;
    set_gui (fun g => g <| auto_mode_active := false |>)
  else
    monitor (set_auto_mode true) ;;
    set_gui (fun g => g <| auto_mode_active := true |>) ;;
    g <- window ;;
    if negb (is_camera_active g) then start_camera else gret tt.

(** The part of [update_status] that arms a timer. *)
Definition update_status : G unit :=
  exercise_status <- monitor get_eye_exercise_status ;;
  g <- window ;;
  match exercise_status with
  | Some st =>
      if status_exercise_done st && auto_mode_active g
      then single_shot 5000 complete_exercise_cycle_cb
      else gret tt
  | None => gret tt
  end.

(** [SafeWarnerGUI.__init__]. *)
Definition SafeWarnerGUI_init (host : Host) : App :=
  {| gui := {| video_thread := false;
               is_camera_active := false;
               auto_mode_active := false;
               background_mode := false;
               window_shown := false;
               eye_exercise_button_enabled := false;
               single_shots := [] |};
     world := HealthMonitor_init false host |}.

(** [main()] started with [--auto-mode]: the window stays hidden or
    minimised. *)
Definition main_auto_mode (host : Host) : App :=
  snd ((monitor (set_auto_mode true) ;; start_camera_auto_mode) (SafeWarnerGUI_init host)).

(** [main()] without the flag: [window.show()]. *)
Definition main_manual (host : Host) : App :=
  snd (set_gui (fun g => g <| window_shown := true |>) (SafeWarnerGUI_init host)).

(** What the Qt event loop and the video thread can deliver. *)
Inductive Event :=
| background_timer_timeout
| status_timer_timeout
| single_shot_timeout (slot : Callback)
| eye_exercise_button_clicked
| mode_toggle_clicked
| tray_show_triggered
| frame_captured (frame : Frame).

Definition run_callback (slot : Callback) : G unit :=
  match slot with
  | try_background_after_start_cb => try_background_after_start
  | wake_up_for_check_cb => wake_up_for_check
  | perform_wake_check_and_exercise_cb => perform_wake_check_and_exercise
  | complete_exercise_cycle_cb => complete_exercise_cycle
  end.

Definition Callback_eqb (a b : Callback) : bool :=
  match a, b with
  | try_background_after_start_cb, try_background_after_start_cb
  | wake_up_for_check_cb, wake_up_for_check_cb
  | perform_wake_check_and_exercise_cb, perform_wake_check_and_exercise_cb
  | complete_exercise_cycle_cb, complete_exercise_cycle_cb => true
  | _, _ => false
  end.

(** Disarm the first armed timer for [slot]; [None] when there is none. *)
Fixpoint disarm (slot : Callback) (l : list (Z * Callback)) : option (list (Z * Callback)) :=
  match l with
  | [] => None
  | (msec, c) :: rest =>
      if Callback_eqb c slot then Some rest
      else option_map (cons (msec, c)) (disarm slot rest)
  end.

(** One delivery.  A single-shot slot runs only if it is armed, a click
    only reaches an enabled button, a frame only a running video thread (which
    an escaping exception ends). *)
Definition deliver (e : Event) : G unit :=
  g <- window ;;
  match e with
  | background_timer_timeout => check_background_operation
  | status_timer_timeout => update_status
  | single_shot_timeout slot =>
      match disarm slot (single_shots g) with
      | Some rest => set_gui (fun g => g <| single_shots := rest |>) ;; run_callback slot
      | None => gret tt
      end
  | eye_exercise_button_clicked =>
      if eye_exercise_button_enabled g then on_start_eye_exercise else gret tt
  | mode_toggle_clicked => toggle_mode
  | tray_show_triggered => show_normal
  | frame_captured frame =>
      if video_thread g then
        outcome <- monitor (process_frame frame) ;;
        match outcome with
        | Returns _ => gret tt
        | Raises _ => set_gui (fun g => g <| video_thread := false |>)
        end
      else gret tt
  end.

Fixpoint deliver_all (events : list Event) (app : App) : App :=
  match events with
  | [] => app
  | e :: rest => deliver_all rest (snd (deliver e app))
  end.

Local Close Scope gui_scope.

(** ** Vocabulary of the statements *)

(** The cooldown test [should_notify] performs on the next clock sample. *)
Definition cooldown_elapsed (kind : string) (w : World) : bool :=
  Qle_bool NOTIFICATION_COOLDOWN
    (clock w (reads w) - default 0 (last_notification (hm w) !! kind)).

(** The value [fast_notify] returns on a host. *)
Definition delivers (b : Backends) : bool :=
  if windows b && match win_toaster b with Some ok => ok | None => false end
  then true
  else match plyer b with Some ok => ok | None => false end.

(** The ledger of alerts. *)
Definition alert_log (w : World) : list AlertRecord := alerts (session_data (hm w)).

(** The ledger of completed exercises. *)
Definition exercise_log (w : World) : list ExerciseRecord :=
  eye_exercises (session_data (hm w)).

(** The clock is sampled [n] more times by something else. *)
Definition elapse (n : nat) (w : World) : World := w <| reads ::= Nat.add n |>.

(** A host without any notification back end. *)
Definition no_backend : Backends :=
  {| windows := false; win_toaster := None; plyer := None; sapi := false |}.

(** A host whose clock advances by 100 ms per sample, starting at 1000 s,
    with [plyer] as the only notification back end. *)
Definition steady_host : Host :=
  {| host_clock := fun k => 1000 + inject_Z (Z.of_nat k) / 10;
     host_backends := {| windows := false; win_toaster := None;
                         plyer := Some true; sapi := false |};
     has_psutil := true;
     has_mediapipe := true |}.

(** Simulated time: from now on every clock sample returns [t]. *)
Definition at_time (t : Q) (w : World) : World := w <| clock := fun _ => t |>.

(** [Tick(gaze)] at simulated time [t]. *)
Definition tick (tg : Q * Gaze) (w : World) : World :=
  exec (update_eye_exercise (snd tg)) (at_time (fst tg) w).

Definition run_ticks (ticks : list (Q * Gaze)) (w : World) : World :=
  fold_left (fun w tg => tick tg w) ticks w.

(** [StartExercise()] at simulated time [t]. *)
Definition start_at (t : Q) (w : World) : World :=
  exec start_eye_exercise (at_time t w).

(** The toasts of [w'] that [w] did not have yet. *)
Definition new_toasts (w w' : World) : list Toast :=
  drop (List.length (notified w)) (notified w').

Definition is_keep_looking (t : Toast) : bool :=
  String.eqb (toast_title t) "👀 Keep Looking Right" ||
  String.eqb (toast_title t) "👀 Keep Looking Left".

(** How many "keep looking" re-prompts were emitted between [w] and [w']. *)
Definition reprompts (w w' : World) : nat :=
  List.length (List.filter is_keep_looking (new_toasts w w')).

Definition is_start_prompt (t : Toast) : bool :=
  String.eqb (toast_title t) "👀 Eye Exercise Time!".

(** How many times [start_eye_exercise] announced an exercise so far. *)
Definition exercises_started (w : World) : nat :=
  List.length (List.filter is_start_prompt (notified w)).

(** Seconds between consecutive ticks that both look right. *)
Fixpoint right_time (ticks : list (Q * Gaze)) : Q :=
  match ticks with
  | (t1, look_right) :: (((t2, look_right) :: _) as rest) => (t2 - t1) + right_time rest
  | _ :: rest => right_time rest
  | [] => 0
  end.

Definition toast_of (title : string) (text : string) (w : World) : Toast :=
  {| toast_title := title; toast_message := Msg text;
     toast_delivered := delivers (backends w) |}.

(** For a tick whose gaze is on the phase's side: the instant its countdown
    runs from, and the remaining time it computes from the sample it takes. *)
Definition countdown_origin (w : World) : Q :=
  if countdown_active (hm w) then phase_start_time (hm w) else clock w (reads w).

Definition remaining_after (w : World) : Q :=
  Qmax 0 (paused_time_left (hm w) - (clock w (reads w) - countdown_origin w)).

(** ** Sample sessions *)

(** A manual session on [steady_host], and an exercise started at 1000 s. *)
Definition fresh_session : World := HealthMonitor_init false steady_host.

Definition started_session : World := start_at 1000 fresh_session.

(** The user looked right from 1001 s to 1004 s and then looked away. *)
Definition paused_session : World :=
  run_ticks [(1001, look_right); (1004, look_right); (1005, look_center)] started_session.

(** The right phase was held from 1001 s to 1016 s, and the left phase has
    been running for three seconds. *)
Definition busy_session : World :=
  run_ticks [(1001, look_right); (1016, look_right); (1017, look_left); (1020, look_left)]
    started_session.

(** ** Stages of an exercise

    [start] is the instant the exercise started at and [log] the ledger of
    exercises before it. *)
Section Stages.
Variables (start : Q) (log : list ExerciseRecord).

(** Phase [p], countdown stopped with [q] seconds left to hold. *)
Definition awaiting (p : Phase) (q : Q) (m : HealthMonitor) : Prop :=
  eye_exercise_active m = true /\ exercise_done m = false /\
  current_phase m = p /\ countdown_active m = false /\
  paused_time_left m = q /\
  eye_exercise_start_time m = start /\ eye_exercises (session_data m) = log.

(** Phase [p], countdown running since [s] from [q] seconds. *)
Definition holding (p : Phase) (s q : Q) (m : HealthMonitor) : Prop :=
  eye_exercise_active m = true /\ exercise_done m = false /\
  current_phase m = p /\ countdown_active m = true /\
  phase_start_time m = s /\ paused_time_left m = q /\
  eye_exercise_start_time m = start /\ eye_exercises (session_data m) = log.

(** The exercise completed on the tick at [t]. *)
Definition finished (t : Q) (m : HealthMonitor) : Prop :=
  eye_exercise_active m = false /\ exercise_done m = true /\
  eye_exercises (session_data m) =
    log ++ [ {| exercise_timestamp := t; duration := t - start; success := true |} ].
End Stages.

(** The countdown from [q] seconds, running since [s], is over at [t]. *)
Definition expired (s q t : Q) : bool := Qle_bool (Qmax 0 (q - (t - s))) 0.

(** Timestamps that never go backwards. *)
Fixpoint nondecreasing (ts : list Q) : Prop :=
  match ts with
  | t1 :: ((t2 :: _) as rest) => t1 <= t2 /\ nondecreasing rest
  | _ => True
  end.

(** The right phase is still in progress. *)
Definition in_right_phase (m : HealthMonitor) : Prop :=
  eye_exercise_active m = true /\ exercise_done m = false /\
  current_phase m = phase_right.

(** The user has been looking right from 1001 s to 1004 s. *)
Definition counting_session : World :=
  run_ticks [(1001, look_right); (1004, look_right)] started_session.

(** ** Sample frames and hosts *)

Definition cool_sensors : Sensors :=
  {| sensors_battery := Returns None;
     sensors_temperatures := Returns [("coretemp", [45])] |}.

(** A face too close to the screen (the landmarks span half the frame
    height), eyes open, looking at the centre; no pose detected. *)
Definition close_face_frame : Frame :=
  {| frame_face := Returns (Some {| face_gaze := look_center;
                                    face_ys := [0.2; 0.45; 0.7];
                                    face_ear := Returns 0.3 |});
     frame_pose := Returns None;
     frame_sensors := cool_sensors |}.

(** An auto-mode session, 40 seconds after its last periodic check: the
    clock has been sampled 400 more times since the constructor ran. *)
Definition polling_session : World :=
  elapse 400 (exec (set_auto_mode true) fresh_session).

(** Nobody in front of the camera, on a machine whose [psutil] reports no
    battery and an empty temperature table. *)
Definition no_sensor_frame : Frame :=
  {| frame_face := Returns None;
     frame_pose := Returns None;
     frame_sensors := {| sensors_battery := Returns None;
                         sensors_temperatures := Returns [] |} |}.

(** The clock of a start-up: the constructors run at 1000 s, the window is
    up and the camera started within 100 ms, the user presses the exercise
    button at 1001.5 s, and the 3000 ms single-shot timer fires at 1003.2 s. *)
Definition startup_host : Host :=
  {| host_clock := fun k =>
       if (k <? 6)%nat then 1000 + inject_Z (Z.of_nat k) / 100
       else if (k <? 11)%nat then 1001.5 + inject_Z (Z.of_nat k) / 100
       else 1003.2 + inject_Z (Z.of_nat k) / 100;
     host_backends := {| windows := false; win_toaster := None;
                         plyer := Some true; sapi := false |};
     has_psutil := true;
     has_mediapipe := true |}.

(** The application right after an auto-mode start-up, and after the user
    pressed "Start Eye Exercise". *)
Definition booted_app : App := main_auto_mode startup_host.

Definition exercising_app : App :=
  deliver_all [eye_exercise_button_clicked] booted_app.




(** ** Invariants of computations *)

Definition preserves {A} (I : World -> Prop) (c : M A) : Prop :=
  forall w, I w -> I (snd (c w)).

(** An invariant made of a property of the monitor, a property of the
    clock, and the number [k] of exercises announced so far. *)
Definition framed (P : HealthMonitor -> Prop) (C : (nat -> Q) -> Prop) (k : nat)
  (w : World) : Prop :=
  P (hm w) /\ C (clock w) /\ exercises_started w = k.

(** Manual mode; when [idle], no exercise is active either. *)
Definition manual_monitor (idle : bool) (m : HealthMonitor) : Prop :=
  auto_mode m = false /\ (idle = true -> eye_exercise_active m = false).

Definition manual (k : nat) (idle : bool) : World -> Prop :=
  framed (manual_monitor idle) (fun _ => True) k.

(** The periodic check was just made at [t], no exercise is active and the
    last break was at [b]. *)
Definition just_polled (t b : Q) (m : HealthMonitor) : Prop :=
  auto_mode_last_check m = t /\ 0 < auto_mode_interval m /\
  eye_exercise_active m = false /\ last_break_time m = b.

(** A clock that stands at [t]. *)
Definition frozen (t : Q) (c : nat -> Q) : Prop := forall n, c n = t.

Definition polled (t b : Q) (k : nat) : World -> Prop :=
  framed (just_polled t b) (frozen t) k.

(** ** HealthMonitor: remaining methods *)

Definition GAZE_THRESHOLD : Q := 0.2.

(** A normalised landmark of the face mesh. *)
Record Landmark := {
  lm_x : Q;
  lm_y : Q
}.

(** [detect_gaze_direction].  Every exception of the [try] body (an index
    past the end of the landmark list, a division by an eye of zero width)
    is caught and yields ['center']. *)
Definition detect_gaze_direction (face_landmarks : list Landmark) : M Gaze :=
  m <- self ;;
  if negb (mediapipe_available m) then ret look_center
  else
    ret match face_landmarks !! 133%nat, face_landmarks !! 33%nat,
              face_landmarks !! 362%nat, face_landmarks !! 263%nat,
              face_landmarks !! 1%nat with
        | Some left_eye_inner, Some left_eye_outer,
          Some right_eye_inner, Some right_eye_outer, Some nose_tip =>
            let left_eye_center_x := (lm_x left_eye_inner + lm_x left_eye_outer) / 2 in
            let right_eye_center_x := (lm_x right_eye_inner + lm_x right_eye_outer) / 2 in
            let left_eye_width := Qabs (lm_x left_eye_outer - lm_x left_eye_inner) in
            let right_eye_width := Qabs (lm_x right_eye_outer - lm_x right_eye_inner) in
            if Qeq_bool left_eye_width 0 || Qeq_bool right_eye_width 0 then look_center
            else
              let left_eye_relative := (left_eye_center_x - lm_x nose_tip) / left_eye_width in
              let right_eye_relative := (right_eye_center_x - lm_x nose_tip) / right_eye_width in
              let gaze_direction := (left_eye_relative + right_eye_relative) / 2 in
              if negb (Qle_bool gaze_direction GAZE_THRESHOLD) then look_right
              else if negb (Qle_bool (- GAZE_THRESHOLD) gaze_direction) then look_left
              else look_center
        | _, _, _, _, _ => look_center
        end.

(** [should_switch_to_background].  The conditions are evaluated in list
    order; when [results['posture']] is present but [None], the chained
    [.get] raises before the clock is sampled, and the handler returns
    [False]. *)
Definition should_switch_to_background (results : Results) : M bool :=
  m <- self ;;
  let good_distance := negb (default true (proximity_alert results)) in
  let good_blink_rate := negb (default true (low_blink_rate results)) in
  let no_active_exercise := negb (eye_exercise_active m) in
  match posture results with
  | Some None => ret false
  | posture_entry =>
      let good_posture :=
        match posture_entry with
        | Some (Some p) => negb (is_tilted p || is_slouching p)
        | _ => true
        end in
      now <- time ;;
      let minimum_session_time := negb (Qle_bool (now - session_start m) 60) in
      ret (good_distance && good_blink_rate && no_active_exercise &&
           good_posture && minimum_session_time)
  end.

(** ** gui/main_window.py: session statistics

    The two counts [update_status] shows: [sum(alert_stats.values())] and
    [len(session_data['eye_exercises'])]. *)
Definition total_alerts (m : HealthMonitor) : nat :=
  map_fold (fun _ count acc => (count + acc)%nat) 0%nat (alert_stats m).

Definition exercise_count (m : HealthMonitor) : nat :=
  List.length (eye_exercises (session_data m)).

(** ** Vocabulary of the further statements *)

(** The landmark seen in a mirror: [x] becomes [c - x]. *)
Definition mirrored (c : Q) (p : Landmark) : Landmark :=
  {| lm_x := c - lm_x p; lm_y := lm_y p |}.

Definition opposite (g : Gaze) : Gaze :=
  match g with
  | look_left => look_right
  | look_right => look_left
  | look_center => look_center
  end.

(** The blinks the monitor remembers inside the window that ends at the
    next clock sample. *)
Definition recent_blinks (w : World) : list Q :=
  List.filter (fun t => Qle_bool (clock w (reads w) - BLINK_WINDOW) t)
    (blink_timestamps (hm w)).

(** Every value stored under a key that mentions ['temp'] is a number that
    satisfies [bound]. *)
Definition temp_values (bound : Q -> Prop) (d : Dict) : Prop :=
  forall key value,
    In (key, value) d -> contains "temp" key = true ->
    exists q, value = PyNum q /\ bound q.

(** The first entry of every sensor satisfies [bound]. *)
Definition first_entries (bound : Q -> Prop) (temps : list (string * list Q)) : Prop :=
  Forall (fun sensor => match snd sensor with
                        | current :: _ => bound current
                        | [] => True
                        end) temps.

(** The decimated check runs on the next clock sample. *)
Definition health_check_due (w : World) : Prop :=
  (py_int (clock w (reads w)) mod 10 = 0)%Z /\ eye_exercise_active (hm w) = false.



(** ** The ledgers *)

(** The kinds that [__init__] gives a counter. *)
Definition alert_kinds : list string :=
  ["proximity"; "posture"; "blink_rate"; "screen_time"; "system_health"; "eye_exercise"].

Definition counted (m : HealthMonitor) : Prop :=
  forall kind, In kind alert_kinds -> is_Some (alert_stats m !! kind).

(** The counter of [kind], 0 when there is none. *)
Definition counter (kind : string) (m : HealthMonitor) : nat :=
  default 0%nat (alert_stats m !! kind).

(** How many records of [l] are of [kind]. *)
Definition tally (kind : string) (l : list AlertRecord) : nat :=
  List.length (List.filter (fun a => String.eqb (alert_type a) kind) l).

Definition toast_text (t : Toast) : string * Message := (toast_title t, toast_message t).
Definition alert_text (a : AlertRecord) : string * Message := (alert_title a, alert_message a).

(** Since [w0], the notifier log, the alert ledger and the counters grew
    together: [sent] are the new toasts and [logged] the new records. *)
Definition ledger_since (w0 w : World) : Prop :=
  counted (hm w) /\
  exists sent logged,
    notified w = notified w0 ++ sent /\
    alert_log w = alert_log w0 ++ logged /\
    List.map toast_text sent = List.map alert_text logged /\
    total_alerts (hm w) = (total_alerts (hm w0) + List.length logged)%nat /\
    forall kind, counter kind (hm w) = (counter kind (hm w0) + tally kind logged)%nat.

(** An invariant of the monitor's world, kept by a slot of the window. *)
Definition gpreserves {A} (I : World -> Prop) (c : G A) : Prop :=
  forall app, I (world app) -> I (world (snd (c app))).

(** ** The exercise flags and timers *)

(** An exercise is never both active and done, and neither timer is
    negative. *)
Definition sane (w : World) : Prop :=
  (eye_exercise_active (hm w) = true -> exercise_done (hm w) = false) /\
  0 <= time_left (hm w) /\ 0 <= paused_time_left (hm w).

(** The slots that are armed. *)
Definition armed (app : App) : list Callback := List.map snd (single_shots (gui app)).

(** The window and the monitor agree on the mode, and the ledger names it. *)
Definition modes_agree (app : App) : Prop :=
  auto_mode_active (gui app) = auto_mode (hm (world app)) /\
  mode (session_data (hm (world app))) =
    if auto_mode (hm (world app)) then "auto" else "manual".

(** The mode of the monitor and of its ledger. *)
Definition mode_is (b : bool) (s : string) (w : World) : Prop :=
  auto_mode (hm w) = b /\ mode (session_data (hm w)) = s.

(** The application without MediaPipe: no camera, no video thread, the
    exercise button disabled, no background mode, no timer armed but the
    start-up attempt, nothing notified or spoken and no exercise. *)
Definition inert (app : App) : Prop :=
  mediapipe_available (hm (world app)) = false /\
  video_thread (gui app) = false /\
  is_camera_active (gui app) = false /\
  eye_exercise_button_enabled (gui app) = false /\
  background_mode (gui app) = false /\
  (forall slot, In slot (armed app) -> slot = try_background_after_start_cb) /\
  notified (world app) = [] /\
  spoken (world app) = [] /\
  eye_exercise_active (hm (world app)) = false.

(** ** The exercise against the clock *)

(** The seconds of gaze an exercise has asked for by the end of phase [p]. *)
Definition phase_budget (p : Phase) : Q :=
  match p with
  | phase_right => 15
  | phase_left => 30
  end.

(** At [now], with [log0] the exercise ledger before the exercise: both
    timers are between 0 and 15; the ledger gained at most one record, of at
    least 30 seconds; and while the exercise runs it gained none, and the
    gaze time counted so far is no more than the time that passed since the
    exercise started. *)
Definition on_schedule (log0 : list ExerciseRecord) (now : Q) (m : HealthMonitor) : Prop :=
  (0 <= paused_time_left m /\ paused_time_left m <= 15) /\
  (0 <= time_left m /\ time_left m <= 15) /\
  exists new,
    eye_exercises (session_data m) = log0 ++ new /\
    (List.length new <= 1)%nat /\
    Forall (fun r => 30 <= duration r /\ success r = true) new /\
    (eye_exercise_active m = true -> exercise_done m = false ->
     new = [] /\
     let start := eye_exercise_start_time m in
     let budget := phase_budget (current_phase m) in
     if countdown_active m
     then budget - paused_time_left m <= phase_start_time m - start /\
          phase_start_time m <= now /\
          budget - time_left m <= now - start
     else budget - paused_time_left m <= now - start).

(** How many toasts with [title] the notifier received so far. *)
Definition sent_with_title (title : string) (w : World) : nat :=
  List.length (List.filter (fun toast => String.eqb (toast_title toast) title) (notified w)).

(** The monitor satisfies [P] and [k] toasts with [title] were sent. *)
Definition titled (P : HealthMonitor -> Prop) (title : string) (k : nat) (w : World) : Prop :=
  P (hm w) /\ sent_with_title title w = k.

(** The temperature table of the frame's sensors, when the call returns
    one, is not empty. *)
Definition has_temperatures (frame : Frame) : Prop :=
  forall temps, sensors_temperatures (frame_sensors frame) = Returns temps -> temps <> [].

(** What the exercise state machine keeps between ticks, besides the two
    flags tested on entry. *)
Definition exercise_fields (m : HealthMonitor) : Phase * bool * Q * Q * Q * bool :=
  (current_phase m, countdown_active m, phase_start_time m, time_left m,
   paused_time_left m, exercise_done m).

(** An exercise is active, with its state, the notifier log and the speech
    log as given. *)
Definition untouched (x : Phase * bool * Q * Q * Q * bool) (n : list Toast)
  (s : list string) (w : World) : Prop :=
  eye_exercise_active (hm w) = true /\
  exercise_fields (hm w) = x /\ notified w = n /\ spoken w = s.

(** ** gui/main_window.py: the remaining buttons *)

(** The camera button. *)
Definition toggle_camera : G unit :=
  gbind window (fun g =>
    if negb (is_camera_active g) then start_camera else stop_camera).

(** The save button: [HealthMonitor.save_session_data] reads the clock for
    the file name; the file it writes is outside the model. *)
Definition save_session_data : G unit :=
  gbind (monitor time) (fun _ => gret tt).

(** What can reach the running window: the events of the timers, the
    exercise and mode buttons, the tray and the video thread, and the two
    remaining buttons. *)
Inductive Action :=
| event (e : Event)
| camera_button_clicked
| save_button_clicked.

Definition act (a : Action) : G unit :=
  match a with
  | event e => deliver e
  | camera_button_clicked => toggle_camera
  | save_button_clicked => save_session_data
  end.

Fixpoint act_all (actions : list Action) (app : App) : App :=
  match actions with
  | [] => app
  | a :: rest => act_all rest (snd (act a app))
  end.

(** * Cooldown gate *)

Section Gate.
Variables (title : string) (message : Message) (kind : string).

Lemma send_notification_gated w :
  kind <> "eye_exercise" ->
  cooldown_elapsed kind w = false ->
  send_notification title message kind w = (tt, w <| reads ::= S |>).
Proof.
  intros Hk Hg. apply String.eqb_neq in Hk.
  unfold send_notification, should_notify, bind, time, self, ret. cbn.
  unfold cooldown_elapsed in Hg. rewrite Hg, Hk. reflexivity.
Qed.

Lemma send_notification_accepted n w :
  cooldown_elapsed kind w = true \/ kind = "eye_exercise" ->
  alert_stats (hm w) !! kind = Some n ->
  send_notification title message kind w =
  (tt, w <| reads := S (S (S (reads w))) |>
         <| notified ::= fun l => l ++ [ {| toast_title := title;
                                           toast_message := message;
                                           toast_delivered := delivers (backends w) |} ] |>
         <| hm ::= fun m =>
              m <| last_notification ::= <[kind := clock w (S (reads w))]> |>
                <| alert_stats ::= <[kind := S n]> |>
                <| session_data ::= fun d => d <| alerts ::= fun l => l ++
                     [ {| alert_timestamp := clock w (S (S (reads w)));
                          alert_type := kind;
                          alert_title := title;
                          alert_message := message |} ] |> |> |>).
Proof.
  intros Ha Hn.
  assert (negb (cooldown_elapsed kind w) && negb (String.eqb kind "eye_exercise") = false) as Hc.
  { destruct Ha as [-> | ->]; [reflexivity | apply andb_false_r]. }
  unfold send_notification, should_notify, bind, time, self, ret. cbn.
  unfold cooldown_elapsed in Hc. rewrite Hc.
  unfold fast_notify, update. cbn. rewrite Hn. reflexivity.
Qed.
End Gate.

Lemma Qle_bool_false x y : Qle_bool x y = false <-> y < x.
Proof.
  split; intros H.
  - apply Qnot_le_lt. intros Hle. apply Qle_bool_iff in Hle. congruence.
  - destruct (Qle_bool x y) eqn:E; [|reflexivity].
    apply Qle_bool_iff in E. lra.
Qed.

(** C5. Two [send_notification] calls of one kind, the first one accepted
    and the second one sampled less than [NOTIFICATION_COOLDOWN] seconds
    after it, with nothing but clock samples in between: the pair makes one
    [fast_notify] call and appends one alert record, and the second call
    leaves the monitor, the notifier log and the speech log as they were.
    For ["eye_exercise"] both calls notify and record. *)
Theorem cooldown_pair
  (title1 title2 : string) (message1 message2 : Message)
  (kind : string) (n idle : nat) (w : World) :
  alert_stats (hm w) !! kind = Some n ->
  let first := exec (send_notification title1 message1 kind) w in
  let later := elapse idle first in
  let second := exec (send_notification title2 message2 kind) later in
  let fired := clock w (S (reads w)) in
  let toast t m := {| toast_title := t; toast_message := m;
                      toast_delivered := delivers (backends w) |} in
  let record k t m := {| alert_timestamp := clock w k; alert_type := kind;
                         alert_title := t; alert_message := m |} in
  (kind <> "eye_exercise" ->
   cooldown_elapsed kind w = true ->
   (clock w (reads later) - fired < NOTIFICATION_COOLDOWN \/
    (clock w (reads w) <= fired /\
     clock w (reads later) - clock w (reads w) < NOTIFICATION_COOLDOWN)) ->
   notified second = notified w ++ [toast title1 message1] /\
   alert_log second = alert_log w ++ [record (S (S (reads w))) title1 message1] /\
   alert_stats (hm second) !! kind = Some (S n) /\
   last_notification (hm second) !! kind = Some fired /\
   hm second = hm later /\
   notified second = notified later /\
   spoken second = spoken later) /\
  (kind = "eye_exercise" ->
   notified second =
     notified w ++ [toast title1 message1; toast title2 message2] /\
   alert_log second =
     alert_log w ++ [record (S (S (reads w))) title1 message1;
                     record (S (S (reads later))) title2 message2] /\
   alert_stats (hm second) !! kind = Some (S (S n))).
Proof.
  intros Hn first later second fired toast record. split.
  - intros Hk Hacc Hsoon.
    assert (first = snd (send_notification title1 message1 kind w)) as Hfirst by reflexivity.
    rewrite (send_notification_accepted _ _ _ n) in Hfirst by auto.
    cbn [snd] in Hfirst.
    assert (last_notification (hm later) !! kind = Some fired) as Hlast.
    { subst later. rewrite Hfirst. cbn. apply lookup_insert_eq. }
    assert (clock later = clock w) as Hclock by (subst later; rewrite Hfirst; reflexivity).
    assert (cooldown_elapsed kind later = false) as Hgate.
    { unfold cooldown_elapsed. rewrite Hlast, Hclock. cbn [default].
      apply Qle_bool_false. fold fired in Hsoon.
      assert (clock w (reads later) - fired < NOTIFICATION_COOLDOWN) by (destruct Hsoon; lra).
      assumption. }
    assert (second = later <| reads ::= S |>) as Hsecond.
    { unfold second, exec. rewrite send_notification_gated by assumption. reflexivity. }
    rewrite Hsecond. subst later. rewrite Hfirst. cbn.
    repeat split; try reflexivity; apply lookup_insert_eq.
  - intros ->.
    assert (first = snd (send_notification title1 message1 "eye_exercise" w)) as Hfirst by reflexivity.
    rewrite (send_notification_accepted _ _ _ n) in Hfirst by auto.
    cbn [snd] in Hfirst.
    assert (alert_stats (hm later) !! "eye_exercise" = Some (S n)) as Hn'.
    { subst later. rewrite Hfirst. cbn. apply lookup_insert_eq. }
    unfold second, exec.
    rewrite (send_notification_accepted _ _ _ (S n)) by auto.
    cbn [snd]. unfold alert_log. subst later. rewrite Hfirst. cbn.
    rewrite <- !app_assoc. cbn.
    repeat split; try reflexivity. apply lookup_insert_eq.
Qed.

Lemma cooldown_pair_witness :
  let w := HealthMonitor_init false steady_host in
  let second :=
    exec (send_notification "again" (Msg "again") "proximity")
      (elapse 0 (exec (send_notification "once" (Msg "once") "proximity") w)) in
  List.length (notified second) = 1%nat /\ List.length (alert_log second) = 1%nat.
Proof.
  intros w second.
  destruct (cooldown_pair "once" "again" (Msg "once") (Msg "again") "proximity" 0 0 w)
    as [Hgate _]; [reflexivity|].
  destruct Hgate as (Hn & Ha & _).
  - discriminate.
  - reflexivity.
  - left. vm_compute. reflexivity.
  - subst second. rewrite Hn, Ha. split; reflexivity.
Defined.

(** C10. An accepted request updates the fire instant of its kind,
    increments its counter and appends its alert record whatever
    [fast_notify] returns: the monitor after the call is the same on every
    host, also on one where no back end exists and [fast_notify] returns
    [False]. *)
Theorem accepted_request_recorded_without_delivery
  (title : string) (message : Message) (kind : string) (n : nat)
  (w : World) (b : Backends) :
  cooldown_elapsed kind w = true \/ kind = "eye_exercise" ->
  alert_stats (hm w) !! kind = Some n ->
  let undelivered := exec (send_notification title message kind) (w <| backends := no_backend |>) in
  let any := exec (send_notification title message kind) (w <| backends := b |>) in
  eval (fast_notify title message) (w <| backends := no_backend |>) = false /\
  hm any = hm undelivered /\
  last_notification (hm undelivered) !! kind = Some (clock w (S (reads w))) /\
  alert_stats (hm undelivered) !! kind = Some (S n) /\
  alert_log undelivered =
    alert_log w ++ [ {| alert_timestamp := clock w (S (S (reads w)));
                        alert_type := kind;
                        alert_title := title;
                        alert_message := message |} ] /\
  notified undelivered =
    notified w ++ [ {| toast_title := title; toast_message := message;
                       toast_delivered := false |} ].
Proof.
  intros Ha Hn undelivered any.
  unfold undelivered, any, exec.
  rewrite !(send_notification_accepted _ _ _ n) by assumption.
  cbn. repeat split; try reflexivity; apply lookup_insert_eq.
Qed.

Lemma accepted_request_recorded_without_delivery_witness :
  let w := HealthMonitor_init false steady_host in
  alert_stats
    (hm (exec (send_notification "once" (Msg "once") "posture") (w <| backends := no_backend |>)))
    !! "posture" = Some 1%nat.
Proof.
  intros w.
  destruct (accepted_request_recorded_without_delivery
              "once" (Msg "once") "posture" 0 w (backends w))
    as (_ & _ & _ & Hs & _).
  - left. reflexivity.
  - reflexivity.
  - exact Hs.
Defined.

(** * Eye exercise *)

(** Normal form of a world built from constructors: record updates and the
    monad's plumbing are computed, arithmetic and maps are left alone. *)
Ltac norm :=
  cbv beta iota zeta delta
    [set const bind ret self time when update exec eval fst snd
     hm clock reads backends notified spoken
     auto_mode auto_mode_interval blink_timestamps session_start last_break_time
     last_notification alert_stats eye_exercise_active eye_exercise_start_time
     time_left exercise_done current_phase countdown_active last_detection
     phase_start_time paused_time_left auto_mode_last_check session_data
     psutil_available mediapipe_available
     start_time alerts eye_exercises mode
     negb orb andb looking_at
     countdown_origin remaining_after toast_of delivers].

Ltac norm_in H :=
  cbv beta iota zeta delta
    [set const bind ret self time when update exec eval fst snd
     hm clock reads backends notified spoken
     auto_mode auto_mode_interval blink_timestamps session_start last_break_time
     last_notification alert_stats eye_exercise_active eye_exercise_start_time
     time_left exercise_done current_phase countdown_active last_detection
     phase_start_time paused_time_left auto_mode_last_check session_data
     psutil_available mediapipe_available
     start_time alerts eye_exercises mode
     negb orb andb looking_at
     countdown_origin remaining_after toast_of delivers] in H.

(** Projections of updated records, and nothing else. *)
Ltac fields :=
  cbn [set const hm clock reads backends notified spoken
       auto_mode auto_mode_interval blink_timestamps session_start last_break_time
       last_notification alert_stats eye_exercise_active eye_exercise_start_time
       time_left exercise_done current_phase countdown_active last_detection
       phase_start_time paused_time_left auto_mode_last_check session_data
       psutil_available mediapipe_available
       start_time alerts eye_exercises mode];
  unfold RecordSettersUsingExistingGetters.const.

Ltac fields_in H :=
  cbn [set const hm clock reads backends notified spoken
       auto_mode auto_mode_interval blink_timestamps session_start last_break_time
       last_notification alert_stats eye_exercise_active eye_exercise_start_time
       time_left exercise_done current_phase countdown_active last_detection
       phase_start_time paused_time_left auto_mode_last_check session_data
       psutil_available mediapipe_available
       start_time alerts eye_exercises mode] in H;
  unfold RecordSettersUsingExistingGetters.const in H.

Ltac split_if :=
  match goal with
  | |- context [if ?b then _ else _] =>
      lazymatch b with
      | context [if _ then _ else _] => fail
      | _ => destruct b eqn:?
      end
  end.

Ltac split_option :=
  match goal with
  | |- context [match ?x with Some _ => _ | None => _ end] => destruct x eqn:?
  end.

Ltac open_world w :=
  destruct w as [[? ? ? ? ? ? ? ? ? ? ? ? ? ? ? ? ? [? ? ? ?] ? ?] ? ? ? ? ?].

(** A guidance notification bypasses the cooldown: it always reaches
    [fast_notify], and touches nothing but the gate's tables and the alert
    ledger. *)
Lemma send_guidance title text w :
  exists r ln st al,
    send_notification title (Msg text) "eye_exercise" w =
    (tt, w <| reads := r |>
           <| notified ::= fun l => l ++ [toast_of title text w] |>
           <| hm ::= fun m => m <| last_notification := ln |>
                                <| alert_stats := st |>
                                <| session_data ::= fun d => d <| alerts := al |> |> |>).
Proof.
  open_world w. unfold send_notification, should_notify, fast_notify. norm.
  rewrite String.eqb_refl. split_if; norm; split_option; norm; do 4 eexists; reflexivity.
Qed.

Lemma speak_only_speaks text w : exists sp, speak text w = (tt, w <| spoken := sp |>).
Proof.
  open_world w. unfold speak. norm.
  repeat (split_if; norm); eexists; reflexivity.
Qed.

Ltac run_effects :=
  repeat (first
    [ match goal with
      | |- context [speak ?t ?W] =>
          let sp := fresh "sp" in destruct (speak_only_speaks t W) as [sp ->]
      end
    | match goal with
      | |- context [send_notification ?t (Msg ?x) "eye_exercise" ?W] =>
          destruct (send_guidance t x W) as (? & ? & ? & ? & ->)
      end ]; norm).

Ltac norm_all := repeat match goal with H : _ |- _ => progress norm_in H end.

Ltac open_tick w :=
  intros; open_world w; norm_all; subst; unfold update_eye_exercise; norm.

Lemma tick_idle detection w :
  eye_exercise_active (hm w) = false \/ exercise_done (hm w) = true ->
  update_eye_exercise detection w = (tt, w).
Proof.
  intros H. open_world w. norm_in H. unfold update_eye_exercise. norm.
  destruct H as [-> | ->]; [reflexivity|]. split_if; reflexivity.
Qed.

Section OneTick.
Variable detection : Gaze.

Lemma tick_waiting w :
  eye_exercise_active (hm w) = true ->
  exercise_done (hm w) = false ->
  looking_at (current_phase (hm w)) detection = false ->
  countdown_active (hm w) = false ->
  update_eye_exercise detection w = (tt, w <| reads ::= S |>).
Proof.
  open_tick w.
  match goal with p : Phase |- _ => destruct p end; destruct detection;
    try discriminate; reflexivity.
Qed.

Lemma tick_pause w :
  eye_exercise_active (hm w) = true ->
  exercise_done (hm w) = false ->
  looking_at (current_phase (hm w)) detection = false ->
  countdown_active (hm w) = true ->
  exists r ln st al sp title text,
    is_keep_looking (toast_of title text w) = true /\
    update_eye_exercise detection w =
    (tt, w <| reads := r |>
           <| notified ::= fun l => l ++ [toast_of title text w] |>
           <| spoken := sp |>
           <| hm ::= fun m => m <| countdown_active := false |>
                                <| paused_time_left := time_left m |>
                                <| last_notification := ln |>
                                <| alert_stats := st |>
                                <| session_data ::= fun d => d <| alerts := al |> |> |>).
Proof.
  open_tick w.
  match goal with p : Phase |- _ => destruct p end; destruct detection;
    try discriminate; norm; run_effects;
    do 7 eexists; (split; [|reflexivity]); reflexivity.
Qed.

Lemma tick_counting w :
  eye_exercise_active (hm w) = true ->
  exercise_done (hm w) = false ->
  looking_at (current_phase (hm w)) detection = true ->
  Qle_bool (remaining_after w) 0 = false ->
  update_eye_exercise detection w =
  (tt, w <| reads ::= S |>
         <| hm ::= fun m => m <| countdown_active := true |>
                              <| phase_start_time := countdown_origin w |>
                              <| time_left := remaining_after w |> |>).
Proof.
  open_tick w.
  match goal with p : Phase |- _ => destruct p end; destruct detection;
    try discriminate;
    match goal with c : bool |- context [if ?b then _ else _] => is_var b; destruct b end;
    norm; norm_all;
    match goal with H : Qle_bool _ _ = false |- _ => rewrite H end; reflexivity.
Qed.

Lemma tick_right_done w :
  eye_exercise_active (hm w) = true ->
  exercise_done (hm w) = false ->
  current_phase (hm w) = phase_right ->
  detection = look_right ->
  Qle_bool (remaining_after w) 0 = true ->
  exists r ln st al sp,
    update_eye_exercise detection w =
    (tt, w <| reads := r |>
           <| notified ::= fun l => l ++ [toast_of "👀 Good! Now look LEFT"
                                           "Please look to the LEFT side for 15 seconds" w] |>
           <| spoken := sp |>
           <| hm ::= fun m => m <| phase_start_time := countdown_origin w |>
                                <| current_phase := phase_left |>
                                <| countdown_active := false |>
                                <| paused_time_left := 15 |>
                                <| time_left := 15 |>
                                <| last_notification := ln |>
                                <| alert_stats := st |>
                                <| session_data ::= fun d => d <| alerts := al |> |> |>).
Proof.
  open_tick w.
  match goal with c : bool |- context [if ?b then _ else _] => is_var b; destruct b end;
    norm; norm_all;
    match goal with H : Qle_bool _ _ = true |- _ => rewrite H end;
    run_effects; do 5 eexists; reflexivity.
Qed.

Lemma tick_left_done w :
  eye_exercise_active (hm w) = true ->
  exercise_done (hm w) = false ->
  current_phase (hm w) = phase_left ->
  detection = look_left ->
  Qle_bool (remaining_after w) 0 = true ->
  exists r ln st al sp stamp check,
    update_eye_exercise detection w =
    (tt, w <| reads := r |>
           <| notified ::= fun l => l ++ [toast_of "✅ Exercise Complete!"
                                           "Great job! Your eye exercise is complete." w] |>
           <| spoken := sp |>
           <| hm ::= fun m => m <| countdown_active := true |>
                                <| phase_start_time := countdown_origin w |>
                                <| time_left := remaining_after w |>
                                <| eye_exercise_active := false |>
                                <| exercise_done := true |>
                                <| auto_mode_last_check := check |>
                                <| last_notification := ln |>
                                <| alert_stats := st |>
                                <| session_data ::= fun d =>
                                     d <| alerts := al |>
                                       <| eye_exercises ::= fun l => l ++
                                            [ {| exercise_timestamp := clock w stamp;
                                                 duration := clock w (reads w)
                                                             - eye_exercise_start_time m;
                                                 success := true |} ] |> |> |>).
Proof.
  open_tick w.
  match goal with c : bool |- context [if ?b then _ else _] => is_var b; destruct b end;
    norm; norm_all;
    match goal with H : Qle_bool _ _ = true |- _ => rewrite H end;
    run_effects; split_if; norm; do 7 eexists; reflexivity.
Qed.
End OneTick.

Lemma new_toasts_app w w' l : notified w' = notified w ++ l -> new_toasts w w' = l.
Proof. unfold new_toasts. intros ->. apply drop_app_length. Qed.

Lemma new_toasts_same w w' : notified w' = notified w -> new_toasts w w' = [].
Proof. intros H. apply new_toasts_app. rewrite H. symmetry. apply app_nil_r. Qed.

Lemma looking_at_true p d :
  looking_at p d = true ->
  (p = phase_right /\ d = look_right) \/ (p = phase_left /\ d = look_left).
Proof. destruct p, d; try discriminate; auto. Qed.

(** A tick whose gaze is off the phase's side while the countdown is already
    stopped changes nothing but the count of clock samples. *)
Lemma wrong_gaze_while_paused ticks : forall w,
  eye_exercise_active (hm w) = true ->
  exercise_done (hm w) = false ->
  countdown_active (hm w) = false ->
  Forall (fun tg => looking_at (current_phase (hm w)) (snd tg) = false) ticks ->
  hm (run_ticks ticks w) = hm w /\
  notified (run_ticks ticks w) = notified w /\
  spoken (run_ticks ticks w) = spoken w.
Proof.
  induction ticks as [|[t g] ticks IH]; intros w Ha Hd Hc Hall; [auto|].
  inversion Hall as [|? ? Hg Hrest]; subst. cbn [snd] in Hg.
  cbn [run_ticks fold_left]. fold (run_ticks ticks (tick (t, g) w)).
  assert (tick (t, g) w = at_time t w <| reads ::= S |>) as Ht.
  { unfold tick, exec. cbn [fst snd]. rewrite tick_waiting; auto. }
  assert (hm (tick (t, g) w) = hm w) as Hm by (rewrite Ht; reflexivity).
  destruct (IH (tick (t, g) w)) as (H1 & H2 & H3); rewrite ?Hm; auto.
  rewrite H1, H2, H3, Hm, Ht. auto.
Qed.

(** C8. In one tick the "keep looking" re-prompt is emitted at most once,
    and only when the tick stops a running countdown; a tick (and any run
    of ticks) whose gaze is off the phase's side while the countdown is
    already stopped emits nothing and leaves the monitor as it was. *)
Theorem reprompt_only_on_gaze_loss_edge (detection : Gaze) (w : World) :
  let w' := exec (update_eye_exercise detection) w in
  (reprompts w w' <= 1)%nat /\
  (reprompts w w' = 1%nat ->
   countdown_active (hm w) = true /\ countdown_active (hm w') = false) /\
  (eye_exercise_active (hm w) = true ->
   exercise_done (hm w) = false ->
   countdown_active (hm w) = false ->
   looking_at (current_phase (hm w)) detection = false ->
   hm w' = hm w /\ new_toasts w w' = [] /\ spoken w' = spoken w) /\
  (forall ticks,
   eye_exercise_active (hm w) = true ->
   exercise_done (hm w) = false ->
   countdown_active (hm w) = false ->
   Forall (fun tg => looking_at (current_phase (hm w)) (snd tg) = false) ticks ->
   hm (run_ticks ticks w) = hm w /\
   new_toasts w (run_ticks ticks w) = [] /\
   spoken (run_ticks ticks w) = spoken w).
Proof.
  intros w'.
  assert (eye_exercise_active (hm w) = true ->
          exercise_done (hm w) = false ->
          countdown_active (hm w) = false ->
          looking_at (current_phase (hm w)) detection = false ->
          w' = w <| reads ::= S |>) as Hwait.
  { intros. unfold w', exec. rewrite tick_waiting; auto. }
  assert ((reprompts w w' = 0%nat) \/
          (reprompts w w' = 1%nat /\
           countdown_active (hm w) = true /\ countdown_active (hm w') = false)) as Hcases.
  { unfold reprompts.
    destruct (eye_exercise_active (hm w)) eqn:Ha;
      [destruct (exercise_done (hm w)) eqn:Hd|].
    - left. unfold w', exec. rewrite tick_idle by auto. cbn [snd].
      rewrite new_toasts_same; reflexivity.
    - destruct (looking_at (current_phase (hm w)) detection) eqn:Hl.
      + left. destruct (Qle_bool (remaining_after w) 0) eqn:Hr.
        * destruct (looking_at_true _ _ Hl) as [[Hp Hg] | [Hp Hg]].
          -- destruct (tick_right_done detection w Ha Hd Hp Hg Hr)
               as (r & ln & st & al & sp & E).
             unfold w', exec. rewrite E. cbn [snd].
             erewrite new_toasts_app; [|reflexivity]. reflexivity.
          -- destruct (tick_left_done detection w Ha Hd Hp Hg Hr)
               as (r & ln & st & al & sp & stamp & check & E).
             unfold w', exec. rewrite E. cbn [snd].
             erewrite new_toasts_app; [|reflexivity]. reflexivity.
        * unfold w', exec. rewrite tick_counting by auto. cbn [snd].
          rewrite new_toasts_same; reflexivity.
      + destruct (countdown_active (hm w)) eqn:Hc.
        * right.
          destruct (tick_pause detection w Ha Hd Hl Hc)
            as (r & ln & st & al & sp & title & text & Hk & E).
          unfold w', exec. rewrite E. cbn [snd].
          erewrite new_toasts_app; [|reflexivity].
          cbn [List.filter]. rewrite Hk. auto.
        * left. rewrite Hwait by auto. rewrite new_toasts_same; reflexivity.
    - left. unfold w', exec. rewrite tick_idle by auto. cbn [snd].
      rewrite new_toasts_same; reflexivity. }
  split; [destruct Hcases as [-> | [-> _]]; lia|].
  split; [intros H1; destruct Hcases as [H0 | [_ ?]]; [congruence | assumption]|].
  split.
  - intros. rewrite Hwait by assumption. rewrite new_toasts_same by reflexivity. auto.
  - intros ticks Ha Hd Hc Hall.
    destruct (wrong_gaze_while_paused ticks w Ha Hd Hc Hall) as (H1 & H2 & H3).
    rewrite new_toasts_same by assumption. auto.
Qed.

Lemma reprompt_only_on_gaze_loss_edge_witness :
  hm (exec (update_eye_exercise look_center) paused_session) = hm paused_session.
Proof.
  destruct (reprompt_only_on_gaze_loss_edge look_center paused_session)
    as (_ & _ & Hquiet & _).
  destruct Hquiet as (Hm & _); [reflexivity | reflexivity | reflexivity | reflexivity |].
  exact Hm.
Defined.

(** * Starting an exercise *)

Lemma start_eye_exercise_result w :
  exists r ln st al sp,
    start_eye_exercise w =
    (tt, w <| reads := r |>
           <| notified ::= fun l => l ++ [toast_of "👀 Eye Exercise Time!"
                                           "Please look to the RIGHT side for 15 seconds" w] |>
           <| spoken := sp |>
           <| hm ::= fun m => m <| eye_exercise_active := true |>
                                <| eye_exercise_start_time := clock w (reads w) |>
                                <| time_left := 15 |>
                                <| exercise_done := false |>
                                <| current_phase := phase_right |>
                                <| countdown_active := false |>
                                <| phase_start_time := clock w (S (reads w)) |>
                                <| paused_time_left := 15 |>
                                <| last_notification := ln |>
                                <| alert_stats := st |>
                                <| session_data ::= fun d => d <| alerts := al |> |> |>).
Proof.
  open_world w. unfold start_eye_exercise. norm. run_effects.
  do 5 eexists. reflexivity.
Qed.

(** C3, as the code has it. [start_eye_exercise] has no guard: called in any
    state, also while an exercise is running, it begins a new exercise at
    the right phase with 15 seconds on both timers and the countdown
    stopped, takes the next two clock samples as start instants, and makes
    one guidance call to the notifier. *)
Theorem start_eye_exercise_restarts (w : World) :
  let w' := exec start_eye_exercise w in
  eye_exercise_active (hm w') = true /\
  exercise_done (hm w') = false /\
  current_phase (hm w') = phase_right /\
  countdown_active (hm w') = false /\
  time_left (hm w') = 15 /\
  paused_time_left (hm w') = 15 /\
  eye_exercise_start_time (hm w') = clock w (reads w) /\
  phase_start_time (hm w') = clock w (S (reads w)) /\
  new_toasts w w' = [toast_of "👀 Eye Exercise Time!"
                       "Please look to the RIGHT side for 15 seconds" w].
Proof.
  intros w'. destruct (start_eye_exercise_result w) as (r & ln & st & al & sp & E).
  unfold w', exec. rewrite E. cbn [snd].
  erewrite new_toasts_app; [|reflexivity]. repeat split; reflexivity.
Qed.

(** C3, as the spec has it, fails: in [busy_session] the exercise is active
    and not done, in its left phase with 12 seconds remaining and the
    countdown running; [start_eye_exercise] returns normally and the
    exercise is back at the right phase with 15 seconds and the countdown
    stopped. *)
Lemma start_while_active_is_not_a_no_op :
  eye_exercise_active (hm busy_session) = true /\
  exercise_done (hm busy_session) = false /\
  current_phase (hm busy_session) = phase_left /\
  countdown_active (hm busy_session) = true /\
  time_left (hm busy_session) == 12 /\
  let w' := exec start_eye_exercise busy_session in
  current_phase (hm w') = phase_right /\
  countdown_active (hm w') = false /\
  time_left (hm w') == 15 /\
  hm w' <> hm busy_session.
Proof.
  repeat split; try (vm_compute; reflexivity).
  intros H. apply (f_equal current_phase) in H. vm_compute in H. discriminate.
Qed.

(** * Ticks at simulated time *)

Section SimulatedTick.
Variables (t : Q) (g : Gaze) (w : World).

Let origin := if countdown_active (hm w) then phase_start_time (hm w) else t.
Let remaining := Qmax 0 (paused_time_left (hm w) - (t - origin)).

Lemma tick_idle_hm :
  eye_exercise_active (hm w) = false \/ exercise_done (hm w) = true ->
  hm (tick (t, g) w) = hm w.
Proof.
  intros H. unfold tick, exec. cbn [fst snd].
  rewrite tick_idle by exact H. reflexivity.
Qed.

Hypothesis Hactive : eye_exercise_active (hm w) = true.
Hypothesis Hdone : exercise_done (hm w) = false.

Lemma tick_waiting_hm :
  looking_at (current_phase (hm w)) g = false ->
  countdown_active (hm w) = false ->
  hm (tick (t, g) w) = hm w.
Proof.
  intros Hl Hc. unfold tick, exec. cbn [fst snd].
  rewrite tick_waiting by assumption. reflexivity.
Qed.

Lemma tick_pause_hm :
  looking_at (current_phase (hm w)) g = false ->
  countdown_active (hm w) = true ->
  exists ln st al,
    hm (tick (t, g) w) =
    (hm w) <| countdown_active := false |>
         <| paused_time_left := time_left (hm w) |>
         <| last_notification := ln |>
         <| alert_stats := st |>
         <| session_data ::= fun d => d <| alerts := al |> |>.
Proof.
  intros Hl Hc.
  destruct (tick_pause g (at_time t w) Hactive Hdone Hl Hc)
    as (r & ln & st & al & sp & title & text & _ & E).
  exists ln, st, al. unfold tick, exec. cbn [fst snd]. rewrite E. reflexivity.
Qed.

Lemma tick_counting_hm :
  looking_at (current_phase (hm w)) g = true ->
  Qle_bool remaining 0 = false ->
  hm (tick (t, g) w) =
  (hm w) <| countdown_active := true |>
       <| phase_start_time := origin |>
       <| time_left := remaining |>.
Proof.
  intros Hl Hr. unfold tick, exec. cbn [fst snd].
  rewrite tick_counting by assumption. reflexivity.
Qed.

Lemma tick_right_done_hm :
  current_phase (hm w) = phase_right ->
  g = look_right ->
  Qle_bool remaining 0 = true ->
  exists ln st al,
    hm (tick (t, g) w) =
    (hm w) <| phase_start_time := origin |>
         <| current_phase := phase_left |>
         <| countdown_active := false |>
         <| paused_time_left := 15 |>
         <| time_left := 15 |>
         <| last_notification := ln |>
         <| alert_stats := st |>
         <| session_data ::= fun d => d <| alerts := al |> |>.
Proof.
  intros Hp Hg Hr.
  destruct (tick_right_done g (at_time t w) Hactive Hdone Hp Hg Hr)
    as (r & ln & st & al & sp & E).
  exists ln, st, al. unfold tick, exec. cbn [fst snd]. rewrite E. reflexivity.
Qed.

Lemma tick_left_done_hm :
  current_phase (hm w) = phase_left ->
  g = look_left ->
  Qle_bool remaining 0 = true ->
  exists ln st al check,
    hm (tick (t, g) w) =
    (hm w) <| countdown_active := true |>
         <| phase_start_time := origin |>
         <| time_left := remaining |>
         <| eye_exercise_active := false |>
         <| exercise_done := true |>
         <| auto_mode_last_check := check |>
         <| last_notification := ln |>
         <| alert_stats := st |>
         <| session_data ::= fun d =>
              d <| alerts := al |>
                <| eye_exercises ::= fun l => l ++
                     [ {| exercise_timestamp := t;
                          duration := t - eye_exercise_start_time (hm w);
                          success := true |} ] |> |>.
Proof.
  intros Hp Hg Hr.
  destruct (tick_left_done g (at_time t w) Hactive Hdone Hp Hg Hr)
    as (r & ln & st & al & sp & stamp & check & E).
  exists ln, st, al, check. unfold tick, exec. cbn [fst snd]. rewrite E. reflexivity.
Qed.
End SimulatedTick.


Lemma expired_iff s q t : expired s q t = true <-> q <= t - s.
Proof.
  unfold expired. rewrite Qle_bool_iff. split; intros H.
  - apply Q.max_lub_iff in H. lra.
  - apply Q.max_lub_iff. lra.
Qed.

Lemma not_expired_iff s q t : expired s q t = false <-> t - s < q.
Proof.
  split; intros H.
  - apply Qnot_le_lt. intros Hle. apply expired_iff in Hle. congruence.
  - destruct (expired s q t) eqn:E; [|reflexivity]. apply expired_iff in E. lra.
Qed.

Section Phases.
Variables (start : Q) (log : list ExerciseRecord).

Lemma begin_countdown p g t q w :
  looking_at p g = true ->
  0 < q ->
  awaiting start log p q (hm w) ->
  holding start log p t q (hm (tick (t, g) w)).
Proof.
  intros Hl Hq (Ha & Hd & Hp & Hc & Hq' & Hs & Hg).
  rewrite tick_counting_hm; rewrite ?Hp, ?Hc, ?Hq'; auto.
  - unfold holding. cbn. rewrite Hc. auto 10.
  - apply not_expired_iff. lra.
Qed.

Lemma keep_countdown p g t s q w :
  looking_at p g = true ->
  expired s q t = false ->
  holding start log p s q (hm w) ->
  holding start log p s q (hm (tick (t, g) w)).
Proof.
  intros Hl He (Ha & Hd & Hp & Hc & Hs & Hq & Hst & Hg).
  rewrite tick_counting_hm; rewrite ?Hp, ?Hc, ?Hq, ?Hs; auto.
  unfold holding. cbn. rewrite Hc. auto 10.
Qed.

Lemma finish_right t s q w :
  expired s q t = true ->
  holding start log phase_right s q (hm w) ->
  awaiting start log phase_left 15 (hm (tick (t, look_right) w)) /\
  time_left (hm (tick (t, look_right) w)) = 15.
Proof.
  intros He (Ha & Hd & Hp & Hc & Hs & Hq & Hst & Hg).
  destruct (tick_right_done_hm t look_right w Ha Hd Hp eq_refl) as (ln & st & al & E).
  { rewrite Hc, Hq, Hs. exact He. }
  rewrite E. unfold awaiting. cbn. auto 10.
Qed.

Lemma finish_left t s q w :
  expired s q t = true ->
  holding start log phase_left s q (hm w) ->
  finished start log t (hm (tick (t, look_left) w)).
Proof.
  intros He (Ha & Hd & Hp & Hc & Hs & Hq & Hst & Hg).
  destruct (tick_left_done_hm t look_left w Ha Hd Hp eq_refl) as (ln & st & al & check & E).
  { rewrite Hc, Hq, Hs. exact He. }
  rewrite E. unfold finished. cbn. rewrite Hg, Hst. auto.
Qed.

Lemma awaiting_ignores p q ticks : forall w,
  awaiting start log p q (hm w) ->
  Forall (fun tg => looking_at p (snd tg) = false) ticks ->
  hm (run_ticks ticks w) = hm w.
Proof.
  intros w (Ha & Hd & Hp & Hc & _) Hall.
  apply wrong_gaze_while_paused; auto. rewrite Hp. exact Hall.
Qed.

Lemma finished_ignores t ticks : forall w,
  finished start log t (hm w) ->
  hm (run_ticks ticks w) = hm w.
Proof.
  induction ticks as [|[t' g] ticks IH]; intros w Hf; [reflexivity|].
  cbn [run_ticks fold_left]. fold (run_ticks ticks (tick (t', g) w)).
  assert (hm (tick (t', g) w) = hm w) as E.
  { apply tick_idle_hm. right. apply Hf. }
  rewrite IH; rewrite E; auto.
Qed.

(** Holding the gaze to the right: either no tick finds the countdown
    over, or the phase completed and the left phase awaits. *)
Lemma hold_right s q ticks : forall w,
  holding start log phase_right s q (hm w) ->
  Forall (fun tg => snd tg = look_right) ticks ->
  (Forall (fun tg => expired s q (fst tg) = false) ticks /\
   holding start log phase_right s q (hm (run_ticks ticks w))) \/
  (awaiting start log phase_left 15 (hm (run_ticks ticks w)) /\
   time_left (hm (run_ticks ticks w)) = 15).
Proof.
  induction ticks as [|[t g] ticks IH]; intros w Hh Hall.
  - left. split; [constructor | exact Hh].
  - inversion Hall as [|? ? Hg Hrest]; subst. cbn [snd] in Hg. subst g.
    cbn [run_ticks fold_left]. fold (run_ticks ticks (tick (t, look_right) w)).
    destruct (expired s q t) eqn:He.
    + right. destruct (finish_right t s q w He Hh) as [Haw Htl].
      rewrite (awaiting_ignores phase_left 15 ticks _ Haw); [auto|].
      eapply Forall_impl; [exact Hrest|]. intros [? ?] E. cbn in *. subst. reflexivity.
    + pose proof (keep_countdown phase_right look_right t s q w eq_refl He Hh) as Hk.
      destruct (IH (tick (t, look_right) w) Hk Hrest) as [[Hall' Hh'] | Hdone].
      * left. split; [constructor; assumption | assumption].
      * right. exact Hdone.
Qed.

(** Holding the gaze to the left: either no tick finds the countdown
    over, or the exercise completed on one that did. *)
Lemma hold_left s q ticks : forall w,
  holding start log phase_left s q (hm w) ->
  Forall (fun tg => snd tg = look_left) ticks ->
  (Forall (fun tg => expired s q (fst tg) = false) ticks /\
   holding start log phase_left s q (hm (run_ticks ticks w))) \/
  (exists t, In t (map fst ticks) /\ expired s q t = true /\
             finished start log t (hm (run_ticks ticks w))).
Proof.
  induction ticks as [|[t g] ticks IH]; intros w Hh Hall.
  - left. split; [constructor | exact Hh].
  - inversion Hall as [|? ? Hg Hrest]; subst. cbn [snd] in Hg. subst g.
    cbn [run_ticks fold_left]. fold (run_ticks ticks (tick (t, look_left) w)).
    destruct (expired s q t) eqn:He.
    + right. exists t. pose proof (finish_left t s q w He Hh) as Hf.
      rewrite (finished_ignores t ticks _ Hf). cbn. auto.
    + pose proof (keep_countdown phase_left look_left t s q w eq_refl He Hh) as Hk.
      destruct (IH (tick (t, look_left) w) Hk Hrest) as [[Hall' Hh'] | (t' & Hin & He' & Hf)].
      * left. split; [constructor; assumption | assumption].
      * right. exists t'. cbn. auto.
Qed.
End Phases.

Lemma started_awaits_right t0 w0 :
  awaiting t0 (exercise_log w0) phase_right 15 (hm (start_at t0 w0)).
Proof.
  destruct (start_eye_exercise_result (at_time t0 w0)) as (r & ln & st & al & sp & E).
  unfold start_at, exec. rewrite E. unfold awaiting. cbn. auto 10.
Qed.

(** C6. After [start_eye_exercise] at [t0], ticks that look right from [t1]
    to [tn], at least 15 seconds apart, leave the exercise in the left phase
    with 15 seconds remaining and the countdown stopped; ticks that then
    look left from [l1] to [lm], at least 15 seconds apart, complete it:
    done, inactive, and exactly one exercise record appended, successful,
    whose duration is the instant [t] of the completing tick minus [t0], at
    least 30 seconds when the clock does not run backwards. *)
Theorem exercise_completes_after_both_holds
  (w0 : World) (t0 t1 tn l1 lm : Q) (rights lefts : list (Q * Gaze)) :
  Forall (fun tg => snd tg = look_right) rights ->
  Forall (fun tg => snd tg = look_left) lefts ->
  15 <= tn - t1 ->
  15 <= lm - l1 ->
  t0 <= t1 ->
  tn <= l1 ->
  let right_ticks := (t1, look_right) :: rights ++ [(tn, look_right)] in
  let left_ticks := (l1, look_left) :: lefts ++ [(lm, look_left)] in
  let w1 := start_at t0 w0 in
  let w2 := run_ticks right_ticks w1 in
  let w3 := run_ticks left_ticks w2 in
  (current_phase (hm w2) = phase_left /\
   time_left (hm w2) = 15 /\
   countdown_active (hm w2) = false /\
   eye_exercise_active (hm w2) = true /\
   exercise_done (hm w2) = false /\
   exercise_log w2 = exercise_log w0) /\
  (exercise_done (hm w3) = true /\
   eye_exercise_active (hm w3) = false /\
   exists t,
     In t (map fst left_ticks) /\
     15 <= t - l1 /\
     30 <= t - t0 /\
     exercise_log w3 =
       exercise_log w0 ++
       [ {| exercise_timestamp := t; duration := t - t0; success := true |} ]).
Proof.
  intros Hrights Hlefts Hr Hl H01 Hnl right_ticks left_ticks w1 w2 w3.
  assert (awaiting t0 (exercise_log w0) phase_left 15 (hm w2) /\ time_left (hm w2) = 15)
    as [Hw2 Htl].
  { unfold w2, right_ticks. cbn [run_ticks fold_left].
    fold (run_ticks (rights ++ [(tn, look_right)]) (tick (t1, look_right) w1)).
    pose proof (begin_countdown t0 (exercise_log w0) phase_right look_right t1 15 w1
                  eq_refl ltac:(lra) (started_awaits_right t0 w0)) as Hh.
    destruct (hold_right t0 (exercise_log w0) t1 15 (rights ++ [(tn, look_right)]) _ Hh)
      as [[Hnone _] | Hdone].
    - apply Forall_app; split; [exact Hrights | constructor; [reflexivity | constructor]].
    - apply Forall_app in Hnone as [_ Hlast]. inversion Hlast as [|? ? He _]; subst.
      cbn [fst] in He. apply not_expired_iff in He. lra.
    - exact Hdone. }
  split.
  - destruct Hw2 as (Ha & Hd & Hp & Hc & Hq & Hs & Hg). unfold exercise_log. auto 10.
  - unfold w3, left_ticks. cbn [run_ticks fold_left].
    fold (run_ticks (lefts ++ [(lm, look_left)]) (tick (l1, look_left) w2)).
    pose proof (begin_countdown t0 (exercise_log w0) phase_left look_left l1 15 w2
                  eq_refl ltac:(lra) Hw2) as Hh.
    destruct (hold_left t0 (exercise_log w0) l1 15 (lefts ++ [(lm, look_left)]) _ Hh)
      as [[Hnone _] | (t & Hin & He & Hf)].
    + apply Forall_app; split; [exact Hlefts | constructor; [reflexivity | constructor]].
    + apply Forall_app in Hnone as [_ Hlast]. inversion Hlast as [|? ? He _]; subst.
      cbn [fst] in He. apply not_expired_iff in He. lra.
    + apply expired_iff in He. destruct Hf as (Ha & Hd & Hg).
      split; [exact Hd|]. split; [exact Ha|].
      exists t. split; [right; exact Hin|]. split; [exact He|]. split; [lra|].
      exact Hg.
Qed.

Lemma exercise_completes_after_both_holds_witness :
  exercise_done
    (hm (run_ticks [(1016, look_left); (1031, look_left)]
           (run_ticks [(1001, look_right); (1008, look_right); (1016, look_right)]
              (start_at 1000 fresh_session)))) = true.
Proof.
  destruct (exercise_completes_after_both_holds fresh_session 1000 1001 1016 1016 1031
              [(1008, look_right)] [])
    as (_ & Hdone & _).
  - repeat constructor.
  - constructor.
  - lra.
  - lra.
  - lra.
  - lra.
  - exact Hdone.
Defined.

(** * Pausing *)

Lemma right_time_one t g : right_time [(t, g)] = 0.
Proof. destruct g; reflexivity. Qed.

Lemma right_time_both t1 t2 l :
  right_time ((t1, look_right) :: (t2, look_right) :: l) =
  (t2 - t1) + right_time ((t2, look_right) :: l).
Proof. reflexivity. Qed.

Lemma right_time_off t g l : g <> look_right -> right_time ((t, g) :: l) = right_time l.
Proof. destruct g; try congruence; reflexivity. Qed.

Lemma right_time_then_off t1 g1 t2 g2 l :
  g2 <> look_right ->
  right_time ((t1, g1) :: (t2, g2) :: l) = right_time ((t2, g2) :: l).
Proof. destruct g1, g2; try congruence; reflexivity. Qed.

Lemma nondecreasing_tail t ts : nondecreasing (t :: ts) -> nondecreasing ts.
Proof. destruct ts; cbn; tauto. Qed.

Lemma Gaze_right_dec (g : Gaze) : {g = look_right} + {g <> look_right}.
Proof. destruct g; (left; reflexivity) || (right; discriminate). Qed.

Lemma right_time_nonneg ticks :
  nondecreasing (map fst ticks) -> 0 <= right_time ticks.
Proof.
  induction ticks as [|[t1 g1] ticks IH]; intros Hs; [cbn; lra|].
  destruct ticks as [|[t2 g2] ticks]; [rewrite right_time_one; lra|].
  pose proof (IH (nondecreasing_tail _ _ Hs)) as IH'.
  destruct Hs as [H12 _].
  destruct (Gaze_right_dec g2) as [-> | Hg2].
  - destruct (Gaze_right_dec g1) as [-> | Hg1].
    + rewrite right_time_both. cbn [fst] in H12. lra.
    + rewrite right_time_off by assumption. exact IH'.
  - rewrite right_time_then_off by assumption. exact IH'.
Qed.

Lemma Qmax_0_pos x : 0 <= x -> Qmax 0 x == x.
Proof. intros H. apply Q.max_r. exact H. Qed.

(** From the right phase with the countdown stopped, ticks that spend less
    than the paused remainder looking right leave the phase in progress;
    with the countdown running since its origin, the time already counted
    at the previous tick [t_prev] is part of the budget. *)
Lemma right_phase_survives ticks : forall w,
  in_right_phase (hm w) ->
  nondecreasing (map fst ticks) ->
  (if countdown_active (hm w)
   then forall t_prev,
        time_left (hm w) ==
          paused_time_left (hm w) - (t_prev - phase_start_time (hm w)) ->
        (t_prev - phase_start_time (hm w)) + right_time ((t_prev, look_right) :: ticks)
          < paused_time_left (hm w) ->
        in_right_phase (hm (run_ticks ticks w))
   else right_time ticks < paused_time_left (hm w) ->
        in_right_phase (hm (run_ticks ticks w))).
Proof.
  induction ticks as [|[t g] ticks IH]; intros w Hin Hs.
  - destruct (countdown_active (hm w)); intros; exact Hin.
  - pose proof (right_time_nonneg _ Hs) as Hnn.
    pose proof (nondecreasing_tail _ _ Hs) as Hs'. cbn [map] in Hs'.
    destruct Hin as (Ha & Hd & Hp).
    cbn [run_ticks fold_left]. fold (run_ticks ticks (tick (t, g) w)).
    specialize (IH (tick (t, g) w)).
    destruct (countdown_active (hm w)) eqn:Hc.
    + intros t_prev Htl Hbudget.
      destruct (Gaze_right_dec g) as [-> | Hg].
      * rewrite right_time_both in Hbudget.
        assert (hm (tick (t, look_right) w) =
                (hm w) <| countdown_active := true |>
                       <| phase_start_time := phase_start_time (hm w) |>
                       <| time_left := Qmax 0 (paused_time_left (hm w)
                                              - (t - phase_start_time (hm w))) |>) as E.
        { rewrite tick_counting_hm; rewrite ?Hp, ?Hc; auto.
          apply not_expired_iff. lra. }
        rewrite E in IH. fields_in IH.
        apply IH with (t_prev := t);
          [unfold in_right_phase; cbn; auto | exact Hs' | | lra].
        apply Qmax_0_pos. lra.
      * rewrite right_time_then_off, right_time_off in Hbudget by assumption.
        destruct (tick_pause_hm t g w Ha Hd) as (ln & st & al & E); auto.
        { rewrite Hp. destruct g; congruence || reflexivity. }
        rewrite E in IH. fields_in IH.
        apply IH; [unfold in_right_phase; cbn; auto | exact Hs' |].
        rewrite Htl. lra.
    + intros Hbudget.
      destruct (Gaze_right_dec g) as [-> | Hg].
      * assert (hm (tick (t, look_right) w) =
                (hm w) <| countdown_active := true |>
                       <| phase_start_time := t |>
                       <| time_left := Qmax 0 (paused_time_left (hm w) - (t - t)) |>) as E.
        { rewrite tick_counting_hm; rewrite ?Hp, ?Hc; auto.
          apply not_expired_iff. lra. }
        rewrite E in IH. fields_in IH.
        apply IH with (t_prev := t);
          [unfold in_right_phase; cbn; auto | exact Hs' | | lra].
        apply Qmax_0_pos. lra.
      * rewrite right_time_off in Hbudget by assumption.
        assert (hm (tick (t, g) w) = hm w) as E.
        { apply tick_waiting_hm; auto. rewrite Hp. destruct g; congruence || reflexivity. }
        rewrite E, Hc in IH.
        apply IH; [unfold in_right_phase; auto | exact Hs' | exact Hbudget].
Qed.

Lemma nondecreasing_take ts : forall n, nondecreasing ts -> nondecreasing (take n ts).
Proof.
  induction ts as [|t1 ts IH]; intros n Hs; [destruct n; exact I|].
  destruct n as [|n]; [exact I|].
  destruct ts as [|t2 ts]; [destruct n; exact I|].
  destruct n as [|n]; [exact I|].
  destruct Hs as [H12 Hs]. split; [exact H12|]. apply (IH (S n)). exact Hs.
Qed.

Lemma right_time_take ticks : forall n,
  nondecreasing (map fst ticks) ->
  right_time (take n ticks) <= right_time ticks.
Proof.
  induction ticks as [|[t1 g1] ticks IH]; intros n Hs; [destruct n; cbn; lra|].
  pose proof (right_time_nonneg _ Hs) as Hnn.
  destruct n as [|n]; [exact Hnn|].
  pose proof (nondecreasing_tail _ _ Hs) as Hs'.
  destruct ticks as [|[t2 g2] ticks]; [destruct n; cbn [take]; lra|].
  specialize (IH n Hs').
  destruct n as [|n]; [cbn [take]; rewrite right_time_one; exact Hnn|].
  cbn [take] in IH |- *.
  destruct (Gaze_right_dec g2) as [-> | Hg2].
  - destruct (Gaze_right_dec g1) as [-> | Hg1].
    + rewrite !right_time_both. lra.
    + rewrite !(right_time_off t1 g1) by assumption. exact IH.
  - rewrite !(right_time_then_off t1 g1 t2 g2) by assumption. exact IH.
Qed.

(** C7. From the start of the right phase, no tick sequence with
    nondecreasing timestamps that spends less than 15 seconds looking
    right completes the phase, at any point of the sequence and whatever
    the gaze pattern (right, center, right included).  And when a running
    countdown is stopped by a look away and resumed, after any number of
    ticks looking elsewhere and any time, the remaining time after the
    resuming tick is the remaining time at the pause. *)
Theorem pause_keeps_remaining_time :
  (forall (w : World) (ticks : list (Q * Gaze)) (n : nat),
     in_right_phase (hm w) ->
     countdown_active (hm w) = false ->
     paused_time_left (hm w) = 15 ->
     nondecreasing (map fst ticks) ->
     right_time ticks < 15 ->
     in_right_phase (hm (run_ticks (take n ticks) w))) /\
  (forall (w : World) (t_pause t_resume : Q) (away back : Gaze)
          (elsewhere : list (Q * Gaze)),
     eye_exercise_active (hm w) = true ->
     exercise_done (hm w) = false ->
     countdown_active (hm w) = true ->
     0 < time_left (hm w) ->
     looking_at (current_phase (hm w)) away = false ->
     Forall (fun tg => looking_at (current_phase (hm w)) (snd tg) = false) elsewhere ->
     looking_at (current_phase (hm w)) back = true ->
     let paused := tick (t_pause, away) w in
     let waited := run_ticks elsewhere paused in
     let resumed := tick (t_resume, back) waited in
     countdown_active (hm paused) = false /\
     time_left (hm paused) = time_left (hm w) /\
     time_left (hm waited) = time_left (hm w) /\
     countdown_active (hm resumed) = true /\
     current_phase (hm resumed) = current_phase (hm w) /\
     time_left (hm resumed) == time_left (hm w)).
Proof.
  split.
  - intros w ticks n Hin Hc Hq Hs Hrt.
    pose proof (right_phase_survives (take n ticks) w Hin) as H.
    rewrite Hc, Hq in H. apply H.
    + rewrite <- firstn_map. apply nondecreasing_take. exact Hs.
    + pose proof (right_time_take ticks n Hs). lra.
  - intros w t_pause t_resume away back elsewhere Ha Hd Hc Htl Haway Helse Hback
           paused waited resumed.
    destruct (tick_pause_hm t_pause away w Ha Hd Haway Hc) as (ln & st & al & E).
    assert (hm waited = hm paused) as Ew.
    { apply wrong_gaze_while_paused; unfold paused; rewrite E; fields; auto. }
    assert (hm resumed =
            (hm waited) <| countdown_active := true |>
                        <| phase_start_time := t_resume |>
                        <| time_left := Qmax 0 (time_left (hm w) - (t_resume - t_resume)) |>)
      as Er.
    { unfold resumed. rewrite tick_counting_hm; rewrite Ew; unfold paused; rewrite E; fields; auto.
      apply not_expired_iff. lra. }
    rewrite Er, Ew. unfold paused. rewrite E. fields.
    repeat split; try reflexivity. rewrite Qmax_0_pos; lra.
Qed.

Lemma pause_keeps_remaining_time_witness :
  in_right_phase
    (hm (run_ticks (take 3 [(1001, look_right); (1004, look_right); (1005, look_center);
                            (1060, look_right); (1070, look_right)])
           started_session)) /\
  time_left (hm (tick (1060, look_right)
                   (run_ticks [(1030, look_left)] (tick (1005, look_center) counting_session))))
    == time_left (hm counting_session).
Proof.
  destruct pause_keeps_remaining_time as [Hhold Hresume]. split.
  - apply Hhold.
    + repeat split.
    + reflexivity.
    + reflexivity.
    + cbn. repeat split; lra.
    + vm_compute. reflexivity.
  - apply (Hresume counting_session 1005 1060 look_center look_right [(1030, look_left)]).
    + reflexivity.
    + reflexivity.
    + reflexivity.
    + vm_compute. reflexivity.
    + reflexivity.
    + repeat constructor.
    + reflexivity.
Defined.

(** * Process frame on sample inputs *)

(** C1, on the code. With auto mode on, no exercise active, the poll
    interval elapsed and a proximity alert (and a low blink rate) on the
    frame, [process_frame] moves [auto_mode_last_check] to the sample it
    takes at its top, and for that reason finds the interval not elapsed
    when it tests it again before triggering: no exercise is started and
    [last_break_time] is not reset. *)
Theorem auto_poll_resets_timer_before_trigger :
  let w := polling_session in
  let outcome := process_frame close_face_frame w in
  auto_mode (hm w) = true /\
  eye_exercise_active (hm w) = false /\
  eval should_check_auto_mode w = true /\
  (exists results, fst outcome = Returns results /\
                   proximity_alert results = Some true /\
                   low_blink_rate results = Some true) /\
  auto_mode_last_check (hm (snd outcome)) = clock w (S (reads w)) /\
  eye_exercise_active (hm (snd outcome)) = false /\
  exercises_started (snd outcome) = exercises_started w /\
  last_break_time (hm (snd outcome)) = last_break_time (hm w).
Proof.
  vm_compute. repeat split; try reflexivity.
  eexists. repeat split; reflexivity.
Qed.

(** When [psutil] is present and reports an empty temperature table,
    [check_system_health] stores the string ['unavailable'] under
    ['temperature']; that key contains ['temp'], and comparing its value
    with 70 raises, whatever the battery reads. *)
Lemma no_temperature_sensors_raise battery results w :
  psutil_available (hm w) = true ->
  eye_exercise_active (hm w) = false ->
  (py_int (clock w (reads w)) mod 10 = 0)%Z ->
  eval (system_health_block
          {| sensors_battery := Returns battery; sensors_temperatures := Returns [] |}
          results) w = Raises "TypeError".
Proof.
  intros Hp Ha Ht. apply Z.eqb_eq in Ht.
  unfold eval, system_health_block, check_system_health, bind, time, self, ret.
  fields. rewrite Ht, Ha. cbn [negb andb]. fields. rewrite Hp. cbn [negb].
  destruct battery as [[? [[]|] ?]|]; reflexivity.
Qed.

(** C2, on the code. On a machine whose [psutil] reports no temperature
    sensor, the first frame processed while [int(time.time()) % 10 == 0]
    and no exercise is active does not complete: the [TypeError] of
    ['unavailable' > 70] leaves [process_frame]. *)
Theorem system_health_check_raises :
  eye_exercise_active (hm fresh_session) = false /\
  psutil_available (hm fresh_session) = true /\
  eval (process_frame no_sensor_frame) fresh_session = Raises "TypeError".
Proof. vm_compute. repeat split; reflexivity. Qed.

(** * Background mode *)

(** The periodic check tests [eye_exercise_active] before anything else:
    with an exercise active it changes nothing in the window. *)
Lemma periodic_check_respects_exercise app :
  eye_exercise_active (hm (world app)) = true ->
  gui (snd (check_background_operation app)) = gui app.
Proof.
  intros Ha. destruct app as [g w].
  unfold check_background_operation, gbind, window, monitor, self, gret. cbn.
  destruct (negb (auto_mode_active g) || negb (is_camera_active g)); [reflexivity|].
  cbn in Ha |- *. rewrite Ha, andb_false_r. reflexivity.
Qed.

(** C4, on the code. After an auto-mode start-up the user starts an
    exercise from the button; when the 3000 ms timer then runs
    [try_background_after_start], which does not look at the exercise, the
    window enters background mode, stops the camera and hides, with the
    exercise active and not done. *)
Theorem early_background_entry_during_exercise :
  let before := exercising_app in
  let after := deliver_all [single_shot_timeout try_background_after_start_cb] before in
  auto_mode (hm (world before)) = true /\
  eye_exercise_active (hm (world before)) = true /\
  exercise_done (hm (world before)) = false /\
  background_mode (gui before) = false /\
  is_camera_active (gui before) = true /\
  In (3000%Z, try_background_after_start_cb) (single_shots (gui before)) /\
  background_mode (gui after) = true /\
  is_camera_active (gui after) = false /\
  video_thread (gui after) = false /\
  window_shown (gui after) = false /\
  eye_exercise_active (hm (world after)) = true /\
  exercise_done (hm (world after)) = false.
Proof. vm_compute. repeat split; try reflexivity. left. reflexivity. Qed.

(** * Manual mode *)

Section Preservation.
Context {I : World -> Prop}.

Lemma pres_ret {A} (a : A) : preserves I (ret a).
Proof. intros w H. exact H. Qed.

Lemma pres_bind {A B} (c : M A) (k : A -> M B) :
  preserves I c -> (forall a, preserves I (k a)) -> preserves I (bind c k).
Proof.
  intros Hc Hk w H. unfold bind. specialize (Hc w H).
  destruct (c w) as [a w']. apply Hk. exact Hc.
Qed.

Lemma pres_bind_value {A B} (c : M A) (k : A -> M B) (v : A) :
  (forall w, I w -> I (snd (c w)) /\ fst (c w) = v) ->
  preserves I (k v) ->
  preserves I (bind c k).
Proof.
  intros Hc Hk w H. unfold bind. destruct (Hc w H) as [H' Hv].
  destruct (c w) as [a w']. cbn [fst snd] in *. subst a. apply Hk. exact H'.
Qed.

Lemma pres_bind_self {B} (J : HealthMonitor -> Prop) (k : HealthMonitor -> M B) :
  (forall w, I w -> J (hm w)) ->
  (forall m, J m -> preserves I (k m)) ->
  preserves I (bind self k).
Proof. intros HJ Hk w H. unfold bind, self. apply Hk; auto. Qed.
End Preservation.

Lemma started_after_toast w w' t :
  notified w' = notified w ++ [t] ->
  exercises_started w' =
  (exercises_started w + if is_start_prompt t then 1 else 0)%nat.
Proof.
  intros E. unfold exercises_started. rewrite E, List.filter_app, length_app. cbn.
  destruct (is_start_prompt t); reflexivity.
Qed.

(** The counter is faithful: every call of [start_eye_exercise] announces
    one more exercise. *)
Lemma start_eye_exercise_counted w :
  exercises_started (exec start_eye_exercise w) = S (exercises_started w).
Proof.
  destruct (start_eye_exercise_result w) as (r & ln & st & al & sp & E).
  unfold exec. rewrite E. cbn [snd].
  erewrite (started_after_toast w); [|reflexivity].
  change (is_start_prompt _) with true. cbv iota. lia.
Qed.

Section Framed.
Variables (P : HealthMonitor -> Prop) (C : (nat -> Q) -> Prop) (k : nat).

Lemma framed_monitor w : framed P C k w -> P (hm w).
Proof. intros [H _]. exact H. Qed.

Lemma pres_time : preserves (framed P C k) time.
Proof. intros w H. exact H. Qed.

Lemma pres_update f :
  (forall m, P m -> P (f m)) ->
  preserves (framed P C k) (update f).
Proof. intros Hf w (H1 & H2 & H3). split; [apply Hf; exact H1 | split; assumption]. Qed.

Lemma pres_speak text : preserves (framed P C k) (speak text).
Proof.
  intros w H. destruct (speak_only_speaks text w) as [sp ->]. exact H.
Qed.

Lemma pres_fast_notify title message :
  String.eqb title "👀 Eye Exercise Time!" = false ->
  preserves (framed P C k) (fast_notify title message).
Proof.
  intros Ht w (H1 & H2 & H3). split; [exact H1|]. split; [exact H2|].
  erewrite (started_after_toast w); [|reflexivity].
  unfold is_start_prompt. cbn [toast_title]. rewrite Ht. lia.
Qed.
End Framed.

(** After the periodic check at a frozen clock, the interval is never found
    elapsed again. *)
Lemma should_check_after_poll t b k w :
  polled t b k w ->
  polled t b k (snd (should_check_auto_mode w)) /\ fst (should_check_auto_mode w) = false.
Proof.
  intros H. pose proof H as ((Hc & Hiv & Ha & Hb) & Hfrozen & Hk).
  unfold should_check_auto_mode, bind, self, time, ret.
  destruct (negb (auto_mode (hm w))); [split; [exact H | reflexivity]|].
  fields. split; [exact H|].
  rewrite Hfrozen, Hc. apply Qle_bool_false. lra.
Qed.

Ltac use_facts :=
  repeat match goal with
         | H : ?x = true -> _ |- _ => specialize (H eq_refl)
         | H : _ = false |- _ => rewrite H
         end;
  cbn [andb negb orb].

Ltac unpack H :=
  red in H; decompose [and] H; clear H.

Ltac pres_step :=
  cbv zeta;
  lazymatch goal with
  | |- preserves _ (ret _) => apply pres_ret
  | |- preserves (framed ?P _ _) (bind self _) =>
      apply (pres_bind_self P);
      [apply framed_monitor | let H := fresh "HP" in intros ? H; unpack H]
  | |- preserves (framed (just_polled _ _) _ _) (bind should_check_auto_mode _) =>
      apply pres_bind_value with (v := false); [apply should_check_after_poll|]
  | |- preserves _ (bind _ _) => apply pres_bind; [|intros ?]
  | |- preserves _ time => apply pres_time
  | |- preserves _ (update _) =>
      apply pres_update;
      let H := fresh "HP" in intros ? H; unpack H; red; fields; auto 10
  | |- preserves _ (speak _) => apply pres_speak
  | |- preserves _ (fast_notify _ _) => apply pres_fast_notify; reflexivity
  | |- preserves _ (when _ _) => unfold when
  | |- preserves _ (if ?b then _ else _) =>
      first [ progress use_facts | destruct b eqn:? ]
  | |- preserves _ (match ?x with _ => _ end) => destruct x eqn:?
  end.

Section Notifications.
Variables (P : HealthMonitor -> Prop) (C : (nat -> Q) -> Prop) (k : nat).
Hypothesis gate_only :
  forall m ln st al,
    P m ->
    P (m <| last_notification := ln |> <| alert_stats := st |>
         <| session_data ::= fun d => d <| alerts := al |> |>).

Lemma pres_should_notify kind : preserves (framed P C k) (should_notify kind).
Proof.
  unfold should_notify.
  apply pres_bind; [apply pres_time | intros ?].
  apply (pres_bind_self P); [apply framed_monitor | intros ? _]. apply pres_ret.
Qed.

Lemma pres_send_notification title message kind :
  String.eqb title "👀 Eye Exercise Time!" = false ->
  preserves (framed P C k) (send_notification title message kind).
Proof.
  intros Ht w H.
  assert (exists r nt ln st al,
    snd (send_notification title message kind w) =
    w <| reads := r |> <| notified := nt |>
      <| hm ::= fun m => m <| last_notification := ln |> <| alert_stats := st |>
                           <| session_data ::= fun d => d <| alerts := al |> |> |> /\
    (nt = notified w \/
     exists delivered, nt = notified w ++ [ {| toast_title := title;
                                              toast_message := message;
                                              toast_delivered := delivered |} ])) as E.
  { clear H. open_world w. unfold send_notification, should_notify, fast_notify. norm.
    repeat (first [split_if | split_option]; norm);
      do 5 eexists; (split; [reflexivity|]); (left; reflexivity) || (right; eexists; reflexivity). }
  destruct E as (r & nt & ln & st & al & -> & Hnt).
  destruct H as (H1 & H2 & H3). split; [apply gate_only; exact H1|]. split; [exact H2|].
  destruct Hnt as [-> | [delivered ->]]; [exact H3|].
  unfold exercises_started in *. fields.
  rewrite List.filter_app, length_app. cbn [List.filter].
  unfold is_start_prompt at 2. cbn [toast_title]. rewrite Ht. cbn. lia.
Qed.
End Notifications.

Lemma manual_gate_only idle m ln st al :
  manual_monitor idle m ->
  manual_monitor idle
    (m <| last_notification := ln |> <| alert_stats := st |>
       <| session_data ::= fun d => d <| alerts := al |> |>).
Proof. intros H. exact H. Qed.

Lemma polled_gate_only t b m ln st al :
  just_polled t b m ->
  just_polled t b
    (m <| last_notification := ln |> <| alert_stats := st |>
       <| session_data ::= fun d => d <| alerts := al |> |>).
Proof. intros H. exact H. Qed.

Ltac pres_known :=
  lazymatch goal with
  | |- preserves (manual _ _) _ => unfold manual
  | |- preserves (polled _ _ _) _ => unfold polled
  | |- preserves (framed (just_polled _ _) _ _) (should_notify _) =>
      apply pres_should_notify
  | |- preserves (framed (just_polled _ _) _ _) (send_notification _ _ _) =>
      apply pres_send_notification; [apply polled_gate_only | reflexivity]
  | |- preserves (framed (manual_monitor _) _ _) (should_notify _) =>
      apply pres_should_notify
  | |- preserves (framed (manual_monitor _) _ _) (send_notification _ _ _) =>
      apply pres_send_notification; [apply manual_gate_only | reflexivity]
  | |- preserves _ check_blink_rate => unfold check_blink_rate
  | |- preserves _ check_screen_time => unfold check_screen_time
  | |- preserves _ should_check_auto_mode => unfold should_check_auto_mode
  | |- preserves _ (analyze_posture _) => unfold analyze_posture
  | |- preserves _ (check_system_health _) => unfold check_system_health
  end.

Ltac pres_go := repeat first [pres_known | pres_step].

Section ManualFrames.
Variables (k : nat) (idle : bool).

Lemma pres_update_eye_exercise detection :
  preserves (manual k idle) (update_eye_exercise detection).
Proof. unfold update_eye_exercise. pres_go. Qed.

Lemma pres_temperature_alerts items :
  preserves (manual k idle) (temperature_alerts items).
Proof.
  induction items as [|[key temp] items IH]; cbn [temperature_alerts]; pres_go; exact IH.
Qed.

Lemma pres_auto_mode_check : preserves (manual k idle) auto_mode_check.
Proof. unfold auto_mode_check. pres_go. Qed.

Lemma pres_face_block face results :
  preserves (manual k idle) (face_block face results).
Proof.
  unfold face_block. pres_go; apply pres_update_eye_exercise.
Qed.

Lemma pres_pose_block pose results :
  preserves (manual k idle) (pose_block pose results).
Proof. unfold pose_block. pres_go. Qed.

Lemma pres_screen_time_block results :
  preserves (manual k idle) (screen_time_block results).
Proof. unfold screen_time_block. pres_go. Qed.

Lemma pres_system_health_block sensors results :
  preserves (manual k idle) (system_health_block sensors results).
Proof. unfold system_health_block. pres_go; apply pres_temperature_alerts. Qed.

Lemma pres_process_frame frame : preserves (manual k idle) (process_frame frame).
Proof.
  unfold process_frame.
  apply (pres_bind_self (manual_monitor idle)); [apply framed_monitor | intros m _].
  destruct (negb (mediapipe_available m)); [apply pres_ret|].
  apply pres_bind; [apply pres_auto_mode_check | intros _].
  apply pres_bind; [apply pres_face_block | intros ?].
  apply pres_bind; [apply pres_pose_block | intros ?].
  apply pres_bind; [apply pres_screen_time_block | intros ?].
  apply pres_system_health_block.
Qed.

Lemma pres_run_frames frames : preserves (manual k idle) (run_frames frames).
Proof.
  induction frames as [|frame frames IH]; cbn [run_frames]; [apply pres_ret|].
  apply pres_bind; [apply pres_process_frame | intros [results | e]];
    [exact IH | apply pres_ret].
Qed.
End ManualFrames.

(** * Auto mode after the periodic check *)

Section PolledFrames.
Variables (t b : Q) (k : nat).

Lemma polled_temperature_alerts items :
  preserves (polled t b k) (temperature_alerts items).
Proof.
  induction items as [|[key temp] items IH]; cbn [temperature_alerts]; pres_go; exact IH.
Qed.

Lemma polled_face_block face results :
  preserves (polled t b k) (face_block face results).
Proof. unfold face_block. pres_go. Qed.

Lemma polled_pose_block pose results :
  preserves (polled t b k) (pose_block pose results).
Proof. unfold pose_block. pres_go. Qed.

Lemma polled_screen_time_block results :
  preserves (polled t b k) (screen_time_block results).
Proof. unfold screen_time_block. pres_go. Qed.

Lemma polled_system_health_block sensors results :
  preserves (polled t b k) (system_health_block sensors results).
Proof. unfold system_health_block. pres_go; apply polled_temperature_alerts. Qed.
End PolledFrames.

(** The top of [process_frame] in auto mode with the interval elapsed:
    the check instant moves to the tick's time. *)
Lemma auto_mode_check_polls t w :
  auto_mode (hm w) = true ->
  eye_exercise_active (hm w) = false ->
  0 < auto_mode_interval (hm w) ->
  auto_mode_interval (hm w) <= t - auto_mode_last_check (hm w) ->
  polled t (last_break_time (hm w)) (exercises_started w)
    (snd (auto_mode_check (at_time t w))).
Proof.
  intros Hauto Ha Hiv Hdue. apply Qle_bool_iff in Hdue.
  unfold polled, framed, just_polled, frozen, exercises_started.
  open_world w. norm_all. subst.
  unfold auto_mode_check, should_check_auto_mode, at_time. norm.
  rewrite Hdue. norm. auto 10.
Qed.

(** The same for every frame at simulated time: in auto mode, with no
    exercise active and the poll interval elapsed, [process_frame] records
    the check and starts no exercise, whatever the frame shows. *)
Lemma auto_poll_never_triggers (frame : Frame) (t : Q) (w : World) :
  mediapipe_available (hm w) = true ->
  auto_mode (hm w) = true ->
  eye_exercise_active (hm w) = false ->
  0 < auto_mode_interval (hm w) ->
  auto_mode_interval (hm w) <= t - auto_mode_last_check (hm w) ->
  let w' := exec (process_frame frame) (at_time t w) in
  auto_mode_last_check (hm w') = t /\
  eye_exercise_active (hm w') = false /\
  exercises_started w' = exercises_started w /\
  last_break_time (hm w') = last_break_time (hm w).
Proof.
  intros Hmp Hauto Ha Hiv Hdue w'.
  pose proof (auto_mode_check_polls t w Hauto Ha Hiv Hdue) as H0.
  assert (polled t (last_break_time (hm w)) (exercises_started w) w') as H.
  { unfold w', exec, process_frame. unfold bind at 1. unfold self at 1.
    change (mediapipe_available (hm (at_time t w))) with (mediapipe_available (hm w)).
    rewrite Hmp. cbn [negb]. unfold bind at 1.
    destruct (auto_mode_check (at_time t w)) as [[] w1]. cbn [snd] in H0.
    revert H0. generalize w1.
    change (preserves (polled t (last_break_time (hm w)) (exercises_started w))
              (results <- face_block (frame_face frame) no_results ;;
               results <- pose_block (frame_pose frame) results ;;
               results <- screen_time_block results ;;
               system_health_block (frame_sensors frame) results)).
    apply pres_bind; [apply polled_face_block | intros ?].
    apply pres_bind; [apply polled_pose_block | intros ?].
    apply pres_bind; [apply polled_screen_time_block | intros ?].
    apply polled_system_health_block. }
  destruct H as ((Hc & _ & Hact & Hb) & _ & Hk). auto.
Qed.

(** In manual mode, whatever the frames show, the video loop never calls
    [start_eye_exercise]: the count of announced exercises does not move,
    the mode stays manual, and an inactive exercise stays inactive. *)
Theorem manual_mode_never_starts_exercise (frames : list Frame) (w : World) :
  auto_mode (hm w) = false ->
  let w' := exec (run_frames frames) w in
  exercises_started w' = exercises_started w /\
  auto_mode (hm w') = false /\
  (eye_exercise_active (hm w) = false -> eye_exercise_active (hm w') = false).
Proof.
  intros Hm w'.
  assert (manual (exercises_started w) false w) as H0.
  { split; [split; [exact Hm | discriminate] | split; [exact I | reflexivity]]. }
  apply (pres_run_frames _ false frames) in H0. destruct H0 as ([Ha _] & _ & Hk).
  split; [exact Hk|]. split; [exact Ha|].
  intros Hi.
  assert (manual (exercises_started w) true w) as H1.
  { split; [split; [exact Hm | intros _; exact Hi] | split; [exact I | reflexivity]]. }
  apply (pres_run_frames _ true frames) in H1. destruct H1 as ([_ Hidle] & _).
  apply Hidle. reflexivity.
Qed.

Lemma manual_mode_never_starts_exercise_witness :
  exercises_started
    (exec (run_frames [close_face_frame; close_face_frame]) (elapse 400 fresh_session)) = 0%nat.
Proof.
  destruct (manual_mode_never_starts_exercise [close_face_frame; close_face_frame]
              (elapse 400 fresh_session)) as (Hk & _).
  - reflexivity.
  - rewrite Hk. reflexivity.
Defined.


(** * More of the cooldown gate *)

(** X1. A kind without a counter: [fast_notify] is called and the fire
    instant is stored, then the [KeyError] of the counter update ends the
    [try] body, so no counter changes and no record is appended. *)
Theorem notification_of_unknown_kind (title : string) (message : Message)
  (kind : string) (w : World) :
  alert_stats (hm w) !! kind = None ->
  cooldown_elapsed kind w = true ->
  let w' := exec (send_notification title message kind) w in
  notified w' = notified w ++ [ {| toast_title := title; toast_message := message;
                                   toast_delivered := delivers (backends w) |} ] /\
  last_notification (hm w') !! kind = Some (clock w (S (reads w))) /\
  alert_stats (hm w') = alert_stats (hm w) /\
  session_data (hm w') = session_data (hm w).
Proof.
  intros Hn Ha w'. unfold w', exec.
  unfold send_notification, should_notify, bind, time, self, ret, fast_notify, update.
  fields. fold (cooldown_elapsed kind w). rewrite Ha. cbn [negb andb]. fields.
  rewrite Hn. fields. repeat split; try reflexivity. apply lookup_insert_eq.
Qed.

Lemma notification_of_unknown_kind_witness :
  alert_log (exec (send_notification "custom" (Msg "custom") "fatigue") fresh_session) = [] /\
  List.length (notified (exec (send_notification "custom" (Msg "custom") "fatigue")
                           fresh_session)) = 1%nat.
Proof.
  destruct (notification_of_unknown_kind "custom" (Msg "custom") "fatigue" fresh_session)
    as (Hn & _ & _ & Hs).
  - reflexivity.
  - reflexivity.
  - unfold alert_log. rewrite Hs, Hn. split; reflexivity.
Defined.

(** X2. The gate is per kind: whatever [send_notification] does for one
    kind, the fire instant and the counter of every other kind stay as
    they were. *)
Theorem notification_leaves_other_kinds (title : string) (message : Message)
  (kind other : string) (w : World) :
  other <> kind ->
  let w' := exec (send_notification title message kind) w in
  last_notification (hm w') !! other = last_notification (hm w) !! other /\
  alert_stats (hm w') !! other = alert_stats (hm w) !! other.
Proof.
  intros Hne w'. unfold w', exec.
  unfold send_notification, should_notify, bind, time, self, ret, fast_notify, update.
  fields.
  destruct (negb _ && negb _); [split; reflexivity|]. fields.
  destruct (alert_stats (hm w) !! kind) eqn:Hk; cbn [fst snd]; fields;
    rewrite ?lookup_insert_ne by congruence; split; reflexivity.
Qed.

Lemma notification_leaves_other_kinds_witness :
  cooldown_elapsed "posture"
    (exec (send_notification "close" (Msg "close") "proximity") fresh_session) = true.
Proof.
  destruct (notification_leaves_other_kinds "close" (Msg "close") "proximity" "posture"
              fresh_session) as [Hl _].
  - discriminate.
  - unfold cooldown_elapsed. rewrite Hl. reflexivity.
Defined.

(** * Metric extractors *)

Lemma gaze_bucket_opposite g g' :
  g' == - g ->
  (if negb (Qle_bool g' GAZE_THRESHOLD) then look_right
   else if negb (Qle_bool (- GAZE_THRESHOLD) g') then look_left else look_center) =
  opposite (if negb (Qle_bool g GAZE_THRESHOLD) then look_right
            else if negb (Qle_bool (- GAZE_THRESHOLD) g) then look_left else look_center).
Proof.
  intros Hg. unfold GAZE_THRESHOLD.
  repeat match goal with
         | |- context [Qle_bool ?a ?b] => destruct (Qle_bool a b) eqn:?
         end;
    cbn; try reflexivity; exfalso;
    repeat match goal with
           | H : Qle_bool _ _ = true |- _ => apply Qle_bool_iff in H
           | H : Qle_bool _ _ = false |- _ => apply Qle_bool_false in H
           end;
    lra.
Qed.

Lemma Qeq_bool_eq x y x' y' : x == x' -> y == y' -> Qeq_bool x y = Qeq_bool x' y'.
Proof.
  intros Hx Hy. destruct (Qeq_bool x' y') eqn:E.
  - apply Qeq_bool_iff in E. apply Qeq_bool_iff. rewrite Hx, Hy. exact E.
  - destruct (Qeq_bool x y) eqn:E'; [|reflexivity].
    apply Qeq_bool_iff in E'. rewrite Hx, Hy in E'. apply Qeq_bool_iff in E'. congruence.
Qed.

Lemma mirrored_width c a b : Qabs ((c - a) - (c - b)) == Qabs (a - b).
Proof.
  assert ((c - a) - (c - b) == - (a - b)) as -> by ring. apply Qabs_opp.
Qed.

(** X3. Looking at the face in a mirror swaps the verdict: when every
    landmark is reflected about a vertical line, [detect_gaze_direction]
    answers left for right, right for left, and center for center. *)
Theorem gaze_direction_of_mirror_image (c : Q) (face_landmarks : list Landmark) (w : World) :
  eval (detect_gaze_direction (mirrored c <$> face_landmarks)) w =
  opposite (eval (detect_gaze_direction face_landmarks) w).
Proof.
  unfold eval, detect_gaze_direction, bind, self, ret. cbn [fst].
  destruct (negb (mediapipe_available (hm w))); [reflexivity|]. cbn [fst].
  rewrite !list_lookup_fmap.
  destruct (face_landmarks !! 133%nat) as [li|]; [|reflexivity].
  destruct (face_landmarks !! 33%nat) as [lo|]; [|reflexivity].
  destruct (face_landmarks !! 362%nat) as [ri|]; [|reflexivity].
  destruct (face_landmarks !! 263%nat) as [ro|]; [|reflexivity].
  destruct (face_landmarks !! 1%nat) as [nose|]; [|reflexivity].
  cbn [fmap option_fmap option_map mirrored lm_x].
  rewrite (Qeq_bool_eq _ 0 (Qabs (lm_x lo - lm_x li)) 0 (mirrored_width _ _ _) (Qeq_refl 0)).
  rewrite (Qeq_bool_eq _ 0 (Qabs (lm_x ro - lm_x ri)) 0 (mirrored_width _ _ _) (Qeq_refl 0)).
  destruct (Qeq_bool (Qabs (lm_x lo - lm_x li)) 0) eqn:Hl; [reflexivity|].
  destruct (Qeq_bool (Qabs (lm_x ro - lm_x ri)) 0) eqn:Hr; [reflexivity|].
  cbn [orb]. apply gaze_bucket_opposite.
  rewrite !mirrored_width.
  assert (~ Qabs (lm_x lo - lm_x li) == 0) as Hl'
    by (intros E; apply Qeq_bool_iff in E; congruence).
  assert (~ Qabs (lm_x ro - lm_x ri) == 0) as Hr'
    by (intros E; apply Qeq_bool_iff in E; congruence).
  field. split; assumption.
Qed.

(** X4. [detect_gaze_direction] falls back to center: when MediaPipe is
    missing, when the landmark list stops before index 362, and when the
    inner and outer corner of an eye have the same [x]. *)
Theorem gaze_direction_defaults_to_center (face_landmarks : list Landmark) (w : World) :
  mediapipe_available (hm w) = false \/
  (List.length face_landmarks <= 362)%nat \/
  (exists inner outer,
     lm_x inner == lm_x outer /\
     ((face_landmarks !! 133%nat = Some inner /\ face_landmarks !! 33%nat = Some outer) \/
      (face_landmarks !! 362%nat = Some inner /\ face_landmarks !! 263%nat = Some outer))) ->
  eval (detect_gaze_direction face_landmarks) w = look_center.
Proof.
  intros H. unfold eval, detect_gaze_direction, bind, self, ret. cbn [fst].
  destruct H as [-> | H]; [reflexivity|].
  destruct (negb (mediapipe_available (hm w))); [reflexivity|]. cbn [fst].
  destruct H as [Hshort | (inner & outer & Hx & H)].
  - rewrite (lookup_ge_None_2 face_landmarks 362) by exact Hshort.
    repeat match goal with |- context [match ?x with Some _ => _ | None => _ end] =>
      destruct x end; reflexivity.
  - assert (Qeq_bool (Qabs (lm_x outer - lm_x inner)) 0 = true) as Hz.
    { apply Qeq_bool_iff. assert (lm_x outer - lm_x inner == 0) as -> by lra. reflexivity. }
    destruct H as [[-> ->] | [H1 H2]].
    + repeat match goal with |- context [match ?x with Some _ => _ | None => _ end] =>
        destruct x end; try reflexivity.
      rewrite Hz. reflexivity.
    + rewrite H1, H2.
      repeat match goal with |- context [match ?x with Some _ => _ | None => _ end] =>
        destruct x end; try reflexivity.
      rewrite Hz, orb_true_r. reflexivity.
Qed.

Lemma gaze_direction_defaults_to_center_witness :
  eval (detect_gaze_direction []) fresh_session = look_center.
Proof.
  apply gaze_direction_defaults_to_center. right. left. cbn. lia.
Defined.

Lemma list_max_spec l : forall x,
  In (list_max x l) (x :: l) /\ forall y, In y (x :: l) -> y <= list_max x l.
Proof.
  induction l as [|z l IH]; intros x; cbn [list_max].
  - split; [left; reflexivity|]. intros y [<- | []]. lra.
  - destruct (IH (if Qle_bool z x then x else z)) as [Hin Hge]. split.
    + destruct Hin as [E | Hin]; [|right; right; exact Hin].
      rewrite <- E. destruct (Qle_bool z x); [left | right; left]; reflexivity.
    + intros y Hy.
      assert (x <= list_max (if Qle_bool z x then x else z) l /\
              z <= list_max (if Qle_bool z x then x else z) l) as [Hx Hz].
      { pose proof (Hge _ (or_introl eq_refl)) as H0.
        destruct (Qle_bool z x) eqn:E.
        - apply Qle_bool_iff in E. split; lra.
        - apply Qle_bool_false in E. split; lra. }
      destruct Hy as [<- | [<- | Hy]]; [exact Hx | exact Hz |].
      apply Hge. right. exact Hy.
Qed.

Lemma list_min_spec l : forall x,
  In (list_min x l) (x :: l) /\ forall y, In y (x :: l) -> list_min x l <= y.
Proof.
  induction l as [|z l IH]; intros x; cbn [list_min].
  - split; [left; reflexivity|]. intros y [<- | []]. lra.
  - destruct (IH (if Qle_bool x z then x else z)) as [Hin Hle]. split.
    + destruct Hin as [E | Hin]; [|right; right; exact Hin].
      rewrite <- E. destruct (Qle_bool x z); [left | right; left]; reflexivity.
    + intros y Hy.
      assert (list_min (if Qle_bool x z then x else z) l <= x /\
              list_min (if Qle_bool x z then x else z) l <= z) as [Hx Hz].
      { pose proof (Hle _ (or_introl eq_refl)) as H0.
        destruct (Qle_bool x z) eqn:E.
        - apply Qle_bool_iff in E. split; lra.
        - apply Qle_bool_false in E. split; lra. }
      destruct Hy as [<- | [<- | Hy]]; [exact Hx | exact Hz |].
      apply Hle. right. exact Hy.
Qed.

(** X5. [check_proximity] answers [True] exactly when two landmarks of the
    face lie more than [PROXIMITY_THRESHOLD] apart in [y]; in particular
    never for an empty landmark list. *)
Theorem proximity_iff_two_landmarks_apart (ys : list Q) :
  check_proximity ys = true <->
  exists y1 y2, In y1 ys /\ In y2 ys /\ PROXIMITY_THRESHOLD < y2 - y1.
Proof.
  destruct ys as [|y rest]; cbn [check_proximity].
  - split; [discriminate | intros (? & ? & [] & _)].
  - destruct (list_max_spec rest y) as [Hmax_in Hmax].
    destruct (list_min_spec rest y) as [Hmin_in Hmin].
    rewrite negb_true_iff, Qle_bool_false. split.
    + intros H. exists (list_min y rest), (list_max y rest). auto.
    + intros (y1 & y2 & H1 & H2 & H).
      pose proof (Hmax _ H2). pose proof (Hmin _ H1). lra.
Qed.

Lemma expected_min_blinks_is_two (n : nat) :
  (BLINK_WINDOW / 60) * 8 <= inject_Z (Z.of_nat n) <-> (2 <= n)%nat.
Proof.
  unfold BLINK_WINDOW, Qle. cbn. lia.
Qed.

(** X6. [check_blink_rate] reports a low blink rate exactly when fewer than
    two of the remembered blinks fall in the last [BLINK_WINDOW] seconds. *)
Theorem low_blink_rate_iff_fewer_than_two (w : World) :
  eval check_blink_rate w = true <-> (List.length (recent_blinks w) < 2)%nat.
Proof.
  unfold eval, check_blink_rate, bind, time, self, ret, recent_blinks. cbn [fst]. fields.
  rewrite negb_true_iff, Qle_bool_false.
  split; intros H.
  - apply Nat.lt_nge. intros Hn. apply expected_min_blinks_is_two in Hn. lra.
  - apply Qnot_le_lt. intros Hn. apply expected_min_blinks_is_two in Hn. lia.
Qed.

(** * System health *)

Lemma dict_set_in key value d k v :
  In (k, v) (dict_set key value d) -> (k = key /\ v = value) \/ In (k, v) d.
Proof.
  induction d as [|[k' v'] d IH]; cbn [dict_set].
  - intros [E | []]. left. split; congruence.
  - destruct (String.eqb k' key) eqn:E.
    + apply String.eqb_eq in E. subst k'. intros [E' | H].
      * left. split; congruence.
      * right. right. exact H.
    + intros [E' | H]; [right; left; exact E'|].
      destruct (IH H) as [? | ?]; [left | right; right]; assumption.
Qed.

Lemma dict_get_set key value d : dict_get key (dict_set key value d) = Some value.
Proof.
  induction d as [|[k' v'] d IH]; cbn [dict_set dict_get].
  - rewrite String.eqb_refl. reflexivity.
  - destruct (String.eqb k' key) eqn:E; cbn [dict_get]; rewrite E; [reflexivity | exact IH].
Qed.

Lemma dict_get_set_other key key' value d :
  key <> key' -> dict_get key (dict_set key' value d) = dict_get key d.
Proof.
  intros Hne. induction d as [|[k' v'] d IH]; cbn [dict_set dict_get].
  - destruct (String.eqb key' key) eqn:E; [apply String.eqb_eq in E; congruence | reflexivity].
  - destruct (String.eqb k' key') eqn:E; cbn [dict_get].
    + apply String.eqb_eq in E. subst k'.
      destruct (String.eqb key' key) eqn:E'; [apply String.eqb_eq in E'; congruence | reflexivity].
    + destruct (String.eqb k' key); [reflexivity | exact IH].
Qed.

Section TempValues.
Variable bound : Q -> Prop.

Lemma temp_values_set key value d :
  contains "temp" key = false \/ (exists q, value = PyNum q /\ bound q) ->
  temp_values bound d -> temp_values bound (dict_set key value d).
Proof.
  intros Hk Hd k v Hin Ht. apply dict_set_in in Hin as [[-> ->] | Hin].
  - destruct Hk as [Hk | Hk]; [congruence | exact Hk].
  - exact (Hd k v Hin Ht).
Qed.

Lemma temp_values_battery battery d :
  temp_values bound d -> temp_values bound (battery_info battery d).
Proof.
  intros Hd. destruct battery as [b|]; [|exact Hd]. cbn [battery_info].
  repeat (apply temp_values_set; [left; reflexivity|]). exact Hd.
Qed.

Lemma temp_values_temperature temps : forall d,
  first_entries bound temps ->
  temp_values bound d -> temp_values bound (temperature_info temps d).
Proof.
  induction temps as [|[name entries] temps IH]; intros d Hall Hd; [exact Hd|].
  inversion Hall as [|? ? Hhd Htl]; subst. cbn [snd] in Hhd.
  cbn [temperature_info]. apply IH; [exact Htl|].
  destruct entries as [|current entries]; [exact Hd|].
  apply temp_values_set; [right; eauto | exact Hd].
Qed.

(** What [check_system_health] returns has numeric temperatures, unless
    the temperature table is empty. *)
Lemma temp_values_system_info sensors w :
  (forall temps, sensors_temperatures sensors = Returns temps ->
                 temps <> [] /\ first_entries bound temps) ->
  temp_values bound (eval (check_system_health sensors) w).
Proof.
  intros Hs. unfold eval, check_system_health, bind, self, ret. cbn [fst].
  assert (temp_values bound [("available", PyBool false)]) as H0.
  { intros k v [E | []] Ht. inversion E; subst. discriminate. }
  destruct (negb (psutil_available (hm w))); cbn [fst].
  { apply temp_values_set; [left; reflexivity | exact H0]. }
  destruct (sensors_battery sensors) as [battery | e]; cbn [fst];
    [|apply temp_values_set; [left; reflexivity | exact H0]].
  destruct (sensors_temperatures sensors) as [temps | e] eqn:Ht; cbn [fst];
    [|apply temp_values_set; [left; reflexivity | apply temp_values_battery; exact H0]].
  destruct (Hs temps eq_refl) as [Hne Hall].
  apply temp_values_set; [left; reflexivity|].
  destruct temps as [|sensor temps]; [congruence|].
  apply temp_values_temperature; [exact Hall | apply temp_values_battery; exact H0].
Qed.
End TempValues.

Lemma check_system_health_pure sensors w : snd (check_system_health sensors w) = w.
Proof.
  unfold check_system_health, bind, self, ret. cbn.
  destruct (negb (psutil_available (hm w))); [reflexivity|].
  destruct (sensors_battery sensors); [|reflexivity].
  destruct (sensors_temperatures sensors); reflexivity.
Qed.

(** With numeric temperatures the loop over [system_info] never raises. *)
Lemma temperature_alerts_return items : forall w,
  temp_values (fun _ => True) items ->
  fst (temperature_alerts items w) = Returns tt.
Proof.
  induction items as [|[key temp] items IH]; intros w Hd; [reflexivity|].
  assert (temp_values (fun _ => True) items) as Hd'.
  { intros k v Hin. apply Hd. right. exact Hin. }
  cbn [temperature_alerts]. destruct (contains "temp" key) eqn:Hk; [|apply IH; exact Hd'].
  destruct (Hd key temp (or_introl eq_refl) Hk) as (q & -> & _).
  destruct (negb (Qle_bool q 70)); [|apply IH; exact Hd'].
  unfold bind.
  destruct (should_notify "system_health" w) as [ok w1].
  destruct (when ok _ w1) as [[] w2]. apply IH. exact Hd'.
Qed.

(** With no temperature above 70 the loop changes nothing. *)
Lemma temperature_alerts_cool items : forall w,
  temp_values (fun q => q <= 70) items ->
  temperature_alerts items w = (Returns tt, w).
Proof.
  induction items as [|[key temp] items IH]; intros w Hd; [reflexivity|].
  assert (temp_values (fun q => q <= 70) items) as Hd'.
  { intros k v Hin. apply Hd. right. exact Hin. }
  cbn [temperature_alerts]. destruct (contains "temp" key) eqn:Hk; [|apply IH; exact Hd'].
  destruct (Hd key temp (or_introl eq_refl) Hk) as (q & -> & Hq).
  apply Qle_bool_iff in Hq. rewrite Hq. cbn [negb]. apply IH. exact Hd'.
Qed.

Lemma system_health_block_due sensors results w :
  health_check_due w ->
  eval (system_health_block sensors results) w =
  let w1 := w <| reads ::= S |> in
  let info := eval (check_system_health sensors) w1 in
  if match dict_get "available" info with Some v => py_truthy v | None => false end
  then match fst (temperature_alerts info w1) with
       | Returns _ => Returns (results <| system_info := Some info |>)
       | Raises e => Raises e
       end
  else Returns (results <| system_info := Some info |>).
Proof.
  intros [Hdue Ha]. apply Z.eqb_eq in Hdue.
  unfold eval, system_health_block, bind at 1 2, time, self. cbn [fst snd]. fields.
  rewrite Hdue, Ha. cbn [negb andb]. unfold bind at 1.
  pose proof (check_system_health_pure sensors (w <| reads ::= S |>)) as Hpure.
  destruct (check_system_health sensors (w <| reads ::= S |>)) as [info w1] eqn:E.
  cbn [snd] in Hpure. subst w1. cbv zeta. cbn [fst].
  destruct (match dict_get "available" info with Some v => py_truthy v | None => false end);
    [|reflexivity].
  unfold bind. destruct (temperature_alerts info (w <| reads ::= S |>)) as [[[]|e] w2];
    reflexivity.
Qed.

(** X7. When the decimated health check runs, [process_frame]'s last block
    raises exactly when [psutil] is present, both sensor calls return, and
    the temperature table is empty; the error is the [TypeError]. *)
Theorem health_check_raises_iff_no_temperatures
  (sensors : Sensors) (results : Results) (w : World) :
  health_check_due w ->
  ((exists e, eval (system_health_block sensors results) w = Raises e) <->
   (psutil_available (hm w) = true /\
    (exists battery, sensors_battery sensors = Returns battery) /\
    sensors_temperatures sensors = Returns [])) /\
  (forall e, eval (system_health_block sensors results) w = Raises e -> e = "TypeError").
Proof.
  intros Hdue.
  assert ((psutil_available (hm w) = true /\
           (exists battery, sensors_battery sensors = Returns battery) /\
           sensors_temperatures sensors = Returns []) \/
          (exists r, eval (system_health_block sensors results) w = Returns r /\
                     ~ (psutil_available (hm w) = true /\
                        (exists battery, sensors_battery sensors = Returns battery) /\
                        sensors_temperatures sensors = Returns []))) as [Hbad | (r & Hr & Hok)].
  { destruct (psutil_available (hm w)) eqn:Hp;
      [destruct (sensors_battery sensors) as [battery | e] eqn:Hb;
        [destruct (sensors_temperatures sensors) as [[|sensor temps] | e] eqn:Ht|]|].
    - left. eauto.
    - right. rewrite (system_health_block_due _ _ _ Hdue). cbv zeta.
      assert (eval (check_system_health sensors) (w <| reads ::= S |>) =
              dict_set "available" (PyBool true)
                (temperature_info (sensor :: temps)
                   (battery_info battery [("available", PyBool false)]))) as ->.
      { unfold eval, check_system_health, bind, self, ret. cbn [fst]. fields.
        rewrite Hp, Hb, Ht. reflexivity. }
      rewrite dict_get_set. cbn [py_truthy].
      rewrite temperature_alerts_return.
      + eexists. split; [reflexivity|]. intros (_ & _ & E). discriminate.
      + apply temp_values_set; [left; reflexivity|].
        apply temp_values_temperature;
          [apply Forall_forall; intros [? [|? ?]] _; exact I|].
        apply temp_values_battery.
        intros k v [E | []] Hk. inversion E; subst. discriminate.
    - right. rewrite (system_health_block_due _ _ _ Hdue). cbv zeta.
      assert (eval (check_system_health sensors) (w <| reads ::= S |>) =
              dict_set "error" (PyStr e)
                (battery_info battery [("available", PyBool false)])) as ->.
      { unfold eval, check_system_health, bind, self, ret. cbn [fst]. fields.
        rewrite Hp, Hb, Ht. reflexivity. }
      rewrite dict_get_set_other by discriminate.
      destruct battery as [b|]; cbn; (eexists; split; [reflexivity|]);
        intros (_ & _ & E); discriminate.
    - right. rewrite (system_health_block_due _ _ _ Hdue). cbv zeta.
      assert (eval (check_system_health sensors) (w <| reads ::= S |>) =
              dict_set "error" (PyStr e) [("available", PyBool false)]) as ->.
      { unfold eval, check_system_health, bind, self, ret. cbn [fst]. fields.
        rewrite Hp, Hb. reflexivity. }
      cbn. eexists. split; [reflexivity|]. intros (_ & [? E] & _). discriminate.
    - right. rewrite (system_health_block_due _ _ _ Hdue). cbv zeta.
      assert (eval (check_system_health sensors) (w <| reads ::= S |>) =
              dict_set "message" (PyStr "psutil not available")
                [("available", PyBool false)]) as ->.
      { unfold eval, check_system_health, bind, self, ret. cbn [fst]. fields.
        rewrite Hp. reflexivity. }
      cbn. eexists. split; [reflexivity|]. intros (E & _). discriminate. }
  - destruct Hbad as (Hp & [battery Hb] & Ht).
    assert (eval (system_health_block sensors results) w = Raises "TypeError") as E.
    { destruct sensors as [sb st]. cbn in Hb, Ht. subst sb st.
      destruct Hdue as [Hdue Ha]. apply no_temperature_sensors_raise; assumption. }
    rewrite E. split.
    + split; [intros _; eauto | intros _; eauto].
    + intros e He. congruence.
  - rewrite Hr. split.
    + split; [intros [e He]; discriminate | intros H; contradiction].
    + intros e He. discriminate.
Qed.

(** X8. As long as [psutil] lists at least one sensor and no sensor's first
    entry is above 70, the health block returns normally and changes
    nothing but the count of clock samples: no notification, no record. *)
Theorem cool_machine_is_silent
  (sensors : Sensors) (temps : list (string * list Q)) (results : Results) (w : World) :
  sensors_temperatures sensors = Returns temps ->
  temps <> [] ->
  first_entries (fun current => current <= 70) temps ->
  let outcome := system_health_block sensors results w in
  (exists r, fst outcome = Returns r) /\
  hm (snd outcome) = hm w /\
  notified (snd outcome) = notified w /\
  spoken (snd outcome) = spoken w.
Proof.
  intros Ht Hne Hcool outcome.
  assert (exists r, outcome = (Returns r, w <| reads ::= S |>)) as [r ->].
  { unfold outcome, system_health_block, bind at 1 2, time, self. fields.
    destruct ((py_int (clock w (reads w)) mod 10 =? 0)%Z && negb (eye_exercise_active (hm w)));
      [|eexists; reflexivity].
    unfold bind at 1.
    pose proof (check_system_health_pure sensors (w <| reads ::= S |>)) as Hpure.
    pose proof (temp_values_system_info (fun q => q <= 70) sensors (w <| reads ::= S |>)) as Hv.
    unfold eval in Hv.
    destruct (check_system_health sensors (w <| reads ::= S |>)) as [info w1].
    cbn [fst snd] in Hpure, Hv. subst w1. cbv zeta.
    destruct (match dict_get "available" info with Some v => py_truthy v | None => false end);
      [|eexists; reflexivity].
    unfold bind. rewrite temperature_alerts_cool; [eexists; reflexivity|].
    apply Hv. intros temps' E. rewrite Ht in E. inversion E; subst. auto. }
  cbn. eauto.
Qed.

Lemma health_check_raises_iff_no_temperatures_witness :
  exists e, eval (system_health_block (frame_sensors no_sensor_frame) no_results)
              fresh_session = Raises e.
Proof.
  destruct (health_check_raises_iff_no_temperatures
              (frame_sensors no_sensor_frame) no_results fresh_session) as [[_ H] _].
  - split; reflexivity.
  - apply H. split; [reflexivity|]. split; [exists None|]; reflexivity.
Defined.

Lemma cool_machine_is_silent_witness :
  notified (snd (system_health_block cool_sensors no_results fresh_session)) = [].
Proof.
  destruct (cool_machine_is_silent cool_sensors [("coretemp", [45])] no_results fresh_session)
    as (_ & _ & Hn & _).
  - reflexivity.
  - discriminate.
  - repeat constructor. cbn. lra.
  - exact Hn.
Defined.

(** An accepted request reaches the notifier and stores its fire instant,
    with or without a counter for its kind. *)
Lemma send_notification_fires title message kind w :
  cooldown_elapsed kind w = true ->
  let w' := snd (send_notification title message kind w) in
  notified w' = notified w ++ [ {| toast_title := title; toast_message := message;
                                   toast_delivered := delivers (backends w) |} ] /\
  last_notification (hm w') !! kind = Some (clock w (S (reads w))) /\
  clock w' = clock w /\ backends w' = backends w /\ spoken w' = spoken w.
Proof.
  intros Ha w'. destruct (alert_stats (hm w) !! kind) as [n|] eqn:Hn.
  - unfold w'. rewrite (send_notification_accepted _ _ _ n) by auto. cbn [snd]. fields.
    repeat split; try reflexivity. apply lookup_insert_eq.
  - destruct (notification_of_unknown_kind title message kind w Hn Ha) as (H1 & H2 & _).
    unfold exec in *. fold w' in H1, H2. repeat split; try assumption;
    unfold w', send_notification, should_notify, bind, time, self, ret, fast_notify, update;
    fields; fold (cooldown_elapsed kind w); rewrite Ha; cbn [negb andb]; fields;
    rewrite Hn; reflexivity.
Qed.

Section FrozenTemperatures.
Variable t : Q.




End FrozenTemperatures.



(** * Invariants of the frame loop and of the event loop *)

Lemma temperature_alerts_preserve (I : World -> Prop) :
  preserves I (should_notify "system_health") ->
  (forall q, preserves I (send_notification "🔥 System Running Hot"
                            (MsgHighTemperature q) "system_health")) ->
  forall items, preserves I (temperature_alerts items).
Proof.
  intros Hgate Hsend.
  induction items as [|[key temp] items IH]; cbn [temperature_alerts]; [apply pres_ret|].
  destruct (contains "temp" key); [|exact IH].
  destruct temp as [|b|q|s]; [apply pres_ret | exact IH | | apply pres_ret].
  destruct (negb (Qle_bool q 70)); [|exact IH].
  apply pres_bind; [exact Hgate | intros ok].
  apply pres_bind; [|intros _; exact IH].
  destruct ok; [apply Hsend | apply pres_ret].
Qed.

Ltac inv_leaf :=
  lazymatch goal with
  | |- preserves _ self => let H := fresh in intros ? H; exact H
  | |- preserves _ time => let H := fresh in intros ? H; exact H
  | |- preserves _ (update _) => let H := fresh in intros ? H; exact H
  | |- preserves _ (speak ?t) =>
      let w := fresh "w" in let H := fresh in let E := fresh in
      intros w H; destruct (speak_only_speaks t w) as [? E]; rewrite E; exact H
  end.

(** One step through a computation of the monitor; [special] closes the
    calls that need an argument of their own. *)
Ltac inv_step special :=
  cbv zeta;
  first
    [ special
    | lazymatch goal with
      | |- preserves _ (ret _) => apply pres_ret
      | |- preserves _ (bind _ _) => apply pres_bind; [|intros ?]
      | |- preserves _ (when _ _) => unfold when
      | |- preserves _ (if ?b then _ else _) => destruct b eqn:?
      | |- preserves _ (match ?x with _ => _ end) => destruct x eqn:?
      | |- preserves _ check_blink_rate => unfold check_blink_rate
      | |- preserves _ check_screen_time => unfold check_screen_time
      | |- preserves _ should_check_auto_mode => unfold should_check_auto_mode
      | |- preserves _ (should_notify _) => unfold should_notify
      | |- preserves _ (analyze_posture _) => unfold analyze_posture
      | |- preserves _ (check_system_health _) => unfold check_system_health
      | |- preserves _ auto_mode_check => unfold auto_mode_check
      | |- preserves _ (face_block _ _) => unfold face_block
      | |- preserves _ (pose_block _ _) => unfold pose_block
      | |- preserves _ (screen_time_block _) => unfold screen_time_block
      | |- preserves _ (system_health_block _ _) => unfold system_health_block
      | |- preserves _ (process_frame _) => unfold process_frame
      | |- preserves _ get_eye_exercise_status => unfold get_eye_exercise_status
      | |- preserves _ (set_auto_mode _) => unfold set_auto_mode
      | |- preserves _ (send_notification _ _ _) => unfold send_notification
      | |- preserves _ (fast_notify _ _) => let H := fresh in intros ? H; exact H
      | |- preserves _ start_eye_exercise => unfold start_eye_exercise
      | |- preserves _ (update_eye_exercise _) => unfold update_eye_exercise
      | |- preserves _ (temperature_alerts _) =>
          apply temperature_alerts_preserve; [|intros ?]
      | |- preserves _ (run_frames ?frames) =>
          induction frames; cbn [run_frames]
      | _ => inv_leaf
      end ].

Ltac inv_go special := repeat inv_step special.

Ltac head_of c :=
  lazymatch c with
  | ?f _ => head_of f
  | _ => c
  end.

(** The event loop keeps what the monitor's entry points keep. *)
Section EventLoop.
Variable I : World -> Prop.
Hypothesis I_frame : forall frame, preserves I (process_frame frame).
Hypothesis I_start : preserves I start_eye_exercise.
Hypothesis I_mode : forall enabled, preserves I (set_auto_mode enabled).
Hypothesis I_status : preserves I get_eye_exercise_status.
Hypothesis I_time : preserves I time.
Hypothesis I_check :
  forall v : HealthMonitor -> Q,
    preserves I (update (fun s => s <| auto_mode_last_check := v s |>)).

Lemma gpres_ret {A} (a : A) : gpreserves I (gret a).
Proof. intros app H. exact H. Qed.

Lemma gpres_bind {A B} (c : G A) (k : A -> G B) :
  gpreserves I c -> (forall a, gpreserves I (k a)) -> gpreserves I (gbind c k).
Proof.
  intros Hc Hk app H. unfold gbind. specialize (Hc app H).
  destruct (c app) as [a app']. apply Hk. exact Hc.
Qed.

Lemma gpres_monitor {A} (c : M A) : preserves I c -> gpreserves I (monitor c).
Proof.
  intros Hc app H. unfold monitor. specialize (Hc (world app) H).
  destruct (c (world app)) as [a w]. exact Hc.
Qed.

Lemma gpres_window : gpreserves I window.
Proof. intros app H. exact H. Qed.

Lemma gpres_set_gui f : gpreserves I (set_gui f).
Proof. intros app H. exact H. Qed.

Lemma gpres_self : gpreserves I (monitor self).
Proof. intros app H. exact H. Qed.

Ltac gpres_step :=
  lazymatch goal with
  | |- gpreserves _ (gret _) => apply gpres_ret
  | |- gpreserves _ (gbind _ _) => apply gpres_bind; [|intros ?]
  | |- gpreserves _ window => apply gpres_window
  | |- gpreserves _ (set_gui _) => apply gpres_set_gui
  | |- gpreserves _ (single_shot _ _) => apply gpres_set_gui
  | |- gpreserves _ (monitor self) => apply gpres_self
  | |- gpreserves _ (monitor time) => apply gpres_monitor, I_time
  | |- gpreserves _ (monitor start_eye_exercise) => apply gpres_monitor, I_start
  | |- gpreserves _ (monitor (set_auto_mode _)) => apply gpres_monitor, I_mode
  | |- gpreserves _ (monitor get_eye_exercise_status) => apply gpres_monitor, I_status
  | |- gpreserves _ (monitor (process_frame _)) => apply gpres_monitor, I_frame
  | |- gpreserves _ (monitor (update (fun s => s <| auto_mode_last_check := @?v s |>))) =>
      apply gpres_monitor, (I_check v)
  | |- gpreserves _ (if ?b then _ else _) => destruct b
  | |- gpreserves _ (match ?x with _ => _ end) => destruct x
  | |- gpreserves _ ?c => let h := head_of c in unfold h
  end.

Lemma gpres_deliver e : gpreserves I (deliver e).
Proof. repeat gpres_step. Qed.

Lemma gpres_main (auto : bool) host :
  I (HealthMonitor_init false host) ->
  I (world (if auto then main_auto_mode host else main_manual host)).
Proof.
  intros H. destruct auto; [|exact H].
  unfold main_auto_mode.
  assert (gpreserves I (gbind (monitor (set_auto_mode true))
                          (fun _ : unit => start_camera_auto_mode))) as Hp
    by repeat gpres_step.
  apply Hp. exact H.
Qed.

Lemma gpres_act a : gpreserves I (act a).
Proof. destruct a; [apply gpres_deliver | repeat gpres_step | repeat gpres_step]. Qed.

Lemma gpres_act_all actions : forall app,
  I (world app) -> I (world (act_all actions app)).
Proof.
  induction actions as [|a actions IH]; intros app H; [exact H|].
  cbn [act_all]. apply IH, gpres_act, H.
Qed.
End EventLoop.

(** * The ledgers grow together *)

Lemma total_alerts_bump (stats : gmap string nat) kind n :
  stats !! kind = Some n ->
  map_fold (fun _ count acc => (count + acc)%nat) 0%nat (<[kind := S n]> stats) =
  S (map_fold (fun _ count acc => (count + acc)%nat) 0%nat stats).
Proof.
  intros Hn.
  rewrite (map_fold_delete_L _ _ kind n stats); [|intros; lia | exact Hn].
  rewrite <- insert_delete_eq.
  rewrite map_fold_insert_L; [lia | intros; lia | apply lookup_delete_eq].
Qed.

Lemma tally_app kind l a :
  tally kind (l ++ [a]) =
  (tally kind l + if String.eqb (alert_type a) kind then 1 else 0)%nat.
Proof.
  unfold tally. rewrite List.filter_app, length_app. cbn [List.filter].
  destruct (String.eqb (alert_type a) kind); reflexivity.
Qed.

Section Ledger.
Variable w0 : World.

Lemma ledger_send_notification title message kind :
  In kind alert_kinds ->
  preserves (ledger_since w0) (send_notification title message kind).
Proof.
  intros Hkind w (Hc & sent & logged & Hn & Hl & Ht & Htot & Hk).
  destruct (Hc kind Hkind) as [n Hs].
  destruct (cooldown_elapsed kind w) eqn:Ha;
    [|destruct (String.eqb_spec kind "eye_exercise") as [He | He]].
  1, 2: rewrite (send_notification_accepted title message kind n) by auto.
  3: rewrite send_notification_gated by auto.
  3: { split; [exact Hc|]. exists sent, logged. auto. }
  all: cbn [snd]; split.
  1, 3: intros k Hin; fields; destruct (decide (k = kind)) as [-> | Hne];
    [rewrite lookup_insert_eq; eauto | rewrite lookup_insert_ne by auto; apply Hc, Hin].
  all: eexists (sent ++ [_]), (logged ++ [_]); unfold alert_log, total_alerts, counter in *;
    fields; rewrite Hn, Hl, <- !app_assoc, !map_app, Ht, length_app.
  all: split; [reflexivity|]; split; [reflexivity|]; split; [reflexivity|].
  all: split; [rewrite (total_alerts_bump _ _ _ Hs), Htot; cbn; lia|].
  all: intros k; rewrite tally_app; cbn [alert_type];
    destruct (String.eqb_spec kind k) as [<- | Hne];
    [rewrite lookup_insert_eq; specialize (Hk kind); rewrite Hs in Hk; cbn in *; lia
    |rewrite lookup_insert_ne by auto; rewrite Hk; lia].
Qed.

Ltac ledger_special :=
  idtac;
  lazymatch goal with
  | |- preserves _ (send_notification _ _ _) =>
      apply ledger_send_notification; cbn; tauto
  end.

Lemma ledger_start_eye_exercise : preserves (ledger_since w0) start_eye_exercise.
Proof. unfold start_eye_exercise. inv_go ledger_special. Qed.

Lemma ledger_update_eye_exercise detection :
  preserves (ledger_since w0) (update_eye_exercise detection).
Proof. unfold update_eye_exercise. inv_go ledger_special. Qed.

Lemma ledger_temperature_alerts items :
  preserves (ledger_since w0) (temperature_alerts items).
Proof.
  induction items as [|[key temp] items IH]; cbn [temperature_alerts];
    inv_go ledger_special; exact IH.
Qed.

Ltac ledger_calls :=
  idtac;
  first
    [ ledger_special
    | lazymatch goal with
      | |- preserves _ start_eye_exercise => apply ledger_start_eye_exercise
      | |- preserves _ (update_eye_exercise _) => apply ledger_update_eye_exercise
      | |- preserves _ (temperature_alerts _) => apply ledger_temperature_alerts
      end ].

Lemma ledger_process_frame frame : preserves (ledger_since w0) (process_frame frame).
Proof. inv_go ledger_calls. Qed.

Lemma ledger_act_all actions app :
  ledger_since w0 (world app) -> ledger_since w0 (world (act_all actions app)).
Proof.
  apply gpres_act_all.
  - apply ledger_process_frame.
  - apply ledger_start_eye_exercise.
  - intros enabled. inv_go ledger_calls.
  - inv_go ledger_calls.
  - inv_go ledger_calls.
  - intros v. inv_go ledger_calls.
Qed.
End Ledger.

Lemma ledger_since_refl w : counted (hm w) -> ledger_since w w.
Proof.
  intros Hc. split; [exact Hc|]. exists [], [].
  rewrite !app_nil_r. cbn. repeat split; intros; lia.
Qed.

(** X10. Whatever reaches the running window (timers, clicks, frames), the
    notifier log, the alert ledger of the session and the counters move
    together when the six counters of the constructor exist: both logs only
    grow at their end, the new records carry the titles and messages of the
    new toasts in the same order, the sum of the counters grows by the
    number of new toasts, and each counter by the number of new records of
    its kind. *)
Theorem session_log_mirrors_notifier (actions : list Action) (app : App) :
  counted (hm (world app)) ->
  let w := world app in
  let w' := world (act_all actions app) in
  exists sent logged,
    notified w' = notified w ++ sent /\
    alert_log w' = alert_log w ++ logged /\
    List.map toast_text sent = List.map alert_text logged /\
    total_alerts (hm w') = (total_alerts (hm w) + List.length sent)%nat /\
    forall kind, counter kind (hm w') = (counter kind (hm w) + tally kind logged)%nat.
Proof.
  intros Hc w w'.
  destruct (ledger_act_all (world app) actions app (ledger_since_refl _ Hc))
    as (_ & sent & logged & Hn & Hl & Ht & Htot & Hk).
  exists sent, logged. repeat split; try assumption.
  fold w' in Htot. fold w in Htot. rewrite Htot.
  rewrite <- (length_map toast_text sent), Ht, length_map. reflexivity.
Qed.

Lemma initial_counted auto host : counted (hm (HealthMonitor_init auto host)).
Proof.
  intros kind Hin. cbn in Hin.
  destruct Hin as [<- | [<- | [<- | [<- | [<- | [<- | []]]]]]]; eexists; reflexivity.
Qed.

Lemma session_log_mirrors_notifier_witness :
  exists sent logged,
    notified (world (act_all [event eye_exercise_button_clicked] exercising_app)) =
    notified (world exercising_app) ++ sent /\
    alert_log (world (act_all [event eye_exercise_button_clicked] exercising_app)) =
    alert_log (world exercising_app) ++ logged /\
    List.map toast_text sent = List.map alert_text logged.
Proof.
  destruct (session_log_mirrors_notifier [event eye_exercise_button_clicked] exercising_app)
    as (sent & logged & Hn & Hl & Ht & _).
  - intros kind Hin. cbn in Hin.
    destruct Hin as [<- | [<- | [<- | [<- | [<- | [<- | []]]]]]]; eexists; reflexivity.
  - exists sent, logged. auto.
Defined.

(** X11. From program start, with or without [--auto-mode], and after
    any actions: the number that [update_status] shows as "Alerts:", the sum
    of [alert_stats], is the number of calls the notifier received, and the
    alert ledger has one record per call. *)
Theorem alerts_shown_count_notifier_calls
  (auto : bool) (host : Host) (actions : list Action) :
  let start := if auto then main_auto_mode host else main_manual host in
  let w := world (act_all actions start) in
  total_alerts (hm w) = List.length (notified w) /\
  List.length (alert_log w) = List.length (notified w).
Proof.
  intros start w.
  assert (counted (hm (world start)) /\ notified (world start) = [] /\
          alert_log (world start) = [] /\ total_alerts (hm (world start)) = 0%nat)
    as (Hc & Hn0 & Hl0 & Ht0).
  { apply (gpres_main (fun w => counted (hm w) /\ notified w = [] /\
                                alert_log w = [] /\ total_alerts (hm w) = 0%nat)).
    - intros enabled w0 H0. exact H0.
    - intros w0 H0. exact H0.
    - intros v w0 H0. exact H0.
    - split; [apply initial_counted|]. repeat split; reflexivity. }
  destruct (session_log_mirrors_notifier actions start Hc)
    as (sent & logged & Hn & Hl & Ht & Htot & _).
  fold w in Hn, Hl, Htot. rewrite Hn, Hl, Htot, Hn0, Hl0, Ht0. cbn [app].
  rewrite <- (length_map alert_text logged), <- Ht, length_map. split; reflexivity.
Qed.

(** * The exercise flags *)

Section Sane.
Ltac sane_update :=
  let w := fresh "w" in let H := fresh "H" in
  intros w H; destruct H as (? & ? & ?); unfold update; cbn [snd]; red; fields;
  repeat split; try assumption; try discriminate; try apply Q.le_max_l; try lra.

Lemma sane_start_eye_exercise : preserves sane start_eye_exercise.
Proof.
  intros w _. destruct (start_eye_exercise_result w) as (r & ln & st & al & sp & ->).
  cbn [snd]. red. fields. repeat split; lra.
Qed.

Ltac sane_calls :=
  idtac;
  lazymatch goal with
  | |- preserves _ start_eye_exercise => apply sane_start_eye_exercise
  | |- preserves _ (update _) => sane_update
  end.

Lemma sane_update_eye_exercise detection :
  preserves sane (update_eye_exercise detection).
Proof. unfold update_eye_exercise. inv_go sane_calls. Qed.

Lemma sane_temperature_alerts items : preserves sane (temperature_alerts items).
Proof.
  induction items as [|[key temp] items IH]; cbn [temperature_alerts];
    inv_go sane_calls; exact IH.
Qed.

Ltac sane_frame :=
  idtac;
  first
    [ sane_calls
    | lazymatch goal with
      | |- preserves _ (update_eye_exercise _) => apply sane_update_eye_exercise
      | |- preserves _ (temperature_alerts _) => apply sane_temperature_alerts
      end ].

Lemma sane_process_frame frame : preserves sane (process_frame frame).
Proof. inv_go sane_frame. Qed.

Lemma sane_act_all actions app :
  sane (world app) -> sane (world (act_all actions app)).
Proof.
  apply gpres_act_all.
  - apply sane_process_frame.
  - apply sane_start_eye_exercise.
  - intros enabled. inv_go sane_frame.
  - inv_go sane_frame.
  - inv_go sane_frame.
  - intros v. inv_go sane_frame.
Qed.
End Sane.



(** * The window *)

(** Run a slot of the window on an open [App]; calls into the monitor
    stay folded. *)
Ltac gui_norm :=
  cbv beta iota zeta delta
    [act toggle_camera save_session_data
     deliver run_callback check_background_operation update_status
     try_background_after_start wake_up_for_check perform_wake_check_and_exercise
     complete_exercise_cycle on_start_eye_exercise show_normal toggle_mode
     switch_to_background_mode schedule_next_check has_active_alerts check_user_distance
     start_camera stop_camera start_camera_auto_mode
     gbind gret window set_gui single_shot monitor
     self time ret update set_auto_mode
     set const fst snd gui world armed
     video_thread is_camera_active auto_mode_active background_mode window_shown
     eye_exercise_button_enabled single_shots
     negb andb orb];
  fields.

Ltac gui_split :=
  match goal with
  | |- context [match ?c ?w with (_, _) => _ end] =>
      lazymatch c with
      | context [match _ with _ => _ end] => fail
      | _ => let a := fresh "a" in let w' := fresh "w" in destruct (c w) as [a w'] eqn:?
      end
  | |- context [if ?b then _ else _] =>
      lazymatch b with
      | context [if _ then _ else _] => fail
      | context [match _ with _ => _ end] => fail
      | _ => destruct b eqn:?
      end
  | |- context [match ?x with Some _ => _ | None => _ end] =>
      lazymatch x with
      | context [if _ then _ else _] => fail
      | context [match _ with _ => _ end] => fail
      | _ => destruct x eqn:?
      end
  | |- context [match ?x with Returns _ => _ | Raises _ => _ end] =>
      lazymatch x with
      | context [match _ with _ => _ end] => fail
      | _ => destruct x eqn:?
      end
  end.

Ltac gui_run := gui_norm; repeat (gui_split; gui_norm).

Lemma disarm_sublist slot : forall l rest,
  disarm slot l = Some rest ->
  forall c, In c (List.map snd rest) -> In c (List.map snd l).
Proof.
  induction l as [|[msec c'] l IH]; intros rest E c Hin; [discriminate|].
  cbn [disarm] in E. destruct (Callback_eqb c' slot).
  - inversion E; subst. right. exact Hin.
  - destruct (disarm slot l) as [rest'|] eqn:E'; [|discriminate].
    inversion E; subst. destruct Hin as [<- | Hin]; [left; reflexivity|].
    right. apply (IH rest' eq_refl), Hin.
Qed.

Lemma auto_complete_not_armed_step e app :
  sane (world app) ->
  ~ In complete_exercise_cycle_cb (armed app) ->
  ~ In complete_exercise_cycle_cb (armed (snd (deliver e app))).
Proof.
  intros (Hd & _) H. destruct app as [[vt cam am bg shown btn shots] w].
  unfold armed in *. cbn [gui world single_shots] in *.
  destruct e as [| |slot| | | |frame].
  - gui_run; try exact H.
    all: rewrite map_app, in_app_iff; cbn; intros [? | [? | []]]; [tauto | discriminate].
  - unfold deliver, update_status, get_eye_exercise_status, bind. gui_norm.
    destruct (eye_exercise_active (hm w)); gui_norm; [|exact H].
    rewrite Hd by reflexivity. gui_norm. exact H.
  - assert (forall rest, disarm slot shots = Some rest ->
                         ~ In complete_exercise_cycle_cb (List.map snd rest)) as Hrest.
    { intros rest E Hin. apply H, (disarm_sublist slot shots rest E), Hin. }
    unfold deliver. gui_norm. destruct (disarm slot shots) as [rest|]; [|exact H].
    specialize (Hrest rest eq_refl). destruct slot; gui_run; try exact Hrest.
    all: rewrite map_app, in_app_iff; cbn; intros [? | [? | []]]; [tauto | discriminate].
  - gui_run; exact H.
  - gui_run; exact H.
  - gui_run; exact H.
  - gui_run; exact H.
Qed.

Lemma initial_sane auto host : sane (HealthMonitor_init auto host).
Proof. split; [discriminate|]. split; cbn; lra. Qed.

(** X13. From program start, with or without [--auto-mode], and after
    any actions, each run to its end before the next: the single-shot timer for
    [complete_exercise_cycle] is never armed.  [update_status] arms it only
    when the status dictionary reports [exercise_done], and the status is
    [None] as soon as the exercise is done, so the return to the background
    after an exercise never starts from there. *)
Theorem auto_complete_never_armed (auto : bool) (host : Host) (actions : list Action) :
  let start := if auto then main_auto_mode host else main_manual host in
  ~ In complete_exercise_cycle_cb (armed (act_all actions start)).
Proof.
  intros start.
  assert (sane (world start)) as Hs.
  { apply (gpres_main sane).
    - intros enabled w H. exact H.
    - intros w H. exact H.
    - intros v w H. exact H.
    - apply initial_sane. }
  assert (~ In complete_exercise_cycle_cb (armed start)) as Ha.
  { unfold start. destruct auto.
    - unfold main_auto_mode, SafeWarnerGUI_init, set_auto_mode, update. gui_run;
        cbn; intros [? | []]; discriminate.
    - cbn. tauto. }
  clearbody start. revert start Hs Ha.
  induction actions as [|a actions IH]; intros app Hs Ha; [exact Ha|].
  cbn [act_all]. apply IH.
  - apply (sane_act_all [a] app Hs).
  - destruct a as [e| |]; [apply auto_complete_not_armed_step; assumption| |];
      destruct app as [[vt cam am bg shown btn shots] w]; unfold armed in *;
      cbn [gui world single_shots] in *; gui_run; exact Ha.
Qed.

Section Mode.
Variables (b : bool) (s : string).

Lemma mode_start_eye_exercise : preserves (mode_is b s) start_eye_exercise.
Proof. unfold start_eye_exercise. inv_go fail. Qed.

Lemma mode_update_eye_exercise detection :
  preserves (mode_is b s) (update_eye_exercise detection).
Proof. unfold update_eye_exercise. inv_go fail. Qed.

Lemma mode_temperature_alerts items : preserves (mode_is b s) (temperature_alerts items).
Proof.
  induction items as [|[key temp] items IH]; cbn [temperature_alerts];
    inv_go fail; exact IH.
Qed.

Ltac mode_calls :=
  idtac;
  lazymatch goal with
  | |- preserves _ start_eye_exercise => apply mode_start_eye_exercise
  | |- preserves _ (update_eye_exercise _) => apply mode_update_eye_exercise
  | |- preserves _ (temperature_alerts _) => apply mode_temperature_alerts
  end.

Lemma mode_process_frame frame : preserves (mode_is b s) (process_frame frame).
Proof. inv_go mode_calls. Qed.
End Mode.

Ltac mode_kept :=
  repeat match goal with
         | E : start_eye_exercise ?w1 = (_, ?w2) |- _ =>
             let H := fresh in
             pose proof (mode_start_eye_exercise (auto_mode (hm w1)) (mode (session_data (hm w1)))
                           w1 (conj eq_refl eq_refl)) as H;
             rewrite E in H; destruct H; clear E
         | E : process_frame ?frame ?w1 = (_, ?w2) |- _ =>
             let H := fresh in
             pose proof (mode_process_frame (auto_mode (hm w1)) (mode (session_data (hm w1)))
                           frame w1 (conj eq_refl eq_refl)) as H;
             rewrite E in H; destruct H; clear E
         end;
  cbn [snd] in *;
  repeat match goal with
         | H : auto_mode _ = auto_mode _ |- _ => progress fields_in H
         | H : mode _ = mode _ |- _ => progress fields_in H
         end.

Ltac mode_close w :=
  mode_kept; try (destruct (auto_mode (hm w)) eqn:?);
  solve [auto | split; congruence | split; reflexivity].

Lemma modes_agree_step e app : modes_agree app -> modes_agree (snd (deliver e app)).
Proof.
  destruct app as [[vt cam am bg shown btn shots] w]. unfold modes_agree.
  cbn [gui world auto_mode_active]. intros [Ha Hm].
  destruct e as [| |slot| | | |frame].
  - gui_run; mode_close w.
  - unfold deliver, update_status, get_eye_exercise_status, bind. gui_run; mode_close w.
  - unfold deliver. gui_norm. destruct (disarm slot shots) as [rest|]; [|auto].
    destruct slot; gui_run; mode_close w.
  - gui_run; mode_close w.
  - unfold deliver, toggle_mode. gui_run; mode_close w.
  - gui_run; mode_close w.
  - gui_run; mode_close w.
Qed.

(** X14. From program start, with or without [--auto-mode], and after
    any actions: the window's [auto_mode_active], the monitor's [auto_mode]
    and the ['mode'] entry of the session ledger name the same mode. *)
Theorem window_and_monitor_agree_on_mode
  (auto : bool) (host : Host) (actions : list Action) :
  let start := if auto then main_auto_mode host else main_manual host in
  modes_agree (act_all actions start).
Proof.
  intros start.
  assert (modes_agree start) as H.
  { unfold start. destruct auto.
    - unfold main_auto_mode, SafeWarnerGUI_init, set_auto_mode, update, modes_agree.
      gui_run; fields; cbn [world gui auto_mode_active set]; fields; split; reflexivity.
    - split; reflexivity. }
  clearbody start. revert start H.
  induction actions as [|a actions IH]; intros app H; [exact H|].
  cbn [act_all]. apply IH.
  destruct a as [e| |]; [apply modes_agree_step, H| |];
    destruct app as [[vt cam am bg shown btn shots] w]; unfold modes_agree in *;
    cbn [gui world auto_mode_active] in *; destruct H as [Ha Hm]; gui_run; mode_close w.
Qed.

Lemma inert_step e app : inert app -> inert (snd (deliver e app)).
Proof.
  destruct app as [[vt cam am bg shown btn shots] w]. unfold inert, armed.
  cbn [gui world video_thread is_camera_active eye_exercise_button_enabled
       background_mode single_shots].
  intros (Hmp & -> & -> & -> & -> & Hshots & Hn & Hs & Hx).
  destruct e as [| |slot| | | |frame].
  - gui_run; auto 10.
  - unfold deliver, update_status, get_eye_exercise_status, bind. gui_norm.
    rewrite Hx. gui_run. auto 10.
  - unfold deliver. gui_norm. destruct (disarm slot shots) as [rest|] eqn:E; [|auto 10].
    assert (In slot (List.map snd shots)) as Hin.
    { clear -E. revert rest E. induction shots as [|[msec c] l IH]; intros rest E;
        [discriminate|]. cbn [disarm] in E.
      destruct (Callback_eqb c slot) eqn:Hc.
      - left. destruct c, slot; try discriminate; reflexivity.
      - destruct (disarm slot l) as [rest'|]; [|discriminate]. right. eapply IH. reflexivity. }
    assert (forall c, In c (List.map snd rest) -> c = try_background_after_start_cb) as Hrest.
    { intros c Hc. apply Hshots, (disarm_sublist _ _ _ E), Hc. }
    rewrite (Hshots slot Hin). gui_run; repeat split; auto; exact Hrest.
  - gui_run; auto 10.
  - unfold deliver, toggle_mode. gui_run; rewrite ?Hmp; gui_run; auto 10.
  - gui_run; auto 10.
  - gui_run; auto 10.
Qed.

(** X15. On a host without MediaPipe, from program start (with or
    without [--auto-mode]) and after any actions: the camera and the video
    thread never run, the exercise button stays disabled, background mode is
    never entered, no exercise starts, and nothing is notified or spoken. *)
Theorem without_mediapipe_nothing_happens
  (auto : bool) (host : Host) (actions : list Action) :
  has_mediapipe host = false ->
  let app := act_all actions (if auto then main_auto_mode host else main_manual host) in
  is_camera_active (gui app) = false /\
  video_thread (gui app) = false /\
  eye_exercise_button_enabled (gui app) = false /\
  background_mode (gui app) = false /\
  eye_exercise_active (hm (world app)) = false /\
  notified (world app) = [] /\
  spoken (world app) = [].
Proof.
  intros Hmp.
  assert (inert (if auto then main_auto_mode host else main_manual host)) as H.
  { assert (exists w0, HealthMonitor_init false host = w0 /\
                       mediapipe_available (hm w0) = false /\ notified w0 = [] /\
                       spoken w0 = [] /\ eye_exercise_active (hm w0) = false)
      as (w0 & E & Hm0 & Hn0 & Hs0 & Hx0).
    { eexists. split; [reflexivity|]. repeat split; auto. }
    destruct auto.
    - unfold main_auto_mode, SafeWarnerGUI_init, inert. rewrite E. gui_run; try congruence.
      repeat split; auto. intros slot [<- | []]. reflexivity.
    - unfold main_manual, SafeWarnerGUI_init, inert. rewrite E. gui_run.
      repeat split; auto. intros slot []. }
  cbv zeta. revert H. generalize (if auto then main_auto_mode host else main_manual host).
  induction actions as [|a actions IH]; intros app H.
  - destruct H as (_ & ? & ? & ? & ? & _ & ? & ? & ?). cbn [act_all]. auto 10.
  - cbn [act_all]. apply IH.
    destruct a as [e| |]; [apply inert_step, H| |];
      destruct app as [[vt cam am bg shown btn shots] w]; unfold inert, armed in *;
      cbn [gui world video_thread is_camera_active eye_exercise_button_enabled
           background_mode single_shots] in *;
      destruct H as (Hw & -> & -> & -> & -> & Hshots & Hn & Hs & Hx);
      gui_run; rewrite ?Hw in *; try discriminate; auto 10.
Qed.

Lemma without_mediapipe_nothing_happens_witness :
  notified (world (act_all
                     [event (single_shot_timeout try_background_after_start_cb);
                      camera_button_clicked; event eye_exercise_button_clicked;
                      event mode_toggle_clicked]
                     (main_auto_mode
                        {| host_clock := fun n => 1000 + inject_Z (Z.of_nat n);
                           host_backends := no_backend;
                           has_psutil := true;
                           has_mediapipe := false |}))) = [].
Proof.
  destruct (without_mediapipe_nothing_happens true
              {| host_clock := fun n => 1000 + inject_Z (Z.of_nat n);
                 host_backends := no_backend;
                 has_psutil := true;
                 has_mediapipe := false |}
              [event (single_shot_timeout try_background_after_start_cb);
               camera_button_clicked; event eye_exercise_button_clicked;
               event mode_toggle_clicked])
    as (_ & _ & _ & _ & _ & Hn & _).
  - reflexivity.
  - exact Hn.
Defined.

(** * The exercise against the clock *)

Lemma remaining_facts q e :
  0 <= q -> q <= 15 -> 0 <= e ->
  0 <= Qmax 0 (q - e) /\ Qmax 0 (q - e) <= 15 /\ q - e <= Qmax 0 (q - e) /\
  (Qle_bool (Qmax 0 (q - e)) 0 = true -> q <= e).
Proof.
  intros H0 H15 He.
  split; [apply Q.le_max_l|]. split; [apply Q.max_lub; lra|].
  split; [apply Q.le_max_r|].
  intros H. apply Qle_bool_iff in H. pose proof (Q.le_max_r 0 (q - e)). lra.
Qed.

Lemma on_schedule_tick log0 now t g w :
  now <= t ->
  on_schedule log0 now (hm w) ->
  on_schedule log0 t (hm (tick (t, g) w)).
Proof.
  intros Ht ((Hp0 & Hp15) & (Hl0 & Hl15) & new & Hlog & Hlen & Hall & Hrun).
  destruct (eye_exercise_active (hm w)) eqn:Ha; cycle 1.
  { rewrite tick_idle_hm by auto. repeat split; try assumption.
    exists new. repeat split; try assumption; rewrite Ha in *; discriminate. }
  destruct (exercise_done (hm w)) eqn:Hd.
  { rewrite tick_idle_hm by auto. repeat split; try assumption.
    exists new. repeat split; try assumption; rewrite Hd in *; discriminate. }
  destruct (Hrun eq_refl eq_refl) as [-> Hs]. cbv zeta in Hs. clear Hrun.
  rewrite app_nil_r in Hlog.
  destruct (looking_at (current_phase (hm w)) g) eqn:Hlook; cycle 1.
  { destruct (countdown_active (hm w)) eqn:Hc.
    - destruct (tick_pause_hm t g w Ha Hd Hlook Hc) as (ln & st & al & ->).
      unfold on_schedule. fields. repeat split; try assumption.
      exists []. rewrite app_nil_r. repeat split; auto. cbv zeta. lra.
    - rewrite tick_waiting_hm by assumption. repeat split; try assumption.
      exists []. rewrite app_nil_r. repeat split; auto. cbv zeta. rewrite Hc. lra. }
  set (origin := if countdown_active (hm w) then phase_start_time (hm w) else t).
  assert (0 <= t - origin /\
          phase_budget (current_phase (hm w)) - paused_time_left (hm w) <=
            origin - eye_exercise_start_time (hm w)) as [He Hb].
  { unfold origin. destruct (countdown_active (hm w)); lra. }
  destruct (remaining_facts (paused_time_left (hm w)) (t - origin) Hp0 Hp15 He)
    as (Hr0 & Hr15 & Hrq & Hover).
  destruct (Qle_bool (Qmax 0 (paused_time_left (hm w) - (t - origin))) 0) eqn:Hr.
  - specialize (Hover eq_refl).
    destruct (current_phase (hm w)) eqn:Hph, g; try discriminate.
    + destruct (tick_right_done_hm t look_right w Ha Hd Hph eq_refl Hr) as (ln & st & al & ->).
      unfold on_schedule. fields. repeat split; try lra.
      exists []. rewrite app_nil_r. repeat split; auto. cbn [phase_budget] in *. lra.
    + destruct (tick_left_done_hm t look_left w Ha Hd Hph eq_refl Hr)
        as (ln & st & al & check & ->).
      unfold on_schedule. fields. repeat split; try assumption.
      eexists [_]. rewrite Hlog. split; [reflexivity|]. split; [cbn; lia|].
      split; [|discriminate].
      repeat constructor. cbn [duration phase_budget] in *. lra.
  - rewrite (tick_counting_hm t g w Ha Hd Hlook Hr). fold origin.
    unfold on_schedule. fields. repeat split; try assumption.
    exists []. rewrite app_nil_r. repeat split; auto; unfold origin in *;
      destruct (countdown_active (hm w)); lra.
Qed.

Lemma on_schedule_ticks log0 ticks : forall now w,
  nondecreasing (now :: List.map fst ticks) ->
  on_schedule log0 now (hm w) ->
  on_schedule log0 (List.last (List.map fst ticks) now) (hm (run_ticks ticks w)).
Proof.
  induction ticks as [|[t g] ticks IH]; intros now w Hnd H; [exact H|].
  cbn [run_ticks fold_left]. fold (run_ticks ticks (tick (t, g) w)).
  cbn [List.map fst] in *. destruct Hnd as [Hle Hnd].
  replace (List.last (t :: List.map fst ticks) now) with (List.last (List.map fst ticks) t)
    by (clear; generalize (List.map fst ticks); induction l as [|? [|? ?] IH]; cbn in *; auto).
  apply IH; [exact Hnd|]. apply (on_schedule_tick log0 now); assumption.
Qed.

Lemma started_on_schedule t0 w0 :
  on_schedule (exercise_log w0) t0 (hm (start_at t0 w0)).
Proof.
  destruct (start_eye_exercise_result (at_time t0 w0)) as (r & ln & st & al & sp & E).
  unfold start_at, exec. rewrite E. cbn [snd]. unfold on_schedule. fields.
  repeat split; try lra. exists []. rewrite app_nil_r. repeat split; auto.
  unfold at_time. fields. cbn [phase_budget]. lra.
Qed.

(** X16. An exercise started at [t0] and driven by ticks at simulated
    instants that never go backwards, whatever the gaze seen at each tick:
    the exercise ledger gains at most one record, and that record is a
    success of at least 30 seconds.  No pattern of glances completes the
    exercise early. *)
Theorem no_exercise_shorter_than_both_holds
  (w0 : World) (t0 : Q) (ticks : list (Q * Gaze)) :
  nondecreasing (t0 :: List.map fst ticks) ->
  exists new,
    exercise_log (run_ticks ticks (start_at t0 w0)) = exercise_log w0 ++ new /\
    (List.length new <= 1)%nat /\
    Forall (fun r => 30 <= duration r /\ success r = true) new.
Proof.
  intros Hnd.
  destruct (on_schedule_ticks (exercise_log w0) ticks t0 (start_at t0 w0) Hnd
              (started_on_schedule t0 w0))
    as (_ & _ & new & Hlog & Hlen & Hall & _).
  exists new. auto.
Qed.

Lemma no_exercise_shorter_than_both_holds_witness :
  exists new,
    exercise_log (run_ticks [(1001, look_right); (1016, look_right);
                             (1016, look_left); (1020, look_center); (1040, look_left)]
                    (start_at 1000 fresh_session)) = exercise_log fresh_session ++ new /\
    (List.length new <= 1)%nat /\
    Forall (fun r => 30 <= duration r /\ success r = true) new.
Proof.
  apply (no_exercise_shorter_than_both_holds fresh_session 1000
           [(1001, look_right); (1016, look_right);
            (1016, look_left); (1020, look_center); (1040, look_left)]).
  cbn. repeat split; lra.
Defined.

(** X17. In the same setting the two timers stay between 0 and 15
    seconds after every tick. *)
Theorem timers_stay_within_the_hold
  (w0 : World) (t0 : Q) (ticks : list (Q * Gaze)) :
  nondecreasing (t0 :: List.map fst ticks) ->
  let m := hm (run_ticks ticks (start_at t0 w0)) in
  0 <= time_left m /\ time_left m <= 15 /\
  0 <= paused_time_left m /\ paused_time_left m <= 15.
Proof.
  intros Hnd.
  destruct (on_schedule_ticks (exercise_log w0) ticks t0 (start_at t0 w0) Hnd
              (started_on_schedule t0 w0))
    as ((? & ?) & (? & ?) & _).
  cbv zeta. auto.
Qed.

Lemma timers_stay_within_the_hold_witness :
  time_left (hm (run_ticks [(1001, look_right); (1009, look_right); (1012, look_center)]
                   (start_at 1000 fresh_session))) <= 15.
Proof.
  destruct (timers_stay_within_the_hold fresh_session 1000
              [(1001, look_right); (1009, look_right); (1012, look_center)])
    as (_ & H & _).
  - cbn. repeat split; lra.
  - exact H.
Defined.

(** * Toasts that are not sent *)

Lemma should_notify_at t kind w :
  frozen t (clock w) ->
  should_notify kind w =
  (Qle_bool NOTIFICATION_COOLDOWN (t - default 0 (last_notification (hm w) !! kind)),
   w <| reads ::= S |>).
Proof.
  intros Hf. unfold should_notify, bind, time, self, ret. fields.
  rewrite Hf. reflexivity.
Qed.

Lemma sent_with_title_other title title' message delivered w w' :
  String.eqb title' title = false ->
  notified w' = notified w ++ [ {| toast_title := title';
                                   toast_message := message;
                                   toast_delivered := delivered |} ] ->
  sent_with_title title w' = sent_with_title title w.
Proof.
  intros Hne E. unfold sent_with_title. rewrite E, List.filter_app, length_app.
  cbn [List.filter toast_title]. rewrite Hne. cbn. lia.
Qed.

Ltac titled_fast_notify :=
  idtac;
  lazymatch goal with
  | |- preserves (titled _ _ _) (fast_notify _ _) =>
      let w := fresh "w" in let H := fresh "H" in
      intros w [? H]; split; [assumption|];
      etransitivity; [|exact H];
      eapply sent_with_title_other; [|unfold fast_notify; cbn [snd]; fields; reflexivity];
      reflexivity
  end.

(** At a frozen instant, a gated notification of [kind] closes or keeps
    closed the cooldown of [kind]. *)
Lemma gated_send_closes_cooldown t title message kind w :
  frozen t (clock w) ->
  let w1 := snd ((ok <- should_notify kind ;;
                  when ok (send_notification title message kind)) w) in
  frozen t (clock w1) /\
  Qle_bool NOTIFICATION_COOLDOWN (t - default 0 (last_notification (hm w1) !! kind)) = false /\
  eye_exercise_active (hm w1) = eye_exercise_active (hm w) /\
  (notified w1 = notified w \/
   notified w1 = notified w ++ [ {| toast_title := title; toast_message := message;
                                    toast_delivered := delivers (backends w) |} ]).
Proof.
  intros Hf. unfold bind at 1. rewrite (should_notify_at t) by exact Hf.
  destruct (Qle_bool NOTIFICATION_COOLDOWN
              (t - default 0 (last_notification (hm w) !! kind))) eqn:Hg; cbn [when].
  - set (w0 := w <| reads ::= S |>).
    assert (cooldown_elapsed kind w0 = true) as Ha.
    { unfold cooldown_elapsed, w0. fields. rewrite Hf. exact Hg. }
    destruct (send_notification_fires title message kind w0 Ha) as (Hn & Hl & Hc & Hb & _).
    cbv zeta. split; [rewrite Hc; exact Hf|]. split.
    + rewrite Hl. cbn [default]. unfold w0, id. fields. rewrite Hf.
      match goal with |- Qle_bool ?a ?b = false => destruct (Qle_bool a b) eqn:Hle end;
        [|reflexivity].
      apply Qle_bool_iff in Hle. unfold NOTIFICATION_COOLDOWN in Hle. lra.
    + split; [|right; exact Hn].
      unfold send_notification, bind. rewrite (should_notify_at t) by exact Hf.
      fold (cooldown_elapsed kind w) in Hg.
      unfold w0. fields. clear. unfold time, self, ret, update, fast_notify. fields.
      repeat match goal with
             | |- context [if ?b then _ else _] => destruct b
             | |- context [match ?x with Some _ => _ | None => _ end] => destruct x
             end; reflexivity.
  - cbv zeta. cbn [ret snd]. fields. auto.
Qed.

Lemma analyze_posture_value a w :
  analyze_posture (Some a) w =
  (if negb (mediapipe_available (hm w)) then None
   else Some {| tilt_angle := pose_tilt_angle a;
                slouch_ratio := pose_slouch_ratio a;
                is_tilted := negb (Qle_bool (Qabs (pose_tilt_angle a)) POSTURE_TILT_THRESHOLD);
                is_slouching := negb (Qle_bool (pose_slouch_ratio a) SLOUCH_THRESHOLD) |},
   w).
Proof.
  unfold analyze_posture, bind, self, ret.
  destruct (negb (mediapipe_available (hm w))); reflexivity.
Qed.

(** X19. A frame whose head tilt is above the threshold never produces
    the "Sit Up Straight" toast, however strong the slouch, when the frame
    is processed at one simulated instant: both posture alerts share the
    kind 'posture', and the tilt alert, sent first, closes the cooldown the
    slouch alert is gated by. *)
Theorem tilt_alert_shadows_slouch_alert
  (a : PoseAngles) (results : Results) (t : Q) (w : World) :
  POSTURE_TILT_THRESHOLD < Qabs (pose_tilt_angle a) ->
  let w0 := at_time t w in
  sent_with_title "💪 Sit Up Straight"
    (exec (pose_block (Returns (Some (Some a))) results) w0) =
  sent_with_title "💪 Sit Up Straight" w0.
Proof.
  intros Ht w0.
  assert (frozen t (clock w0)) as Hf by (intros n; reflexivity).
  apply Qle_bool_false in Ht.
  unfold exec, pose_block. unfold bind at 1. rewrite analyze_posture_value.
  unfold bind at 1. unfold self at 1.
  destruct (negb (mediapipe_available (hm w0))); [reflexivity|].
  cbn [is_tilted is_slouching]. rewrite Ht. cbn [negb].
  destruct (negb (eye_exercise_active (hm w0))); [|reflexivity].
  unfold bind at 1.
  pose proof (gated_send_closes_cooldown t "🎯 Adjust Your Posture"
                (Msg "Your head is tilted. Keep your head straight and aligned.")
                "posture" w0 Hf) as (Hf1 & Hg1 & _ & Hn1).
  cbv zeta in Hf1, Hg1, Hn1.
  match goal with
  | |- context [let (_, _) := ?c w0 in _] => destruct (c w0) as [u w1]
  end.
  cbn [snd] in Hf1, Hg1, Hn1.
  assert (sent_with_title "💪 Sit Up Straight" w1 = sent_with_title "💪 Sit Up Straight" w0)
    as <-.
  { destruct Hn1 as [E | E]; [unfold sent_with_title; rewrite E; reflexivity|].
    eapply sent_with_title_other; [|exact E]. reflexivity. }
  clear Hn1 Hf. clearbody w0. clear w0.
  unfold bind at 1.
  assert (exists w2,
            (if negb (Qle_bool (pose_slouch_ratio a) SLOUCH_THRESHOLD)
             then ok <- should_notify "posture" ;;
                  when ok
                    (send_notification "💪 Sit Up Straight"
                       (Msg "You're slouching. Straighten your back and relax your shoulders.")
                       "posture")
             else ret tt) w1 = (tt, w2) /\
            notified w2 = notified w1) as (w2 & -> & Hn2).
  { destruct (negb (Qle_bool (pose_slouch_ratio a) SLOUCH_THRESHOLD)).
    - unfold bind. rewrite (should_notify_at t) by exact Hf1. rewrite Hg1.
      eexists. split; reflexivity.
    - eexists. split; reflexivity. }
  assert (sent_with_title "💪 Sit Up Straight" w2 = sent_with_title "💪 Sit Up Straight" w1)
    as <- by (unfold sent_with_title; rewrite Hn2; reflexivity).
  match goal with
  | |- sent_with_title ?title (snd (?c w2)) = _ =>
      assert (preserves (titled (fun _ => True) title (sent_with_title title w2)) c) as Hp
  end.
  { inv_go titled_fast_notify. }
  apply (Hp w2). split; [exact I | reflexivity].
Qed.

Lemma tilt_alert_shadows_slouch_alert_witness :
  sent_with_title "💪 Sit Up Straight"
    (exec (pose_block (Returns (Some (Some {| pose_tilt_angle := 20;
                                              pose_slouch_ratio := 0.4 |})))
             no_results) (at_time 2000 fresh_session)) = 0%nat.
Proof.
  rewrite (tilt_alert_shadows_slouch_alert
             {| pose_tilt_angle := 20; pose_slouch_ratio := 0.4 |}
             no_results 2000 fresh_session).
  - reflexivity.
  - cbn. reflexivity.
Defined.

Ltac auto_mode_special :=
  idtac;
  first
    [ titled_fast_notify
    | lazymatch goal with
      | |- preserves (titled ?P _ _) (bind self _) =>
          apply (pres_bind_self P);
          [let H := fresh in intros ? [H _]; exact H | intros ? ?]
      | H : auto_mode ?m = true |- preserves _ (when (_ && negb (auto_mode ?m)) _) =>
          rewrite H, andb_false_r; unfold when; apply pres_ret
      end ].

(** X20. In auto mode the frame loop never sends the "Time for a Break!"
    toast, whatever the frames and however long the session: the screen-time
    check only feeds the exercise trigger there. *)
Theorem auto_mode_never_sends_break_reminder (frames : list Frame) (w : World) :
  auto_mode (hm w) = true ->
  sent_with_title "⏰ Time for a Break!" (exec (run_frames frames) w) =
  sent_with_title "⏰ Time for a Break!" w.
Proof.
  intros Ha.
  assert (preserves (titled (fun m => auto_mode m = true) "⏰ Time for a Break!"
                       (sent_with_title "⏰ Time for a Break!" w))
            (run_frames frames)) as Hp.
  { induction frames as [|frame frames IH]; cbn [run_frames]; [apply pres_ret|].
    apply pres_bind; [|intros [? | ?]; [exact IH | apply pres_ret]].
    inv_go auto_mode_special. }
  apply (Hp w). split; [exact Ha | reflexivity].
Qed.

Lemma auto_mode_never_sends_break_reminder_witness :
  sent_with_title "⏰ Time for a Break!"
    (exec (run_frames [close_face_frame; close_face_frame]) polling_session) = 0%nat.
Proof.
  rewrite (auto_mode_never_sends_break_reminder [close_face_frame; close_face_frame]
             polling_session).
  - reflexivity.
  - reflexivity.
Defined.

(** * Background switch *)

(** X21. [should_switch_to_background] answers [True] only on measured
    good values: the results must carry ['proximity_alert'] and
    ['low_blink_rate'], both [False] (a missing key counts as an alert), no
    exercise may be active, a posture entry must not be [None] nor report
    tilt or slouch, and the session must be older than 60 seconds at the
    clock sample the call takes. *)
Theorem background_switch_needs_measurements (results : Results) (w : World) :
  eval (should_switch_to_background results) w = true ->
  proximity_alert results = Some false /\
  low_blink_rate results = Some false /\
  eye_exercise_active (hm w) = false /\
  posture results <> Some None /\
  (forall p, posture results = Some (Some p) -> is_tilted p = false /\ is_slouching p = false) /\
  60 < clock w (reads w) - session_start (hm w).
Proof.
  unfold eval, should_switch_to_background, bind, self, time, ret. cbn [fst snd].
  intros H.
  assert (posture results <> Some None) as Hp.
  { intros E. rewrite E in H. discriminate. }
  assert (negb (default true (proximity_alert results)) &&
          negb (default true (low_blink_rate results)) &&
          negb (eye_exercise_active (hm w)) &&
          match posture results with
          | Some (Some p) => negb (is_tilted p || is_slouching p)
          | _ => true
          end &&
          negb (Qle_bool (clock w (reads w) - session_start (hm w)) 60) = true) as Hc.
  { destruct (posture results) as [[p|]|]; [exact H | contradiction | exact H]. }
  clear H. repeat (apply andb_prop in Hc as [Hc ?]).
  split; [destruct (proximity_alert results) as [[]|]; try discriminate; reflexivity|].
  split; [destruct (low_blink_rate results) as [[]|]; try discriminate; reflexivity|].
  split; [destruct (eye_exercise_active (hm w)); try discriminate; reflexivity|].
  split; [exact Hp|]. split.
  - intros p E. rewrite E in *.
    destruct (is_tilted p), (is_slouching p); try discriminate. auto.
  - apply Qle_bool_false. destruct (Qle_bool _ 60); [discriminate | reflexivity].
Qed.

Lemma background_switch_needs_measurements_witness :
  proximity_alert (no_results <| proximity_alert := Some false |>
                              <| low_blink_rate := Some false |>) = Some false.
Proof.
  destruct (background_switch_needs_measurements
              (no_results <| proximity_alert := Some false |>
                          <| low_blink_rate := Some false |>)
              (at_time 1100 fresh_session)) as (H & _).
  - reflexivity.
  - exact H.
Defined.

(** * The frame loop survives *)

Lemma first_entries_any temps : first_entries (fun _ => True) temps.
Proof.
  induction temps as [|[name entries] temps IH]; constructor; [|exact IH].
  cbn. destruct entries; exact I.
Qed.

Lemma system_health_block_returns sensors results w :
  (forall temps, sensors_temperatures sensors = Returns temps -> temps <> []) ->
  exists r, eval (system_health_block sensors results) w = Returns r.
Proof.
  intros Hs.
  destruct ((py_int (clock w (reads w)) mod 10 =? 0)%Z && negb (eye_exercise_active (hm w)))
    eqn:Hdue.
  - apply andb_prop in Hdue as [Hz Ha]. apply Z.eqb_eq in Hz.
    rewrite system_health_block_due
      by (split; [exact Hz | destruct (eye_exercise_active (hm w)); [discriminate | reflexivity]]).
    cbv zeta.
    destruct (match dict_get "available" _ with Some v => py_truthy v | None => false end);
      [|eauto].
    rewrite temperature_alerts_return; [eauto|].
    apply temp_values_system_info. intros temps E.
    split; [exact (Hs temps E) | apply first_entries_any].
  - unfold eval, system_health_block, bind, time, self. cbn [fst snd]. fields.
    rewrite Hdue. eauto.
Qed.

Lemma process_frame_returns frame w :
  has_temperatures frame -> exists r, eval (process_frame frame) w = Returns r.
Proof.
  intros Hs. unfold eval, process_frame. unfold bind at 1, self at 1.
  destruct (negb (mediapipe_available (hm w))); [eauto|].
  unfold bind at 1. destruct (auto_mode_check w) as [u w1].
  unfold bind at 1. destruct (face_block (frame_face frame) no_results w1) as [r1 w2].
  unfold bind at 1. destruct (pose_block (frame_pose frame) r1 w2) as [r2 w3].
  unfold bind at 1. destruct (screen_time_block r2 w3) as [r3 w4].
  apply system_health_block_returns. exact Hs.
Qed.

(** X22. The positive side of the temperature loop: when every frame is
    processed on a host whose temperature table is not empty (or whose
    sensor call raises, which [check_system_health] catches),
    [process_frame] returns for every frame, whatever the face mesh, the
    pose model and the metric extractors yield or raise, and the frame loop
    runs to the end. *)
Theorem frame_loop_survives_with_temperatures (frames : list Frame) (w : World) :
  Forall has_temperatures frames ->
  eval (run_frames frames) w = Returns tt.
Proof.
  intros Hall. revert w.
  induction Hall as [|frame frames Hs Hall IH]; intros w; [reflexivity|].
  unfold eval in *. cbn [run_frames]. unfold bind at 1.
  destruct (process_frame_returns frame w Hs) as [r E]. unfold eval in E.
  destruct (process_frame frame w) as [outcome w1]. cbn [fst] in E. subst outcome.
  apply IH.
Qed.

Lemma frame_loop_survives_with_temperatures_witness :
  eval (run_frames [close_face_frame; close_face_frame]) polling_session = Returns tt.
Proof.
  apply (frame_loop_survives_with_temperatures [close_face_frame; close_face_frame]).
  repeat constructor; intros temps E; inversion E; discriminate.
Defined.

(** * Frames without a face *)

Ltac exercising_special :=
  idtac;
  lazymatch goal with
  | |- preserves _ (face_block (Returns None) _) => apply pres_ret
  | |- preserves _ (bind self _) =>
      apply (pres_bind_self (fun m => eye_exercise_active m = true));
      [let H := fresh in intros ? H; apply H | intros ? ?]
  | H : eye_exercise_active ?m = true |- preserves _ ?c =>
      lazymatch c with
      | context [eye_exercise_active m] =>
          rewrite H; repeat first [progress cbn [negb andb when] | rewrite andb_false_r]
      end
  end.

Lemma faceless_frame_untouched x n s frame :
  frame_face frame = Returns None ->
  preserves (untouched x n s) (process_frame frame).
Proof.
  intros Hface. unfold process_frame. rewrite Hface. inv_go exercising_special.
Qed.

(** X23. While an exercise is active, frames in which the face mesh
    finds no face change nothing of the exercise: the phase, the countdown
    flag, its start instant and both timers stay as they are, no toast is
    sent and nothing is spoken.  Leaving the camera's view does not pause
    the countdown. *)
Theorem faceless_frames_do_not_pause (frames : list Frame) (w : World) :
  eye_exercise_active (hm w) = true ->
  Forall (fun frame => frame_face frame = Returns None) frames ->
  let w' := exec (run_frames frames) w in
  eye_exercise_active (hm w') = true /\
  exercise_fields (hm w') = exercise_fields (hm w) /\
  notified w' = notified w /\
  spoken w' = spoken w.
Proof.
  intros Ha Hall.
  assert (preserves (untouched (exercise_fields (hm w)) (notified w) (spoken w))
            (run_frames frames)) as Hp.
  { induction Hall as [|frame frames Hface Hall IH]; cbn [run_frames]; [apply pres_ret|].
    apply pres_bind; [apply faceless_frame_untouched, Hface|].
    intros [? | ?]; [exact IH | apply pres_ret]. }
  apply (Hp w). repeat split. exact Ha.
Qed.

Lemma faceless_frames_do_not_pause_witness :
  exercise_fields (hm (exec (run_frames [no_sensor_frame <| frame_sensors := cool_sensors |>])
                         counting_session)) =
  exercise_fields (hm counting_session).
Proof.
  destruct (faceless_frames_do_not_pause
              [no_sensor_frame <| frame_sensors := cool_sensors |>] counting_session)
    as (_ & H & _).
  - reflexivity.
  - repeat constructor.
  - exact H.
Defined.
